(** * Image service: validation, upload saga, queries and soft delete

    A shallow embedding of the Python service
    ([src/utils/validators.py], [src/models/image_model.py],
    [src/utils/s3_client.py], [src/utils/dynamodb_client.py],
    [src/services/image_service.py], [src/main.py], [src/handlers]) and
    the properties of its specification, followed by further properties
    of the code (X1, X2, ...).

    Conventions.
    - A Python [str] is a [string], one character per code point, for
      the code points below 256 (the file names, identifiers,
      timestamps, tags and page tokens of this service are ASCII; the
      text decoded from a page token is kept in UTF-8, see the codec).
      Where a property is about every [str], the text is a list of
      code points ([Text]).  Python [bytes] are [string]s too, one
      character per byte.
    - A Python [int] is a [Z]; [len] is [String.length] or [length].
    - The result dictionaries [{'success': ..., 'error': ...}] and
      [{'valid': ..., 'error': ...}] are inductive types with one
      constructor per shape the code builds.
    - The two AWS gateways are modelled at the interface their Python
      signatures give them ([-> bool], [-> Optional[...]], [-> Dict]): a
      call goes through or raises [ClientError], which the gateway turns
      into [False], [None] or an empty page.  (An exception of the SDK
      that is no [ClientError] is not modelled.)
    - Each method of the service catches [Exception] and answers an
      internal error; the exceptions of the model are the
      [ValidationError] of [ImageResponse] and the [KeyError] of a
      dictionary lookup. *)

From Stdlib Require Import ZArith NArith Ascii String List Lia Bool.
From stdpp Require Import base option list strings gmap.

Open Scope string_scope.
Open Scope list_scope.
Open Scope Z_scope.

(* ================================================================== *)
(** * Part I. Definitions *)
(* ================================================================== *)

(** ** Python string primitives *)

Module Py.

(** [c.isspace()] on a character below 256: tab, line feed, vertical
    tab, form feed, carriage return, the four separators 0x1c-0x1f,
    space, next line (0x85) and no-break space (0xa0).  These are also
    the characters that [strip] removes and that the pattern class
    [\s] matches. *)
Definition isspace (c : ascii) : bool :=
  let n := N_of_ascii c in
  ((9 <=? n) && (n <=? 13) || (28 <=? n) && (n <=? 32)
   || (n =? 133) || (n =? 160))%N.

Definition is_upper (c : ascii) : bool :=
  let n := N_of_ascii c in ((65 <=? n) && (n <=? 90))%N.

Definition is_lower (c : ascii) : bool :=
  let n := N_of_ascii c in ((97 <=? n) && (n <=? 122))%N.

Definition is_digit (c : ascii) : bool :=
  let n := N_of_ascii c in ((48 <=? n) && (n <=? 57))%N.

(** The capital letters 0xc0-0xde of Latin-1 (0xd7 is the
    multiplication sign). *)
Definition is_upper_latin1 (c : ascii) : bool :=
  let n := N_of_ascii c in ((192 <=? n) && (n <=? 222) && negb (n =? 215))%N.

Definition lower_char (c : ascii) : ascii :=
  if is_upper c || is_upper_latin1 c then ascii_of_N (N_of_ascii c + 32) else c.

(** [s.lower()] *)
Fixpoint lower (s : string) : string :=
  match s with
  | EmptyString => EmptyString
  | String c r => String (lower_char c) (lower r)
  end.

(** [s.split(sep)] for a one-character separator: never empty, the
    segments between the occurrences of [sep]. *)
Fixpoint split (sep : ascii) (s : string) : list string :=
  match s with
  | EmptyString => [EmptyString]
  | String c r =>
      if Ascii.eqb c sep then EmptyString :: split sep r
      else match split sep r with
           | h :: t => String c h :: t
           | [] => [String c EmptyString]
           end
  end.

(** [l[-1]]; [None] stands for the [IndexError] of an empty list. *)
Fixpoint last_item {A} (l : list A) : option A :=
  match l with
  | [] => None
  | [x] => Some x
  | _ :: t => last_item t
  end.

(** [s.lstrip()], [s.rstrip()], [s.strip()] *)
Fixpoint lstrip (s : string) : string :=
  match s with
  | EmptyString => EmptyString
  | String c r => if isspace c then lstrip r else s
  end.

Fixpoint rstrip (s : string) : string :=
  match s with
  | EmptyString => EmptyString
  | String c r =>
      match rstrip r with
      | EmptyString => if isspace c then EmptyString else String c EmptyString
      | r' => String c r'
      end
  end.

Definition strip (s : string) : string := rstrip (lstrip s).

(** [sep.join(l)] *)
Fixpoint join (sep : string) (l : list string) : string :=
  match l with
  | [] => EmptyString
  | [x] => x
  | x :: t => x +:+ sep +:+ join sep t
  end.

(** [sub in s] *)
Fixpoint contains (sub s : string) : bool :=
  String.prefix sub s ||
  match s with
  | EmptyString => false
  | String _ r => contains sub r
  end.

(** [c in s] for a character *)
Definition has_char (c : ascii) (s : string) : bool :=
  existsb (Ascii.eqb c) (list_ascii_of_string s).

(** Truth value of a string: [if s:] *)
Definition truthy (s : string) : bool :=
  match s with EmptyString => false | _ => true end.

(** Truth value of an [Optional[str]]: [None] and [''] are false. *)
Definition truthy_opt (o : option string) : bool :=
  match o with Some s => truthy s | None => false end.

Definition all_chars (p : ascii -> bool) (s : string) : bool :=
  forallb p (list_ascii_of_string s).

Definition len (s : string) : Z := Z.of_nat (String.length s).

(** [x in l] for a collection of strings *)
Definition mem (x : string) (l : list string) : bool :=
  existsb (String.eqb x) l.

End Py.

(** ** [src/utils/validators.py] *)

(** [{'valid': True}] and [{'valid': False, 'error': msg}] *)
Inductive Validation : Type :=
| Valid
| Invalid (error : string).

Definition is_valid (v : Validation) : bool :=
  match v with Valid => true | Invalid _ => false end.

Module ImageValidator.

Definition ALLOWED_EXTENSIONS : list string :=
  ["jpg"; "jpeg"; "png"; "gif"; "webp"].
Definition MAX_FILE_SIZE : Z := 10 * 1024 * 1024.
Definition MIN_FILE_SIZE : Z := 1024.
Definition MAX_DIMENSION : Z := 4000.
Definition MIN_DIMENSION : Z := 50.

(** [extension = filename.lower().split('.')[-1]] *)
Definition extension_of (filename : string) : string :=
  default EmptyString (Py.last_item (Py.split "." (Py.lower filename))).

Definition validate_file_extension (filename : string) : bool :=
  if negb (Py.truthy filename) then false
  else Py.mem (extension_of filename) ALLOWED_EXTENSIONS.

Definition validate_file_size (file_size : Z) : bool :=
  (MIN_FILE_SIZE <=? file_size) && (file_size <=? MAX_FILE_SIZE).

(** What [Image.open] reads from a buffer it can decode: [image.size]
    and [image.format]. *)
Record Decoded : Type := mkDecoded {
  dec_width : Z;
  dec_height : Z;
  dec_format : option string
}.

(** [{'valid': True, 'width': .., 'height': .., 'format': ..}] or
    [{'valid': False, 'error': ..}] *)
Inductive ContentValidation : Type :=
| ContentValid (width height : Z) (format : string)
| ContentInvalid (error : string).

(** The outcome of [Image.open(io.BytesIO(file_content))]: an image,
    or an exception with its text. *)
Inductive Opened : Type :=
| Opens (image : Decoded)
| Raises (message : string).

(** [validate_image_content], on the outcome of [Image.open]. *)
Definition validate_image_content (opened : Opened) : ContentValidation :=
  match opened with
  | Raises message => ContentInvalid ("Invalid image file: " +:+ message)
  | Opens image =>
      let width := dec_width image in
      let height := dec_height image in
      let format_type :=
        match dec_format image with
        | Some f => if Py.truthy f then Py.lower f else "unknown"
        | None => "unknown"
        end in
      if (width <? MIN_DIMENSION) || (height <? MIN_DIMENSION)
         || (width >? MAX_DIMENSION) || (height >? MAX_DIMENSION)
      then ContentInvalid "Image dimensions must be between 50px and 4000px"
      else ContentValid width height format_type
  end.

Definition ALLOWED_MIME_TYPES : list string :=
  ["image/jpeg"; "image/jpg"; "image/png"; "image/gif"; "image/webp"].

(** [mime_type.lower() in ALLOWED_MIME_TYPES] *)
Definition validate_mime_type (mime_type : string) : bool :=
  Py.mem (Py.lower mime_type) ALLOWED_MIME_TYPES.

End ImageValidator.

Module MetadataValidator.

Definition MAX_TITLE_LENGTH : Z := 200.
Definition MAX_DESCRIPTION_LENGTH : Z := 1000.
Definition MAX_TAGS_COUNT : Z := 10.
Definition MAX_TAG_LENGTH : Z := 50.

Definition validate_title (title : option string) : Validation :=
  match title with
  | None => Valid
  | Some t =>
      if negb (Py.truthy t) then Valid
      else if Py.len (Py.strip t) =? 0 then Invalid "Title cannot be empty"
      else if Py.len t >? MAX_TITLE_LENGTH
           then Invalid "Title must be less than 200 characters"
      else Valid
  end.

Definition validate_description (description : option string) : Validation :=
  match description with
  | None => Valid
  | Some d =>
      if negb (Py.truthy d) then Valid
      else if Py.len d >? MAX_DESCRIPTION_LENGTH
           then Invalid "Description must be less than 1000 characters"
      else Valid
  end.

(** The character class [[a-zA-Z0-9\s\-_]] *)
Definition tag_char (c : ascii) : bool :=
  Py.is_lower c || Py.is_upper c || Py.is_digit c || Py.isspace c
  || Ascii.eqb c "-" || Ascii.eqb c "_".

(** [re.match(r'^[a-zA-Z0-9\s\-_]+$', tag)]: the class contains the
    line feed, so the optional final line feed that [$] tolerates is
    already a character of the class. *)
Definition tag_re_match (tag : string) : bool :=
  Py.truthy tag && Py.all_chars tag_char tag.

(** The loop body of [validate_tags] for one tag: [None] to go on. *)
Definition check_tag (tag : string) : option string :=
  if Py.len (Py.strip tag) =? 0 then Some "Tags cannot be empty"
  else if Py.len tag >? MAX_TAG_LENGTH
       then Some "Each tag must be less than 50 characters"
  else if negb (tag_re_match tag)
       then Some "Tags can only contain letters, numbers, spaces, hyphens, and underscores"
  else None.

Fixpoint check_tags (tags : list string) : Validation :=
  match tags with
  | [] => Valid
  | tag :: rest =>
      match check_tag tag with
      | Some e => Invalid e
      | None => check_tags rest
      end
  end.

Definition validate_tags (tags : option (list string)) : Validation :=
  match tags with
  | None => Valid
  | Some [] => Valid
  | Some l =>
      if Z.of_nat (length l) >? MAX_TAGS_COUNT
      then Invalid "Maximum 10 tags allowed"
      else check_tags l
  end.

(** The character class [[a-zA-Z0-9\-_]] *)
Definition user_id_char (c : ascii) : bool :=
  Py.is_lower c || Py.is_upper c || Py.is_digit c
  || Ascii.eqb c "-" || Ascii.eqb c "_".

(** [re.match(r'^[a-zA-Z0-9\-_]+$', s)]: one or more characters of the
    class, then the end of the string or one final line feed. *)
Fixpoint user_id_re_tail (s : string) : bool :=
  match s with
  | EmptyString => true
  | String c r =>
      if user_id_char c then user_id_re_tail r
      else Ascii.eqb c "010" && negb (Py.truthy r)
  end.

Definition user_id_re_match (s : string) : bool :=
  match s with
  | EmptyString => false
  | String c r => user_id_char c && user_id_re_tail r
  end.

Definition validate_user_id (user_id : option string) : Validation :=
  match user_id with
  | None => Invalid "User ID is required"
  | Some u =>
      if negb (Py.truthy u) then Invalid "User ID is required"
      else if Py.len (Py.strip u) =? 0 then Invalid "User ID cannot be empty"
      else if negb (user_id_re_match u)
           then Invalid "User ID can only contain letters, numbers, hyphens, and underscores"
      else Valid
  end.

End MetadataValidator.

Module QueryValidator.

Definition MAX_LIMIT : Z := 100.
Definition MIN_LIMIT : Z := 1.

(** [{'valid': True, 'value': ..}] or [{'valid': False, 'error': ..}] *)
Inductive LimitValidation : Type :=
| LimitValid (value : Z)
| LimitInvalid (error : string).

(** [validate_limit]; the argument is an [int] or [None], on which
    [int(limit)] does not raise. *)
Definition validate_limit (limit : option Z) : LimitValidation :=
  match limit with
  | None => LimitValid 20
  | Some limit =>
      if limit <? MIN_LIMIT then LimitInvalid "Limit must be at least 1"
      else if limit >? MAX_LIMIT then LimitInvalid "Limit cannot exceed 100"
      else LimitValid limit
  end.

Inductive KeyValidation : Type :=
| KeyValid (value : option string)
| KeyInvalid (error : string).

(** [validate_last_evaluated_key]; the argument is a [str] or [None]. *)
Definition validate_last_evaluated_key (key : option string) : KeyValidation :=
  match key with
  | None => KeyValid None
  | Some k =>
      if Py.len (Py.strip k) >? 0 then KeyValid (Some k)
      else KeyInvalid "Invalid pagination key"
  end.

End QueryValidator.

(** ** [str] in full, and the two validators that depend on it

    A [string] has one character per code point below 256.  Where a
    property is about every [str], the text is the list of its code
    points, and a validator is written once more over it; on the
    strings it is the validator above ([validate_title_of_string],
    [validate_tags_of_string]). *)

Module Text.

Definition text : Type := list N.

(** [c.isspace()], which is also what [strip] removes and what the
    pattern class [\s] matches: the characters below 256 as in
    [Py.isspace], and U+1680, U+2000-U+200A, U+2028, U+2029, U+202F,
    U+205F, U+3000. *)
Definition isspace (c : N) : bool :=
  ((9 <=? c) && (c <=? 13) || (28 <=? c) && (c <=? 32)
   || (c =? 133) || (c =? 160) || (c =? 5760)
   || (8192 <=? c) && (c <=? 8202)
   || (c =? 8232) || (c =? 8233) || (c =? 8239) || (c =? 8287) || (c =? 12288))%N.

Fixpoint lstrip (s : text) : text :=
  match s with
  | [] => []
  | c :: r => if isspace c then lstrip r else s
  end.

Fixpoint rstrip (s : text) : text :=
  match s with
  | [] => []
  | c :: r =>
      match rstrip r with
      | [] => if isspace c then [] else [c]
      | r' => c :: r'
      end
  end.

Definition strip (s : text) : text := rstrip (lstrip s).

Definition len (s : text) : Z := Z.of_nat (length s).

Definition truthy (s : text) : bool :=
  match s with [] => false | _ => true end.

(** The text of a string. *)
Definition of_string (s : string) : text :=
  map N_of_ascii (list_ascii_of_string s).

(** [MetadataValidator.validate_title] *)
Definition validate_title (title : option text) : Validation :=
  match title with
  | None => Valid
  | Some t =>
      if negb (truthy t) then Valid
      else if len (strip t) =? 0 then Invalid "Title cannot be empty"
      else if len t >? MetadataValidator.MAX_TITLE_LENGTH
           then Invalid "Title must be less than 200 characters"
      else Valid
  end.

(** The character class [[a-zA-Z0-9\s\-_]] *)
Definition tag_char (c : N) : bool :=
  ((97 <=? c) && (c <=? 122) || (65 <=? c) && (c <=? 90)
   || (48 <=? c) && (c <=? 57))%N
  || isspace c || (c =? 45)%N || (c =? 95)%N.

(** [re.match(r'^[a-zA-Z0-9\s\-_]+$', tag)] *)
Definition tag_re_match (tag : text) : bool :=
  truthy tag && forallb tag_char tag.

Definition check_tag (tag : text) : option string :=
  if len (strip tag) =? 0 then Some "Tags cannot be empty"
  else if len tag >? MetadataValidator.MAX_TAG_LENGTH
       then Some "Each tag must be less than 50 characters"
  else if negb (tag_re_match tag)
       then Some "Tags can only contain letters, numbers, spaces, hyphens, and underscores"
  else None.

Fixpoint check_tags (tags : list text) : Validation :=
  match tags with
  | [] => Valid
  | tag :: rest =>
      match check_tag tag with
      | Some e => Invalid e
      | None => check_tags rest
      end
  end.

(** [MetadataValidator.validate_tags] *)
Definition validate_tags (tags : option (list text)) : Validation :=
  match tags with
  | None => Valid
  | Some [] => Valid
  | Some l =>
      if Z.of_nat (length l) >? MetadataValidator.MAX_TAGS_COUNT
      then Invalid "Maximum 10 tags allowed"
      else check_tags l
  end.

End Text.

(** ** The page-token codec: [base64] and [json]

    [list_images] decodes a token with
    [json.loads(base64.b64decode(page_token).decode())] and encodes the
    store's next key with
    [base64.b64encode(json.dumps(key).encode()).decode()].  The library
    functions are modelled after CPython: [binascii.a2b_base64] in its
    default, non-strict mode, the strict UTF-8 decoder, and the [json]
    scanner and ASCII encoder.

    The text decoded from a token may hold any Unicode character: it is
    kept in its UTF-8 encoding, one [ascii] per byte, and a lone
    surrogate written as an escape gets the three-byte form.  Left out
    are the two limits that make CPython raise on very long inputs (the
    recursion limit of the scanner and the digit limit of [int]) and the
    underflow of a float literal to zero in the truth value of a
    number. *)

Module Base64.

(** The character of a 6-bit value in the standard alphabet. *)
Definition b64_char (n : N) : ascii :=
  if (n <? 26)%N then ascii_of_N (n + 65)
  else if (n <? 52)%N then ascii_of_N (n + 71)
  else if (n <? 62)%N then ascii_of_N (n - 4)
  else if (n =? 62)%N then "+"%char
  else "/"%char.

(** The 6-bit value of a character of the alphabet ([table_a2b_base64]). *)
Definition b64_index (c : ascii) : option N :=
  let n := N_of_ascii c in
  if Py.is_upper c then Some (n - 65)%N
  else if Py.is_lower c then Some (n - 71)%N
  else if Py.is_digit c then Some (n + 4)%N
  else if Ascii.eqb c "+" then Some 62%N
  else if Ascii.eqb c "/" then Some 63%N
  else None.

Definition byte (n : N) : ascii := ascii_of_N (n mod 256).

Definition sextet0 (a : ascii) : N := N.shiftr (N_of_ascii a) 2.
Definition sextet1 (a b : ascii) : N :=
  N.lor (N.shiftl (N.land (N_of_ascii a) 3) 4) (N.shiftr (N_of_ascii b) 4).
Definition sextet2 (b c : ascii) : N :=
  N.lor (N.shiftl (N.land (N_of_ascii b) 15) 2) (N.shiftr (N_of_ascii c) 6).
Definition sextet3 (c : ascii) : N := N.land (N_of_ascii c) 63.

Definition NUL : ascii := "000"%char.

(** [binascii.b2a_base64(s, newline=False)] *)
Fixpoint b2a_base64 (s : string) : string :=
  match s with
  | EmptyString => EmptyString
  | String a EmptyString =>
      String (b64_char (sextet0 a)) (String (b64_char (sextet1 a NUL)) "==")
  | String a (String b EmptyString) =>
      String (b64_char (sextet0 a)) (String (b64_char (sextet1 a b))
        (String (b64_char (sextet2 b NUL)) "="))
  | String a (String b (String c r)) =>
      String (b64_char (sextet0 a)) (String (b64_char (sextet1 a b))
        (String (b64_char (sextet2 b c)) (String (b64_char (sextet3 c))
          (b2a_base64 r))))
  end.

Definition b64encode (s : string) : string := b2a_base64 s.

(** The loop of [binascii.a2b_base64] with [strict_mode] off, on the
    rest of the input and the variables [quad_pos], [leftchar] and
    [pads]; [None] is [binascii.Error].  A character outside the
    alphabet is skipped; a pad that completes a quad ends the parse. *)
Fixpoint a2b_loop (s : string) (quad_pos leftchar pads : N) : option string :=
  match s with
  | EmptyString => if (quad_pos =? 0)%N then Some EmptyString else None
  | String c r =>
      if Ascii.eqb c "=" then
        if (2 <=? quad_pos)%N then
          if (4 <=? quad_pos + (pads + 1))%N then Some EmptyString
          else a2b_loop r quad_pos leftchar (pads + 1)%N
        else a2b_loop r quad_pos leftchar pads
      else
        match b64_index c with
        | None => a2b_loop r quad_pos leftchar pads
        | Some v =>
            if (quad_pos =? 0)%N then a2b_loop r 1%N v 0%N
            else if (quad_pos =? 1)%N then
              String (byte (N.lor (N.shiftl leftchar 2) (N.shiftr v 4)))
                <$> a2b_loop r 2%N (N.land v 15) 0%N
            else if (quad_pos =? 2)%N then
              String (byte (N.lor (N.shiftl leftchar 4) (N.shiftr v 2)))
                <$> a2b_loop r 3%N (N.land v 3) 0%N
            else
              String (byte (N.lor (N.shiftl leftchar 6) v))
                <$> a2b_loop r 0%N 0%N 0%N
        end
  end.

Definition is_ascii (c : ascii) : bool := (N_of_ascii c <? 128)%N.

(** [base64.b64decode(s)] on a [str]: [s.encode('ascii')] raises
    [ValueError] on a non-ASCII character. *)
Definition b64decode (s : string) : option string :=
  if Py.all_chars is_ascii s then a2b_loop s 0%N 0%N 0%N else None.

End Base64.

Module Utf8.

Definition in_range (lo hi : N) (c : ascii) : bool :=
  let n := N_of_ascii c in ((lo <=? n) && (n <=? hi))%N.

Definition cont : ascii -> bool := in_range 128 191.

(** Well-formed UTF-8, the sequences the strict decoder accepts. *)
Fixpoint valid (s : string) : bool :=
  match s with
  | EmptyString => true
  | String a r =>
      if in_range 0 127 a then valid r
      else match r with
      | EmptyString => false
      | String b r1 =>
          if in_range 194 223 a then cont b && valid r1
          else match r1 with
          | EmptyString => false
          | String c r2 =>
              if in_range 224 224 a then in_range 160 191 b && cont c && valid r2
              else if in_range 225 236 a then cont b && cont c && valid r2
              else if in_range 237 237 a then in_range 128 159 b && cont c && valid r2
              else if in_range 238 239 a then cont b && cont c && valid r2
              else match r2 with
              | EmptyString => false
              | String d r3 =>
                  if in_range 240 240 a
                  then in_range 144 191 b && cont c && cont d && valid r3
                  else if in_range 241 243 a
                  then cont b && cont c && cont d && valid r3
                  else if in_range 244 244 a
                  then in_range 128 143 b && cont c && cont d && valid r3
                  else false
              end
          end
      end
  end.

(** [b.decode()]: the text, kept in its UTF-8 encoding, or [None] for
    [UnicodeDecodeError]. *)
Definition decode (b : string) : option string :=
  if valid b then Some b else None.

(** The encoding of one code point (a lone surrogate gets the
    three-byte form). *)
Definition encode_cp (n : N) : string :=
  if (n <? 128)%N then String (ascii_of_N n) EmptyString
  else if (n <? 2048)%N then
    String (ascii_of_N (192 + n / 64))
      (String (ascii_of_N (128 + n mod 64)) EmptyString)
  else if (n <? 65536)%N then
    String (ascii_of_N (224 + n / 4096))
      (String (ascii_of_N (128 + (n / 64) mod 64))
        (String (ascii_of_N (128 + n mod 64)) EmptyString))
  else
    String (ascii_of_N (240 + n / 262144))
      (String (ascii_of_N (128 + (n / 4096) mod 64))
        (String (ascii_of_N (128 + (n / 64) mod 64))
          (String (ascii_of_N (128 + n mod 64)) EmptyString))).

End Utf8.

Module Json.

(** What [json.loads] returns.  A number keeps its literal (with
    [NaN], [Infinity] and [-Infinity], which Python accepts); an
    object is a Python [dict], kept in insertion order. *)
#[warnings="-register-all"] Inductive value : Type :=
| JNull
| JBool (b : bool)
| JNum (lexeme : string)
| JStr (s : string)
| JArr (items : list value)
| JObj (members : list (string * value)).

(** [d[k] = v] on an insertion-ordered dictionary. *)
Fixpoint dict_set {A} (d : list (string * A)) (k : string) (v : A)
  : list (string * A) :=
  match d with
  | [] => [(k, v)]
  | (k', v') :: r =>
      if String.eqb k' k then (k', v) :: r else (k', v') :: dict_set r k v
  end.

Definition DQUOTE : ascii := "034"%char.
Definition BACKSLASH : ascii := "092"%char.

Definition is_ws (c : ascii) : bool :=
  Ascii.eqb c " " || Ascii.eqb c "009" || Ascii.eqb c "010" || Ascii.eqb c "013".

Fixpoint skip_ws (s : string) : string :=
  match s with
  | EmptyString => EmptyString
  | String c r => if is_ws c then skip_ws r else s
  end.

Definition hex_val (c : ascii) : option N :=
  let n := N_of_ascii c in
  if Py.is_digit c then Some (n - 48)%N
  else if ((97 <=? n) && (n <=? 102))%N then Some (n - 87)%N
  else if ((65 <=? n) && (n <=? 70))%N then Some (n - 55)%N
  else None.

Definition hex4 (a b c d : ascii) : option N :=
  match hex_val a, hex_val b, hex_val c, hex_val d with
  | Some x, Some y, Some z, Some w => Some (((x * 16 + y) * 16 + z) * 16 + w)%N
  | _, _, _, _ => None
  end.

Definition is_high_surrogate (n : N) : bool := ((55296 <=? n) && (n <=? 56319))%N.
Definition is_low_surrogate (n : N) : bool := ((56320 <=? n) && (n <=? 57343))%N.
Definition join_surrogates (hi lo : N) : N :=
  (65536 + (hi - 55296) * 1024 + (lo - 56320))%N.

(** The one-letter escapes of a JSON string. *)
Definition simple_escape (e : ascii) : option ascii :=
  if Ascii.eqb e DQUOTE then Some DQUOTE
  else if Ascii.eqb e BACKSLASH then Some BACKSLASH
  else if Ascii.eqb e "/" then Some "/"%char
  else if Ascii.eqb e "b" then Some "008"%char
  else if Ascii.eqb e "f" then Some "012"%char
  else if Ascii.eqb e "n" then Some "010"%char
  else if Ascii.eqb e "r" then Some "013"%char
  else if Ascii.eqb e "t" then Some "009"%char
  else None.

Definition prepend (p : string) (r : option (string * string))
  : option (string * string) :=
  match r with
  | Some (s, rest) => Some (p +:+ s, rest)
  | None => None
  end.

(** [scanstring] in strict mode, from the character after the opening
    quote: the string and the input after its closing quote. *)
Fixpoint scanstring (s : string) : option (string * string) :=
  match s with
  | EmptyString => None
  | String c r =>
      if Ascii.eqb c DQUOTE then Some (EmptyString, r)
      else if Ascii.eqb c BACKSLASH then
        match r with
        | EmptyString => None
        | String e r1 =>
            if Ascii.eqb e "u" then
              match r1 with
              | String h1 (String h2 (String h3 (String h4 r2))) =>
                  match hex4 h1 h2 h3 h4 with
                  | None => None
                  | Some cu =>
                      if is_high_surrogate cu then
                        match r2 with
                        | String b1 (String b2 (String g1 (String g2 (String g3 (String g4 r3))))) =>
                            if Ascii.eqb b1 BACKSLASH && Ascii.eqb b2 "u"
                            then match hex4 g1 g2 g3 g4 with
                                 | None => None
                                 | Some cu2 =>
                                     if is_low_surrogate cu2
                                     then prepend (Utf8.encode_cp (join_surrogates cu cu2))
                                            (scanstring r3)
                                     else prepend (Utf8.encode_cp cu) (scanstring r2)
                                 end
                            else prepend (Utf8.encode_cp cu) (scanstring r2)
                        | _ => prepend (Utf8.encode_cp cu) (scanstring r2)
                        end
                      else prepend (Utf8.encode_cp cu) (scanstring r2)
                  end
              | _ => None
              end
            else
              match simple_escape e with
              | Some ch => prepend (String ch EmptyString) (scanstring r1)
              | None => None
              end
        end
      else if (N_of_ascii c <=? 31)%N then None
      else prepend (String c EmptyString) (scanstring r)
  end.

(** The longest prefix of digits, and the rest. *)
Fixpoint take_digits (s : string) : string * string :=
  match s with
  | EmptyString => (EmptyString, EmptyString)
  | String c r =>
      if Py.is_digit c
      then let '(ds, rest) := take_digits r in (String c ds, rest)
      else (EmptyString, s)
  end.

(** The four parts of a number literal: each takes what it matches
    from the front of the input and leaves the rest. *)
Definition match_sign (s : string) : string * string :=
  match s with
  | String c r => if Ascii.eqb c "-" then ("-", r) else (EmptyString, s)
  | EmptyString => (EmptyString, s)
  end.

(** [0], or a digit from 1 to 9 and the digits after it. *)
Definition match_int (s : string) : option (string * string) :=
  match s with
  | EmptyString => None
  | String c r =>
      if Ascii.eqb c "0" then Some ("0", r)
      else if Py.is_digit c
           then let '(ds, rest) := take_digits r in Some (String c ds, rest)
      else None
  end.

(** A dot and at least one digit, or nothing. *)
Definition match_frac (s : string) : string * string :=
  match s with
  | String dot (String d r) =>
      if Ascii.eqb dot "." && Py.is_digit d
      then let '(ds, rest) := take_digits r in (String dot (String d ds), rest)
      else (EmptyString, s)
  | _ => (EmptyString, s)
  end.

(** [e] or [E], an optional sign and at least one digit, or nothing. *)
Definition match_exp (s : string) : string * string :=
  match s with
  | String e r =>
      if Ascii.eqb e "e" || Ascii.eqb e "E" then
        let '(sg, r') :=
          match r with
          | String g t =>
              if Ascii.eqb g "-" || Ascii.eqb g "+"
              then (String g EmptyString, t) else (EmptyString, r)
          | EmptyString => (EmptyString, r)
          end in
        let '(ds, rest) := take_digits r' in
        if Py.truthy ds then (String e (sg +:+ ds), rest)
        else (EmptyString, s)
      else (EmptyString, s)
  | EmptyString => (EmptyString, s)
  end.

(** [_match_number]: sign, integer part, and the fraction and the
    exponent when they are complete. *)
Definition match_number (s : string) : option (string * string) :=
  let '(sign, s1) := match_sign s in
  match match_int s1 with
  | None => None
  | Some (ip, r1) =>
      let '(frac, r2) := match_frac r1 in
      let '(expo, r3) := match_exp r2 in
      Some (sign +:+ ip +:+ frac +:+ expo, r3)
  end.

(** The rest of [s] after the prefix [p]. *)
Fixpoint drop_prefix (p s : string) : option string :=
  match p, s with
  | EmptyString, _ => Some s
  | String a p', String b s' => if Ascii.eqb a b then drop_prefix p' s' else None
  | String _ _, EmptyString => None
  end.

(** A value that is neither a string, an object nor an array, from its
    first character [c] and the input [r] after it: [null], [true],
    [false], [NaN], [Infinity], [-Infinity], or a number. *)
Definition scan_literal (c : ascii) (r : string) : option (value * string) :=
  let constant (c0 : ascii) (tail : string) (v : value) :=
    if Ascii.eqb c c0
    then match drop_prefix tail r with
         | Some rest => Some (v, rest)
         | None => None
         end
    else None in
  match constant "n"%char "ull" JNull with
  | Some x => Some x
  | None =>
  match constant "t"%char "rue" (JBool true) with
  | Some x => Some x
  | None =>
  match constant "f"%char "alse" (JBool false) with
  | Some x => Some x
  | None =>
  match constant "N"%char "aN" (JNum "NaN") with
  | Some x => Some x
  | None =>
  match constant "I"%char "nfinity" (JNum "Infinity") with
  | Some x => Some x
  | None =>
  match constant "-"%char "Infinity" (JNum "-Infinity") with
  | Some x => Some x
  | None =>
      match match_number (String c r) with
      | Some (lexeme, rest) => Some (JNum lexeme, rest)
      | None => None
      end
  end end end end end end.

(** [scan_once] with its two helpers [_parse_array] and
    [_parse_object]; [fuel] bounds the depth of the recursion. *)
Fixpoint scan_once (fuel : nat) (s : string) : option (value * string) :=
  match fuel with
  | O => None
  | S fuel' =>
      match s with
      | EmptyString => None
      | String c r =>
          if Ascii.eqb c DQUOTE then
            match scanstring r with
            | Some (str, rest) => Some (JStr str, rest)
            | None => None
            end
          else if Ascii.eqb c "{" then
            match skip_ws r with
            | String c' r' =>
                if Ascii.eqb c' "}" then Some (JObj [], r')
                else match object_members fuel' (skip_ws r) [] with
                     | Some (d, rest) => Some (JObj d, rest)
                     | None => None
                     end
            | EmptyString => None
            end
          else if Ascii.eqb c "[" then
            match skip_ws r with
            | String c' r' =>
                if Ascii.eqb c' "]" then Some (JArr [], r')
                else match array_items fuel' (skip_ws r) with
                     | Some (l, rest) => Some (JArr l, rest)
                     | None => None
                     end
            | EmptyString => None
            end
          else scan_literal c r
      end
  end

with array_items (fuel : nat) (s : string) : option (list value * string) :=
  match fuel with
  | O => None
  | S fuel' =>
      match scan_once fuel' s with
      | None => None
      | Some (v, r) =>
          match skip_ws r with
          | EmptyString => None
          | String c r' =>
              if Ascii.eqb c "]" then Some ([v], r')
              else if Ascii.eqb c "," then
                match array_items fuel' (skip_ws r') with
                | Some (l, rest) => Some (v :: l, rest)
                | None => None
                end
              else None
          end
      end
  end

with object_members (fuel : nat) (s : string) (acc : list (string * value))
  : option (list (string * value) * string) :=
  match fuel with
  | O => None
  | S fuel' =>
      match s with
      | EmptyString => None
      | String q r =>
          if negb (Ascii.eqb q DQUOTE) then None
          else
            match scanstring r with
            | None => None
            | Some (key, r1) =>
                match skip_ws r1 with
                | EmptyString => None
                | String colon r2 =>
                    if negb (Ascii.eqb colon ":") then None
                    else
                      match scan_once fuel' (skip_ws r2) with
                      | None => None
                      | Some (val, r3) =>
                          let acc' := dict_set acc key val in
                          match skip_ws r3 with
                          | EmptyString => None
                          | String c r4 =>
                              if Ascii.eqb c "}" then Some (acc', r4)
                              else if Ascii.eqb c ","
                              then object_members fuel' (skip_ws r4) acc'
                              else None
                          end
                      end
                end
            end
      end
  end.

(** [json.loads(s)] with a given fuel. *)
Definition loads_with (fuel : nat) (s : string) : option value :=
  match scan_once fuel (skip_ws s) with
  | Some (v, rest) =>
      match skip_ws rest with
      | EmptyString => Some v
      | _ => None
      end
  | None => None
  end.

(** [json.loads(s)]: one value between optional whitespace; [None]
    is [JSONDecodeError].  The fuel is more than the scanner can use
    on [s]. *)
Definition loads (s : string) : option value :=
  loads_with (2 * String.length s + 2) s.

(** A [dict] of strings to strings, as DynamoDB's [LastEvaluatedKey]
    is for a table and an index whose key attributes are strings. *)
Definition Cursor : Type := list (string * string).

(** The keys and the values are ASCII text. *)
Definition ascii_cursor (d : Cursor) : bool :=
  forallb (fun kv => Py.all_chars Base64.is_ascii kv.1
                     && Py.all_chars Base64.is_ascii kv.2) d.

(** A cursor, as Python has it: a dictionary (no key twice) of ASCII
    strings. *)
Definition valid_cursor (d : Cursor) : Prop :=
  NoDup (map fst d) /\ ascii_cursor d = true.

Definition hex_digit (n : N) : ascii :=
  if (n <? 10)%N then ascii_of_N (48 + n) else ascii_of_N (87 + n).

(** One character under [ensure_ascii]: printable ASCII is kept, the
    quote, the backslash and five controls get their short escape,
    everything else a [\uXXXX] escape. *)
Definition escape_char (c : ascii) : string :=
  let n := N_of_ascii c in
  if Ascii.eqb c DQUOTE then String BACKSLASH (String DQUOTE EmptyString)
  else if Ascii.eqb c BACKSLASH then String BACKSLASH (String BACKSLASH EmptyString)
  else if Ascii.eqb c "010" then String BACKSLASH "n"
  else if Ascii.eqb c "013" then String BACKSLASH "r"
  else if Ascii.eqb c "009" then String BACKSLASH "t"
  else if Ascii.eqb c "008" then String BACKSLASH "b"
  else if Ascii.eqb c "012" then String BACKSLASH "f"
  else if ((32 <=? n) && (n <=? 126))%N then String c EmptyString
  else String BACKSLASH
         (String "u" (String "0" (String "0"
           (String (hex_digit (n / 16)) (String (hex_digit (n mod 16)) EmptyString))))).

Fixpoint escape (s : string) : string :=
  match s with
  | EmptyString => EmptyString
  | String c r => escape_char c +:+ escape r
  end.

(** [encode_basestring_ascii] *)
Definition encode_string (s : string) : string :=
  String DQUOTE (escape s +:+ String DQUOTE EmptyString).

Definition dumps_member (kv : string * string) : string :=
  encode_string kv.1 +:+ ": " +:+ encode_string kv.2.

(** [json.dumps(d)] for a dictionary of strings, with the default
    separators. *)
Definition dumps (d : Cursor) : string :=
  "{" +:+ Py.join ", " (map dumps_member d) +:+ "}".

(** The Python value of a cursor, as [loads] returns it. *)
Definition of_cursor (d : Cursor) : value :=
  JObj (map (fun kv => (kv.1, JStr kv.2)) d).

(** The digits of the mantissa of a number literal are all zero. *)
Fixpoint zero_mantissa (s : string) : bool :=
  match s with
  | EmptyString => true
  | String c r =>
      if Ascii.eqb c "e" || Ascii.eqb c "E" then true
      else (Ascii.eqb c "0" || Ascii.eqb c "." || Ascii.eqb c "-") && zero_mantissa r
  end.

(** Truth value of a decoded value ([if last_evaluated_key:]). *)
Definition truthy (v : value) : bool :=
  match v with
  | JNull => false
  | JBool b => b
  | JNum l => negb (zero_mantissa l)
  | JStr s => Py.truthy s
  | JArr l => match l with [] => false | _ => true end
  | JObj d => match d with [] => false | _ => true end
  end.

End Json.

(** The two directions of the page token. *)
Module PageToken.

(** [json.loads(base64.b64decode(page_token).decode())]; [None] when
    one of the three steps raises. *)
Definition decode (page_token : string) : option Json.value :=
  match Base64.b64decode page_token with
  | None => None
  | Some raw =>
      match Utf8.decode raw with
      | None => None
      | Some text => Json.loads text
      end
  end.

(** [base64.b64encode(json.dumps(key).encode()).decode()] *)
Definition encode (key : Json.Cursor) : string :=
  Base64.b64encode (Json.dumps key).

End PageToken.

(** ** [src/models/image_model.py] *)

Module Model.

Record ImageUploadRequest : Type := mkUploadRequest {
  req_title : option string;
  req_description : option string;
  req_tags : option (list string);
  req_user_id : string
}.

(** The fields of [ImageMetadata], in the order of the class.  The
    record is shared by the three shapes the service handles, which
    differ in the value under ['tags']:
    [ImageMetadata.model_dump()] has an optional list, the DynamoDB
    item a string, the dictionary handed to [ImageResponse] either. *)
Record Fields (T : Type) : Type := mkFields {
  image_id : string;
  created_at : string;
  user_id : string;
  title : option string;
  description : option string;
  tags : T;
  file_name : string;
  file_size : Z;
  content_type : string;
  width : Z;
  height : Z;
  format : string;
  s3_key : string;
  is_deleted : bool;
  updated_at : option string
}.

Arguments mkFields {T}.
Arguments image_id {T}.
Arguments created_at {T}.
Arguments user_id {T}.
Arguments title {T}.
Arguments description {T}.
Arguments tags {T}.
Arguments file_name {T}.
Arguments file_size {T}.
Arguments content_type {T}.
Arguments width {T}.
Arguments height {T}.
Arguments format {T}.
Arguments s3_key {T}.
Arguments is_deleted {T}.
Arguments updated_at {T}.

(** The same dictionary with another value under ['tags']. *)
Definition with_tags {T U} (d : Fields T) (t : U) : Fields U :=
  mkFields (image_id d) (created_at d) (user_id d) (title d) (description d)
    t (file_name d) (file_size d) (content_type d) (width d) (height d)
    (format d) (s3_key d) (is_deleted d) (updated_at d).

Definition ImageMetadata : Type := Fields (option (list string)).

(** An item of the table, as [upload_image] writes it. *)
Definition Item : Type := Fields string.

(** The value under ['tags'] after [_convert_dynamo_to_api_format]. *)
Inductive TagsValue : Type :=
| TagsStr (s : string)
| TagsList (l : list string).

(** What [uuid.uuid4()] and the two readings of [datetime.utcnow()]
    give to one call of [create_new]. *)
Record Fresh : Type := mkFresh {
  uuid4 : string;
  utcnow_isoformat : string;
  utcnow_year_month : string
}.

(** [ImageMetadata.create_new] *)
Definition create_new (fresh : Fresh) (upload_request : ImageUploadRequest)
    (file_name : string) (file_size : Z) (content_type : string)
    (width height : Z) (format : string) : ImageMetadata :=
  let image_id := uuid4 fresh in
  let now := utcnow_isoformat fresh in
  let date_path := utcnow_year_month fresh in
  let s3_key := "images/" +:+ date_path +:+ "/" +:+ image_id +:+ "."
                +:+ Py.lower format in
  mkFields image_id now (req_user_id upload_request) (req_title upload_request)
    (req_description upload_request) (req_tags upload_request) file_name
    file_size content_type width height format s3_key false None.

Record ImageResponse : Type := mkImageResponse {
  r_image_id : string;
  r_created_at : string;
  r_user_id : string;
  r_title : option string;
  r_description : option string;
  r_tags : option (list string);
  r_file_name : string;
  r_file_size : Z;
  r_content_type : string;
  r_width : Z;
  r_height : Z;
  r_format : string;
  r_download_url : option string;
  r_thumbnail_url : option string
}.

(** [ImageResponse] built from the keywords of [api_data]: the keys
    that are no field of the model are ignored; a string under ['tags'] is no list, and
    pydantic raises [ValidationError] ([None]). *)
Definition ImageResponse_of (api_data : Fields TagsValue) : option ImageResponse :=
  match tags api_data with
  | TagsStr _ => None
  | TagsList l =>
      Some (mkImageResponse (image_id api_data) (created_at api_data)
              (user_id api_data) (title api_data) (description api_data)
              (Some l) (file_name api_data) (file_size api_data)
              (content_type api_data) (width api_data) (height api_data)
              (format api_data) None None)
  end.

Definition set_download_url (r : ImageResponse) (url : string) : ImageResponse :=
  mkImageResponse (r_image_id r) (r_created_at r) (r_user_id r) (r_title r)
    (r_description r) (r_tags r) (r_file_name r) (r_file_size r)
    (r_content_type r) (r_width r) (r_height r) (r_format r) (Some url)
    (r_thumbnail_url r).

(** The values of a dumped model. *)
Inductive PyValue : Type :=
| PNone
| PStr (s : string)
| PInt (z : Z)
| PStrList (l : list string).

Definition of_opt_str (o : option string) : PyValue :=
  match o with Some s => PStr s | None => PNone end.

(** A dictionary with string keys, in insertion order. *)
Definition Dict : Type := list (string * PyValue).

(** [d[k]]; [None] stands for [KeyError]. *)
Fixpoint dict_get (d : Dict) (k : string) : option PyValue :=
  match d with
  | [] => None
  | (k', v) :: r => if String.eqb k' k then Some v else dict_get r k
  end.

(** [ImageResponse.model_dump()] *)
Definition model_dump (r : ImageResponse) : Dict :=
  [ ("image_id", PStr (r_image_id r));
    ("created_at", PStr (r_created_at r));
    ("user_id", PStr (r_user_id r));
    ("title", of_opt_str (r_title r));
    ("description", of_opt_str (r_description r));
    ("tags", match r_tags r with Some l => PStrList l | None => PNone end);
    ("file_name", PStr (r_file_name r));
    ("file_size", PInt (r_file_size r));
    ("content_type", PStr (r_content_type r));
    ("width", PInt (r_width r));
    ("height", PInt (r_height r));
    ("format", PStr (r_format r));
    ("download_url", of_opt_str (r_download_url r));
    ("thumbnail_url", of_opt_str (r_thumbnail_url r)) ].

(** The validator of the field [tags] of [ImageUploadRequest]:
    [false] stands for its [ValueError]. *)
Definition validate_tags (v : option (list string)) : bool :=
  match v with
  | None => true
  | Some l =>
      forallb (fun tag => Py.truthy (Py.strip tag) && negb (Py.len tag >? 50)) l
  end.

(** [ImageUploadRequest(title=.., description=.., tags=.., user_id=..)]:
    pydantic checks the constraints of the four fields
    ([max_length=200], [max_length=1000], [max_items=10],
    [min_length=1]) and runs the validator of [tags]; [None] stands for
    its [ValidationError]. *)
Definition ImageUploadRequest_of (title description : option string)
    (tags : option (list string)) (user_id : string) : option ImageUploadRequest :=
  if match title with Some t => Py.len t <=? 200 | None => true end
     && match description with Some d => Py.len d <=? 1000 | None => true end
     && match tags with Some l => Z.of_nat (length l) <=? 10 | None => true end
     && (1 <=? Py.len user_id)
     && validate_tags tags
  then Some (mkUploadRequest title description tags user_id)
  else None.

(** [d.pop(k, None)] on a copy of [d] *)
Definition dict_pop (d : Dict) (k : string) : Dict :=
  List.filter (fun kv => negb (String.eqb (fst kv) k)) d.

End Model.

(** ** The two stores and the calls made to them *)

Module Store.
Import Model.

Record S3Object : Type := mkS3Object {
  body : string;
  object_content_type : string
}.

(** A request sent to S3 or DynamoDB, with whether it went through. *)
Inductive Call : Type :=
| PutObject (key : string) (ok : bool)
| DeleteObject (key : string) (ok : bool)
| PresignGet (key : string) (expiration : Z) (ok : bool)
| PutItem (image_id created_at : string) (ok : bool)
| QueryById (image_id : string) (ok : bool)
| QueryUserIndex (user_id : string) (limit : Z) (start : option Json.value) (ok : bool)
| Scan (limit : Z) (start : option Json.value) (user_eq tags_contain : option string)
       (ok : bool)
| UpdateItem (image_id created_at : string) (ok : bool).

(** The bucket, the table (an association list on the composite key
    [(image_id, created_at)]), the outcomes of the coming calls
    ([true]: the call raises [ClientError]; no entry: it goes
    through), and the calls made so far. *)
Record World : Type := mkWorld {
  bucket : gmap string S3Object;
  table : list Item;
  faults : list bool;
  calls : list Call
}.

(** A page of a DynamoDB [query] or [scan]: ['Items'] and
    ['LastEvaluatedKey']. *)
Record Page : Type := mkPage {
  items : list Item;
  last_evaluated_key : option Json.Cursor
}.

(** What lies outside the program: the image decoder, the URL signer,
    and how DynamoDB pages a query on [UserIndex] and a filtered scan
    (order, limit, start key and next key are DynamoDB's). *)
Class Externals : Type := mkExternals {
  image_open : string -> ImageValidator.Opened;
  presigned_url : string -> Z -> string;
  query_user_index : list Item -> string -> Z -> option Json.value -> Page;
  scan_table : list Item -> Z -> option Json.value -> option string
               -> option string -> Page
}.

(** The calls that read a page of items. *)
Definition is_fetch (c : Call) : bool :=
  match c with
  | QueryUserIndex _ _ _ _ | Scan _ _ _ _ _ => true
  | _ => false
  end.

(** The call number [n] from now goes through. *)
Definition goes_through (n : nat) (w : World) : bool :=
  negb (nth n (faults w) false).

(** The next [n] calls go through. *)
Definition reliable (n : nat) (w : World) : Prop :=
  Forall (fun f => f = false) (take n (faults w)).

(** Computations that read and change the world. *)
Definition State (A : Type) : Type := World -> A * World.

Definition ret {A} (a : A) : State A := fun w => (a, w).
Definition bind {A B} (m : State A) (k : A -> State B) : State B :=
  fun w => let '(a, w') := m w in k a w'.

(** The outcome of the next call: [true] when it goes through. *)
Definition attempt : State bool :=
  fun w =>
    match faults w with
    | [] => (true, w)
    | f :: fs => (negb f, mkWorld (bucket w) (table w) fs (calls w))
    end.

Definition log (c : Call) : State unit :=
  fun w => (tt, mkWorld (bucket w) (table w) (faults w) (calls w ++ [c])).

Definition get_table : State (list Item) := fun w => (table w, w).

Definition set_table (t : list Item) : State unit :=
  fun w => (tt, mkWorld (bucket w) t (faults w) (calls w)).

Definition set_bucket (b : gmap string S3Object) : State unit :=
  fun w => (tt, mkWorld b (table w) (faults w) (calls w)).

Definition get_bucket : State (gmap string S3Object) := fun w => (bucket w, w).

End Store.

Notation "'let*' x ':=' m 'in' k" := (Store.bind m (fun x => k))
  (at level 10, x name, m at level 100, k at level 200).
Notation "'let*' '_' ':=' m 'in' k" := (Store.bind m (fun _ => k))
  (at level 10, m at level 100, k at level 200).

(** ** [src/utils/s3_client.py] *)

Module S3Client.
Import Model Store.

(** [upload_image]: [put_object], [True]; [False] on [ClientError]. *)
Definition upload_image (file_content key content_type : string) : State bool :=
  let* ok := attempt in
  let* _ := log (PutObject key ok) in
  if ok then
    let* b := get_bucket in
    let* _ := set_bucket (<[key := mkS3Object file_content content_type]> b) in
    ret true
  else ret false.

(** [delete_image]: [delete_object], [True]; [False] on [ClientError]. *)
Definition delete_image (key : string) : State bool :=
  let* ok := attempt in
  let* _ := log (DeleteObject key ok) in
  if ok then
    let* b := get_bucket in
    let* _ := set_bucket (delete key b) in
    ret true
  else ret false.

(** [generate_presigned_url]: the signed URL; [None] on [ClientError]. *)
Definition generate_presigned_url `{Externals} (key : string) (expiration : Z)
  : State (option string) :=
  let* ok := attempt in
  let* _ := log (PresignGet key expiration ok) in
  if ok then ret (Some (presigned_url key expiration)) else ret None.

(** [get_image]: the body read from [get_object]; [None] on
    [ClientError], which is also what S3 raises for a key it does not
    hold.  (This method and the next are not used by the service;
    their calls are not entered in the log.) *)
Definition get_image (key : string) : State (option string) :=
  let* ok := attempt in
  if ok then
    let* b := get_bucket in
    ret (option_map body (b !! key))
  else ret None.

(** [image_exists]: [head_object], [True]; [False] on [ClientError],
    which a missing key raises too. *)
Definition image_exists (key : string) : State bool :=
  let* ok := attempt in
  if ok then
    let* b := get_bucket in
    ret (match b !! key with Some _ => true | None => false end)
  else ret false.

End S3Client.

(** ** [src/utils/dynamodb_client.py] *)

Module DynamoDBClient.
Import Model Store.

Definition same_key (image_id created_at : string) (it : Item) : bool :=
  String.eqb (Model.image_id it) image_id
  && String.eqb (Model.created_at it) created_at.

(** [table.put_item(Item=it)]: the item replaces the one with its
    key, or is added. *)
Fixpoint put_item (t : list Item) (it : Item) : list Item :=
  match t with
  | [] => [it]
  | x :: r =>
      if same_key (Model.image_id it) (Model.created_at it) x
      then it :: r else x :: put_item r it
  end.

(** The first item of a query on the partition key: the items of a
    partition come in ascending order of the sort key [created_at]. *)
Fixpoint first_by_created_at (l : list Item) : option Item :=
  match l with
  | [] => None
  | x :: r =>
      match first_by_created_at r with
      | None => Some x
      | Some y =>
          if String.leb (Model.created_at x) (Model.created_at y)
          then Some x else Some y
      end
  end.

Definition query_by_id (t : list Item) (image_id : string) : option Item :=
  first_by_created_at
    (List.filter (fun it => String.eqb (Model.image_id it) image_id) t).

(** The [updates] of the one caller of [update_image_metadata]. *)
Record Updates : Type := mkUpdates {
  upd_is_deleted : bool;
  upd_updated_at : string
}.

Definition apply_updates (u : Updates) (it : Item) : Item :=
  mkFields (Model.image_id it) (Model.created_at it) (user_id it) (title it)
    (description it) (tags it) (file_name it) (file_size it) (content_type it)
    (width it) (height it) (format it) (s3_key it)
    (upd_is_deleted u) (Some (upd_updated_at u)).

(** [table.update_item] with [SET is_deleted = .., updated_at = ..]
    at an exact key.  The caller passes the key of an item it has just
    read; at a key the table does not hold, the model changes
    nothing. *)
Definition update_item (t : list Item) (image_id created_at : string)
    (u : Updates) : list Item :=
  map (fun it => if same_key image_id created_at it then apply_updates u it else it) t.

Definition put_image_metadata (image_data : Item) : State bool :=
  let* ok := attempt in
  let* _ := log (PutItem (Model.image_id image_data) (Model.created_at image_data) ok) in
  if ok then
    let* t := get_table in
    let* _ := set_table (put_item t image_data) in
    ret true
  else ret false.

Definition get_image_metadata_by_id (image_id : string) : State (option Item) :=
  let* ok := attempt in
  let* _ := log (QueryById image_id ok) in
  if ok then
    let* t := get_table in
    ret (query_by_id t image_id)
  else ret None.

(** [ExclusiveStartKey] is set when [last_evaluated_key] is true. *)
Definition exclusive_start_key (last_evaluated_key : Json.value)
  : option Json.value :=
  if Json.truthy last_evaluated_key then Some last_evaluated_key else None.

Definition empty_page : Page := mkPage [] None.

(** [list_images]: a scan, filtered on [user_id] and on [tags] when
    they are true.  The call raises [ClientError] or returns a page;
    the SDK's own check of the arguments (a limit below 1, a start key
    that is no dictionary: [ParamValidationError], which is no
    [ClientError]) is not modelled, here and in
    [query_images_by_user]. *)
Definition list_images `{Externals} (limit : Z) (last_evaluated_key : Json.value)
    (user_id tags : option string) : State Page :=
  let start := exclusive_start_key last_evaluated_key in
  let user_eq := if Py.truthy_opt user_id then user_id else None in
  let tags_contain := if Py.truthy_opt tags then tags else None in
  let* ok := attempt in
  let* _ := log (Scan limit start user_eq tags_contain ok) in
  if ok then
    let* t := get_table in
    ret (scan_table t limit start user_eq tags_contain)
  else ret empty_page.

(** [query_images_by_user]: a query on [UserIndex]. *)
Definition query_images_by_user `{Externals} (user_id : string) (limit : Z)
    (last_evaluated_key : Json.value) : State Page :=
  let start := exclusive_start_key last_evaluated_key in
  let* ok := attempt in
  let* _ := log (QueryUserIndex user_id limit start ok) in
  if ok then
    let* t := get_table in
    ret (query_user_index t user_id limit start)
  else ret empty_page.

Definition update_image_metadata (image_id created_at : string) (updates : Updates)
  : State bool :=
  let* ok := attempt in
  let* _ := log (UpdateItem image_id created_at ok) in
  if ok then
    let* t := get_table in
    let* _ := set_table (update_item t image_id created_at updates) in
    ret true
  else ret false.

(** [table.get_item(Key=..)]['Item']: the item at an exact key. *)
Definition get_item (t : list Item) (image_id created_at : string) : option Item :=
  List.find (same_key image_id created_at) t.

(** [table.delete_item(Key=..)]: the table without the item at the
    key; nothing changes when the key is not held. *)
Definition delete_item (t : list Item) (image_id created_at : string) : list Item :=
  List.filter (fun it => negb (same_key image_id created_at it)) t.

(** [get_image_metadata]: the item at the key, [None] without one or
    on [ClientError].  (This method and the next are not used by the
    service; their calls are not entered in the log.) *)
Definition get_image_metadata (image_id created_at : string) : State (option Item) :=
  let* ok := attempt in
  if ok then
    let* t := get_table in
    ret (get_item t image_id created_at)
  else ret None.

(** [delete_image_metadata]: [delete_item], [True]; [False] on
    [ClientError]. *)
Definition delete_image_metadata (image_id created_at : string) : State bool :=
  let* ok := attempt in
  if ok then
    let* t := get_table in
    let* _ := set_table (delete_item t image_id created_at) in
    ret true
  else ret false.

End DynamoDBClient.

(** ** [src/services/image_service.py] *)

(** [{'success': True, ...}] and [{'success': False, 'error': msg}] *)
Inductive Result (A : Type) : Type :=
| Success (payload : A)
| Failure (error : string).

Arguments Success {A}.
Arguments Failure {A}.

Module ImageService.
Import Model Store.

(** The condition [if tag.strip()] *)
Definition nonblank (tag : string) : bool := Py.truthy (Py.strip tag).

(** [_convert_dynamo_to_api_format]: the value under ['tags']. *)
Definition convert_tags (stored : string) : TagsValue :=
  if Py.truthy stored then
    if Py.truthy (Py.strip stored)
    then TagsList (map Py.strip (List.filter nonblank (Py.split "," stored)))
    else TagsList []
  else TagsStr stored.

Definition _convert_dynamo_to_api_format (dynamo_data : Item) : Fields TagsValue :=
  with_tags dynamo_data (convert_tags (tags dynamo_data)).

(** The value under ['tags'] that [upload_image] stores. *)
Definition join_tags (t : option (list string)) : string :=
  match t with
  | Some (x :: r) => Py.join "," (x :: r)
  | _ => EmptyString
  end.

Definition to_dynamo (image_metadata : ImageMetadata) : Item :=
  with_tags image_metadata (join_tags (tags image_metadata)).

Record Uploaded : Type := mkUploaded {
  up_image_id : string;
  up_message : string
}.

Definition upload_image `{Externals} (fresh : Fresh) (file_content filename : string)
    (upload_request : ImageUploadRequest) : State (Result Uploaded) :=
  if negb (ImageValidator.validate_file_extension filename) then
    ret (Failure "Invalid file extension. Allowed: jpg, jpeg, png, gif, webp")
  else if negb (ImageValidator.validate_file_size (Py.len file_content)) then
    ret (Failure "File size must be between 1KB and 10MB")
  else
    match ImageValidator.validate_image_content (image_open file_content) with
    | ImageValidator.ContentInvalid e => ret (Failure e)
    | ImageValidator.ContentValid width height format =>
    match MetadataValidator.validate_title (req_title upload_request) with
    | Invalid e => ret (Failure e)
    | Valid =>
    match MetadataValidator.validate_description (req_description upload_request) with
    | Invalid e => ret (Failure e)
    | Valid =>
    match MetadataValidator.validate_tags (req_tags upload_request) with
    | Invalid e => ret (Failure e)
    | Valid =>
    match MetadataValidator.validate_user_id (Some (req_user_id upload_request)) with
    | Invalid e => ret (Failure e)
    | Valid =>
        let image_metadata :=
          create_new fresh upload_request filename (Py.len file_content)
            ("image/" +:+ format) width height format in
        let* stored :=
          S3Client.upload_image file_content (s3_key image_metadata)
            (content_type image_metadata) in
        if negb stored then ret (Failure "Failed to upload image to storage")
        else
          let dynamo_data := to_dynamo image_metadata in
          let* put := DynamoDBClient.put_image_metadata dynamo_data in
          if negb put then
            let* _ := S3Client.delete_image (s3_key image_metadata) in
            ret (Failure "Failed to store image metadata")
          else
            ret (Success (mkUploaded (image_id image_metadata)
                            "Image uploaded successfully"))
    end end end end end.

(** The request passes the seven validations of [upload_image], and
    this is what the decoder read from the file. *)
Definition validated `{Externals} (file_content filename : string)
    (upload_request : ImageUploadRequest) (width height : Z) (format : string) : Prop :=
  ImageValidator.validate_file_extension filename = true
  /\ ImageValidator.validate_file_size (Py.len file_content) = true
  /\ ImageValidator.validate_image_content (image_open file_content)
     = ImageValidator.ContentValid width height format
  /\ MetadataValidator.validate_title (req_title upload_request) = Valid
  /\ MetadataValidator.validate_description (req_description upload_request) = Valid
  /\ MetadataValidator.validate_tags (req_tags upload_request) = Valid
  /\ MetadataValidator.validate_user_id (Some (req_user_id upload_request)) = Valid.

(** The record that [upload_image] builds for a validated request. *)
Definition new_metadata (fresh : Fresh) (file_content filename : string)
    (upload_request : ImageUploadRequest) (width height : Z) (format : string)
  : ImageMetadata :=
  create_new fresh upload_request filename (Py.len file_content)
    ("image/" +:+ format) width height format.

Definition get_image `{Externals} (image_id : string) (include_download_url : bool)
  : State (Result Dict) :=
  let* metadata := DynamoDBClient.get_image_metadata_by_id image_id in
  match metadata with
  | None => ret (Failure "Image not found")
  | Some metadata =>
      if is_deleted metadata then ret (Failure "Image not found")
      else
        let api_metadata := _convert_dynamo_to_api_format metadata in
        match ImageResponse_of api_metadata with
        | None => ret (Failure "Internal server error")
        | Some image_response =>
            if include_download_url then
              let* download_url :=
                S3Client.generate_presigned_url (s3_key metadata) 3600 in
              let image_response :=
                if Py.truthy_opt download_url
                then set_download_url image_response (default EmptyString download_url)
                else image_response in
              ret (Success (model_dump image_response))
            else ret (Success (model_dump image_response))
        end
  end.

(** The condition of the filter on the fetched page. *)
Definition live (img : Item) : bool := negb (is_deleted img).

(** The loop that builds [image_responses]; [None] when
    [ImageResponse] raises. *)
Fixpoint image_responses `{Externals} (active_images : list Item)
  : State (option (list ImageResponse)) :=
  match active_images with
  | [] => ret (Some [])
  | img :: rest =>
      let api_img := _convert_dynamo_to_api_format img in
      match ImageResponse_of api_img with
      | None => ret None
      | Some image_response =>
          let* download_url := S3Client.generate_presigned_url (s3_key img) 3600 in
          let image_response :=
            if Py.truthy_opt download_url
            then set_download_url image_response (default EmptyString download_url)
            else image_response in
          let* others := image_responses rest in
          ret (option_map (cons image_response) others)
      end
  end.

Record Listing : Type := mkListing {
  images : list Dict;
  total_count : Z;
  next_page_token : option string;
  has_more : bool
}.

(** The start key of [list_images]: [None] ([JNull]) without a token
    or with an empty one, the decoded token otherwise; [None] of the
    option is the exception of the decoding. *)
Definition decode_page_token (page_token : option string) : option Json.value :=
  if Py.truthy_opt page_token
  then PageToken.decode (default EmptyString page_token)
  else Some Json.JNull.

(** The query of [list_images]: the index on the owner when [user_id]
    is true, the filtered scan otherwise. *)
Definition query_images `{Externals} (limit : Z) (last_evaluated_key : Json.value)
    (user_id tags : option string) : State Page :=
  if Py.truthy_opt user_id
  then DynamoDBClient.query_images_by_user (default EmptyString user_id)
         limit last_evaluated_key
  else DynamoDBClient.list_images limit last_evaluated_key user_id tags.

Definition list_images `{Externals} (limit : Z) (page_token user_id tags : option string)
  : State (Result Listing) :=
  match decode_page_token page_token with
  | None => ret (Failure "Invalid page token")
  | Some last_evaluated_key =>
      let* result := query_images limit last_evaluated_key user_id tags in
      let active_images := List.filter live (items result) in
      let* responses := image_responses active_images in
      match responses with
      | None => ret (Failure "Internal server error")
      | Some responses =>
          let next_page_token :=
            match Store.last_evaluated_key result with
            | Some (kv :: key) => Some (PageToken.encode (kv :: key))
            | _ => None
            end in
          ret (Success
                 (mkListing (map model_dump responses)
                    (Z.of_nat (length responses)) next_page_token
                    (match Store.last_evaluated_key result with
                     | Some _ => true
                     | None => false
                     end)))
      end
  end.

Record Deleted : Type := mkDeleted {
  del_message : string;
  del_image_id : string
}.

(** [delete_image]; [now] is [datetime.utcnow().isoformat()]. *)
Definition delete_image (now : string) (image_id user_id : string)
  : State (Result Deleted) :=
  let* metadata := DynamoDBClient.get_image_metadata_by_id image_id in
  match metadata with
  | None => ret (Failure "Image not found")
  | Some metadata =>
      if negb (String.eqb (Model.user_id metadata) user_id)
      then ret (Failure "Unauthorized to delete this image")
      else if is_deleted metadata then ret (Failure "Image already deleted")
      else
        let updates := DynamoDBClient.mkUpdates true now in
        let* updated :=
          DynamoDBClient.update_image_metadata image_id (created_at metadata)
            updates in
        if negb updated then ret (Failure "Failed to delete image")
        else ret (Success (mkDeleted "Image deleted successfully" image_id))
  end.

End ImageService.

(** ** [src/main.py] *)

Module Main.
Import Model Store.

(** A handler returns its body with status 200 or raises
    [HTTPException(status_code, detail)]. *)
Inductive Http (A : Type) : Type :=
| Ok200 (body : A)
| HTTPException (status_code : Z) (detail : string).

Arguments Ok200 {A}.
Arguments HTTPException {A}.

Definition status {A} (r : Http A) : Z :=
  match r with Ok200 _ => 200 | HTTPException c _ => c end.

Definition mentions (words error : string) : bool :=
  Py.contains words (Py.lower error).

(** [GET /images/{image_id}] *)
Definition get_image `{Externals} (image_id : string) (include_url : bool)
  : State (Http Dict) :=
  let* result := ImageService.get_image image_id include_url in
  match result with
  | Failure error =>
      if mentions "not found" error then ret (HTTPException 404 error)
      else ret (HTTPException 400 error)
  | Success image => ret (Ok200 image)
  end.

Record DownloadLink : Type := mkDownloadLink {
  dl_image_id : string;
  dl_download_url : string;
  dl_expires_in : Z;
  dl_content_type : PyValue;
  dl_file_size : PyValue
}.

(** The body of [GET /images/{image_id}/download], which FastAPI runs
    for the values of [expires_in] within its declaration
    [Query(ge=60, le=86400)] (outside of it the answer is status 422).
    A [KeyError] of [image_data[...]] is an [Exception], which the
    handler turns into status 500. *)
Definition get_image_download_url `{Externals} (image_id : string) (expires_in : Z)
  : State (Http DownloadLink) :=
  let* result := ImageService.get_image image_id false in
  match result with
  | Failure error =>
      if mentions "not found" error then ret (HTTPException 404 error)
      else ret (HTTPException 400 error)
  | Success image_data =>
      match dict_get image_data "s3_key" with
      | Some (PStr key) =>
          let* download_url := S3Client.generate_presigned_url key expires_in in
          if negb (Py.truthy_opt download_url)
          then ret (HTTPException 500 "Failed to generate download URL")
          else
            match dict_get image_data "content_type",
                  dict_get image_data "file_size" with
            | Some content_type, Some file_size =>
                ret (Ok200 (mkDownloadLink image_id
                              (default EmptyString download_url) expires_in
                              content_type file_size))
            | _, _ => ret (HTTPException 500 "Internal server error")
            end
      | _ => ret (HTTPException 500 "Internal server error")
      end
  end.

(** [DELETE /images/{image_id}] *)
Definition delete_image (now : string) (image_id x_user_id : string)
  : State (Http ImageService.Deleted) :=
  let* result := ImageService.delete_image now image_id x_user_id in
  match result with
  | Failure error =>
      if mentions "not found" error then ret (HTTPException 404 error)
      else if mentions "unauthorized" error then ret (HTTPException 403 error)
      else if mentions "already deleted" error then ret (HTTPException 410 error)
      else ret (HTTPException 400 error)
  | Success d => ret (Ok200 d)
  end.

(** *** The binding of the parameters

    FastAPI binds the parameters of a request to their declarations
    before it runs the handler.  When a required parameter is missing
    or a number is outside its declared bounds, it answers with status
    422 and the handler is not run. *)

Inductive Bound (A : Type) : Type :=
| Unprocessable
| Handled (r : Http A).

Arguments Unprocessable {A}.
Arguments Handled {A}.

Definition endpoint_status {A} (b : Bound A) : Z :=
  match b with Unprocessable => 422 | Handled r => status r end.

(** A field declared with [Form]: an empty value counts as no value. *)
Definition form_value (v : option string) : option string :=
  if Py.truthy_opt v then v else None.

(** [limit: int = Query(default=20, ge=1, le=100)]; [None] of the
    result is the status 422. *)
Definition query_limit (limit : option Z) : option Z :=
  match limit with
  | None => Some 20
  | Some l => if (1 <=? l) && (l <=? 100) then Some l else None
  end.

(** The uploaded file: [file.content_type], [file.filename] and what
    [file.read()] returns. *)
Record UploadFile : Type := mkUploadFile {
  uf_content_type : option string;
  uf_filename : option string;
  uf_content : string
}.

(** The tags of the form field: [[tag.strip() for tag in
    tags.split(",") if tag.strip()]] when the field is true. *)
Definition parse_tags (tags : option string) : option (list string) :=
  if Py.truthy_opt tags
  then Some (map Py.strip
               (List.filter ImageService.nonblank
                  (Py.split "," (default EmptyString tags))))
  else None.

(** The body of [POST /images], on the bound parameters.  The
    [ValidationError] of [ImageUploadRequest] is an [Exception], which
    the handler turns into status 500. *)
Definition upload_image_body `{Externals} (fresh : Fresh) (file : UploadFile)
    (title description tags : option string) (user_id : string)
  : State (Http ImageService.Uploaded) :=
  if negb (Py.truthy_opt (uf_content_type file))
     || negb (String.prefix "image/" (default EmptyString (uf_content_type file)))
  then ret (HTTPException 400 "File must be an image")
  else
    let file_content := uf_content file in
    let parsed_tags := parse_tags tags in
    match ImageUploadRequest_of title description parsed_tags user_id with
    | None => ret (HTTPException 500 "Internal server error")
    | Some upload_request =>
        let* result :=
          ImageService.upload_image fresh file_content
            (if Py.truthy_opt (uf_filename file)
             then default EmptyString (uf_filename file)
             else "unknown.jpg")
            upload_request in
        match result with
        | Failure error => ret (HTTPException 400 error)
        | Success uploaded => ret (Ok200 uploaded)
        end
    end.

(** [POST /images]: [file] is declared with [File(...)] and [user_id]
    with [Form(...)], which are required; [title], [description] and
    [tags] with [Form(None)]. *)
Definition upload_image `{Externals} (fresh : Fresh) (file : option UploadFile)
    (title description tags user_id : option string)
  : State (Bound ImageService.Uploaded) :=
  match file, form_value user_id with
  | Some file, Some user_id =>
      let* r :=
        upload_image_body fresh file (form_value title) (form_value description)
          (form_value tags) user_id in
      ret (Handled r)
  | _, _ => ret Unprocessable
  end.

(** The body of [GET /images], on the bound parameters; [start_date]
    and [end_date] are accepted and not read. *)
Definition list_images_body `{Externals} (limit : Z)
    (page_token user_id tags start_date end_date : option string)
  : State (Http ImageService.Listing) :=
  match QueryValidator.validate_limit (Some limit) with
  | QueryValidator.LimitInvalid error => ret (HTTPException 400 error)
  | QueryValidator.LimitValid validated_limit =>
      match QueryValidator.validate_last_evaluated_key page_token with
      | QueryValidator.KeyInvalid error => ret (HTTPException 400 error)
      | QueryValidator.KeyValid validated_token =>
          let* result :=
            ImageService.list_images validated_limit validated_token user_id tags in
          match result with
          | Failure error => ret (HTTPException 400 error)
          | Success listing => ret (Ok200 listing)
          end
      end
  end.

(** [GET /images] *)
Definition list_images `{Externals} (limit : option Z)
    (page_token user_id tags start_date end_date : option string)
  : State (Bound ImageService.Listing) :=
  match query_limit limit with
  | None => ret Unprocessable
  | Some limit =>
      let* r := list_images_body limit page_token user_id tags start_date end_date in
      ret (Handled r)
  end.

(** A value of a parameter of the path: the router matches a segment
    that is not empty and has no slash. *)
Definition path_segment (s : string) : bool :=
  Py.truthy s && negb (Py.has_char "/" s).

(** [GET /users/{user_id}/images], for a [user_id] of the path *)
Definition list_user_images `{Externals} (user_id : string) (limit : option Z)
    (page_token : option string) : State (Bound ImageService.Listing) :=
  match query_limit limit with
  | None => ret Unprocessable
  | Some limit =>
      let* result := ImageService.list_images limit page_token (Some user_id) None in
      match result with
      | Failure error => ret (Handled (HTTPException 400 error))
      | Success listing => ret (Handled (Ok200 listing))
      end
  end.

(** [GET /tags/{tag}/images], for a [tag] of the path *)
Definition list_images_by_tag `{Externals} (tag : string) (limit : option Z)
    (page_token : option string) : State (Bound ImageService.Listing) :=
  match query_limit limit with
  | None => ret Unprocessable
  | Some limit =>
      let* result := ImageService.list_images limit page_token None (Some tag) in
      match result with
      | Failure error => ret (Handled (HTTPException 400 error))
      | Success listing => ret (Handled (Ok200 listing))
      end
  end.

End Main.

(** ** [src/handlers/delete_image.py], [src/handlers/get_image.py]

    The handlers of the per-function deployment repeat those of
    [src/main.py]; the two below have no counterpart there. *)

Module Handlers.
Import Model Store Main.

Record PermanentDeletion : Type := mkPermanentDeletion {
  pd_message : string;
  pd_image_id : string;
  pd_note : string
}.

Definition marked (image_id : string) : PermanentDeletion :=
  mkPermanentDeletion "Image marked for permanent deletion" image_id
    "Permanent deletion will be processed by background job".

(** [DELETE /images/{image_id}/permanent] *)
Definition permanently_delete_image (now : string)
    (image_id x_user_id confirmation : string) : State (Http PermanentDeletion) :=
  if negb (String.eqb confirmation "PERMANENT_DELETE")
  then ret (HTTPException 400 "Missing or invalid confirmation header")
  else
    let* result := ImageService.delete_image now image_id x_user_id in
    match result with
    | Failure error =>
        if negb (mentions "already deleted" error) then
          if mentions "not found" error then ret (HTTPException 404 error)
          else if mentions "unauthorized" error then ret (HTTPException 403 error)
          else ret (HTTPException 400 error)
        else ret (Ok200 (marked image_id))
    | Success _ => ret (Ok200 (marked image_id))
    end.

(** [GET /images/{image_id}/metadata] *)
Definition get_image_metadata `{Externals} (image_id : string) : State (Http Dict) :=
  let* result := ImageService.get_image image_id false in
  match result with
  | Failure error =>
      if mentions "not found" error then ret (HTTPException 404 error)
      else ret (HTTPException 400 error)
  | Success image => ret (Ok200 (dict_pop image "s3_key"))
  end.

End Handlers.

(** ** Exhaustive checks over the 256 characters *)

Definition bool_forall (p : bool -> bool) : bool := p true && p false.

Definition ascii_forall (p : ascii -> bool) : bool :=
  bool_forall (fun b0 => bool_forall (fun b1 => bool_forall (fun b2 =>
  bool_forall (fun b3 => bool_forall (fun b4 => bool_forall (fun b5 =>
  bool_forall (fun b6 => bool_forall (fun b7 =>
    p (Ascii b0 b1 b2 b3 b4 b5 b6 b7))))))))).

(** ** A small world for the examples *)

Module Sample.
Import Model Store.

(** [c * n] *)
Fixpoint repeat_char (c : ascii) (n : nat) : string :=
  match n with
  | O => EmptyString
  | S n' => String c (repeat_char c n')
  end.

Definition key_of (it : Item) : Json.Cursor :=
  [("image_id", image_id it); ("created_at", created_at it)].

(** The items after the one that the start key names. *)
Fixpoint after_id (id : string) (t : list Item) : list Item :=
  match t with
  | [] => []
  | it :: r => if String.eqb (image_id it) id then r else after_id id r
  end.

Definition from_start (start : option Json.value) (t : list Item) : list Item :=
  match start with
  | Some (Json.JObj ((_, Json.JStr id) :: _)) => after_id id t
  | _ => t
  end.

(** A page: the first [limit] items from the start key, and the key of
    the last of them when items remain. *)
Definition page_of (limit : Z) (start : option Json.value) (t : list Item) : Page :=
  let l := from_start start t in
  let n := Z.to_nat limit in
  mkPage (take n l)
    (if (n <? length l)%nat then option_map key_of (last (take n l)) else None).

Definition keeps (user_eq tags_contain : option string) (it : Item) : bool :=
  match user_eq with Some u => String.eqb (user_id it) u | None => true end
  && match tags_contain with Some t => Py.contains t (tags it) | None => true end.

(** The externals of the examples: every file opens as a 200 x 200
    JPEG, the signed URL is the key under a fixed host, and pages are
    cut from the table in its order. *)
Definition externals : Externals :=
  mkExternals
    (fun _ => ImageValidator.Opens (ImageValidator.mkDecoded 200 200 (Some "JPEG")))
    (fun key _ => "https://bucket.test/" +:+ key)
    (fun t user limit start =>
       page_of limit start (List.filter (fun it => String.eqb (user_id it) user) t))
    (fun t limit start user_eq tags_contain =>
       let p := page_of limit start t in
       mkPage (List.filter (keeps user_eq tags_contain) (items p))
         (last_evaluated_key p)).

Definition item (id created user stored_tags : string) (deleted : bool) : Item :=
  mkFields id created user (Some "A title") None stored_tags "photo.jpg" 51200
    "image/jpeg" 200 200 "jpeg" ("images/2024/01/" +:+ id +:+ ".jpeg") deleted None.

Definition live_item : Item := item "img-1" "2024-01-01T10:00:00" "u1" "a,b" false.
Definition deleted_item : Item := item "img-2" "2024-01-02T10:00:00" "u1" "c" true.
Definition untagged_item : Item := item "img-3" "2024-01-03T10:00:00" "u2" EmptyString false.
Definition other_item : Item := item "img-4" "2024-01-04T10:00:00" "u2" "b" false.

Definition world : World :=
  mkWorld ∅ [live_item; deleted_item; untagged_item; other_item] [] [].

Definition empty_world : World := mkWorld ∅ [] [] [].

(** A 2 KB file and a request with two tags. *)
Definition file_content : string := repeat_char "x" 2048.

Definition request : ImageUploadRequest :=
  mkUploadRequest (Some "Sunset") None (Some ["sea"; "sky"]) "u1".

Definition fresh : Fresh := mkFresh "img-9" "2024-02-01T08:00:00" "2024/02".

End Sample.

(** ** Auxiliary definitions of the proofs *)

Module Aux.
Import Base64 Json.

(** An encoded sextet is read back, is no pad, and is ASCII. *)
Definition reads_back (n : N) : bool :=
  match b64_index (b64_char n) with
  | Some m => (m =? n)%N
  | None => false
  end
  && negb (Ascii.eqb (b64_char n) "=")
  && is_ascii (b64_char n).

(** The three bytes come back from the four sextets. *)
Definition first_byte_back (a b : ascii) : bool :=
  Ascii.eqb (byte (N.lor (N.shiftl (sextet0 a) 2) (N.shiftr (sextet1 a b) 4))) a
  && (N.land (sextet1 a b) 15 =? N.shiftr (N_of_ascii b) 4)%N.

Definition second_byte_back (b c : ascii) : bool :=
  Ascii.eqb (byte (N.lor (N.shiftl (N.shiftr (N_of_ascii b) 4) 4)
                     (N.shiftr (sextet2 b c) 2))) b
  && (N.land (sextet2 b c) 3 =? N.shiftr (N_of_ascii c) 6)%N.

Definition third_byte_back (c : ascii) : bool :=
  Ascii.eqb (byte (N.lor (N.shiftl (N.shiftr (N_of_ascii c) 6) 6) (sextet3 c))) c.

(** [acc[k] = v] for a member of a cursor. *)
Definition put_str (acc : list (string * value)) (kv : string * string)
  : list (string * value) :=
  dict_set acc kv.1 (JStr kv.2).

(** The members of [dumps], between the braces. *)
Fixpoint members_text (d : Cursor) : string :=
  match d with
  | [] => EmptyString
  | [kv] => dumps_member kv
  | kv :: rest => dumps_member kv +:+ ", " +:+ members_text rest
  end.

End Aux.

(** The fetch that [list_images] makes from a start key that is true. *)
Definition fetch_from (limit : Z) (start : Json.value) (user_id tags : option string)
    (ok : bool) : Store.Call :=
  if Py.truthy_opt user_id
  then Store.QueryUserIndex (default EmptyString user_id) limit (Some start) ok
  else Store.Scan limit (Some start) None (if Py.truthy_opt tags then tags else None) ok.

(** The messages of the service that the request model of the upload
    handler makes unreachable. *)
Definition length_errors : list string :=
  ["Title must be less than 200 characters";
   "Description must be less than 1000 characters";
   "Maximum 10 tags allowed";
   "Each tag must be less than 50 characters";
   "Tags cannot be empty";
   "User ID is required"].

(* ================================================================== *)
(** * Part II. Properties *)
(* ================================================================== *)

(** ** Characters and strings *)

Section Strings.

Lemma bool_forall_spec p : bool_forall p = true -> forall b, p b = true.
Proof.
  unfold bool_forall. intros H b.
  apply andb_true_iff in H as [Ht Hf]. destruct b; assumption.
Qed.

Lemma ascii_forall_spec p : ascii_forall p = true -> forall c, p c = true.
Proof.
  unfold ascii_forall. intros H [b0 b1 b2 b3 b4 b5 b6 b7].
  pose proof (bool_forall_spec _ H b0) as H0. cbv beta in H0.
  pose proof (bool_forall_spec _ H0 b1) as H1. cbv beta in H1.
  pose proof (bool_forall_spec _ H1 b2) as H2. cbv beta in H2.
  pose proof (bool_forall_spec _ H2 b3) as H3. cbv beta in H3.
  pose proof (bool_forall_spec _ H3 b4) as H4. cbv beta in H4.
  pose proof (bool_forall_spec _ H4 b5) as H5. cbv beta in H5.
  pose proof (bool_forall_spec _ H5 b6) as H6. cbv beta in H6.
  exact (bool_forall_spec _ H6 b7).
Qed.

End Strings.
(** ** Strings *)

Section StringFacts.

Lemma all_chars_cons p c s :
  Py.all_chars p (String c s) = p c && Py.all_chars p s.
Proof. reflexivity. Qed.

Lemma all_chars_app p s t :
  Py.all_chars p (s +:+ t) = Py.all_chars p s && Py.all_chars p t.
Proof.
  induction s as [|c s IH]; [reflexivity|].
  change (String c s +:+ t) with (String c (s +:+ t)).
  rewrite !all_chars_cons, IH. apply andb_assoc.
Qed.

Lemma len_zero s : Py.len s = 0 <-> s = EmptyString.
Proof.
  unfold Py.len. destruct s; simpl; split; intros H; try reflexivity; try discriminate.
Qed.

Lemma truthy_false s : Py.truthy s = false <-> s = EmptyString.
Proof. destruct s; simpl; split; intros H; try reflexivity; discriminate. Qed.

Lemma lstrip_all_space s :
  Py.lstrip s = EmptyString <-> Py.all_chars Py.isspace s = true.
Proof.
  induction s as [|c s IH]; simpl.
  - split; reflexivity.
  - rewrite all_chars_cons. destruct (Py.isspace c); simpl.
    + exact IH.
    + split; discriminate.
Qed.

Lemma lstrip_head s c r : Py.lstrip s = String c r -> Py.isspace c = false.
Proof.
  induction s as [|d s IH]; simpl; [discriminate|].
  destruct (Py.isspace d) eqn:E; [exact IH|].
  intros H. injection H as -> _. exact E.
Qed.

Lemma rstrip_all_space s :
  Py.rstrip s = EmptyString <-> Py.all_chars Py.isspace s = true.
Proof.
  induction s as [|c s IH]; simpl.
  - split; reflexivity.
  - rewrite all_chars_cons. destruct (Py.rstrip s) eqn:E.
    + destruct (Py.isspace c); simpl.
      * split; [intros _; apply IH; reflexivity | reflexivity].
      * split; discriminate.
    + split; [discriminate|]. intros H. apply andb_true_iff in H as [_ H].
      apply IH in H. discriminate.
Qed.

(** [s.strip()] is empty exactly when [s] is made of whitespace. *)
Lemma strip_all_space s :
  Py.strip s = EmptyString <-> Py.all_chars Py.isspace s = true.
Proof.
  unfold Py.strip. split.
  - intros H. apply rstrip_all_space in H.
    destruct (Py.lstrip s) as [|c r] eqn:E.
    + apply lstrip_all_space. exact E.
    + apply lstrip_head in E. rewrite all_chars_cons, E in H. discriminate.
  - intros H. apply lstrip_all_space in H. rewrite H. reflexivity.
Qed.

Lemma strip_blank_test s :
  (Py.len (Py.strip s) =? 0) = Py.all_chars Py.isspace s.
Proof.
  destruct (Py.all_chars Py.isspace s) eqn:E.
  - apply strip_all_space in E. rewrite E. reflexivity.
  - apply Z.eqb_neq. intros H. apply len_zero, strip_all_space in H. congruence.
Qed.

End StringFacts.

(** ** Text: a [str] as the list of its code points *)

Section TextFacts.

Lemma text_lstrip_all_space (s : Text.text) :
  Text.lstrip s = [] <-> forallb Text.isspace s = true.
Proof.
  induction s as [|c s IH]; simpl.
  - split; reflexivity.
  - destruct (Text.isspace c); simpl.
    + exact IH.
    + split; discriminate.
Qed.

Lemma text_lstrip_head (s : Text.text) c r :
  Text.lstrip s = c :: r -> Text.isspace c = false.
Proof.
  induction s as [|d s IH]; simpl; [discriminate|].
  destruct (Text.isspace d) eqn:E; [exact IH|].
  intros H. injection H as -> _. exact E.
Qed.

Lemma text_rstrip_all_space (s : Text.text) :
  Text.rstrip s = [] <-> forallb Text.isspace s = true.
Proof.
  induction s as [|c s IH]; simpl.
  - split; reflexivity.
  - destruct (Text.rstrip s) eqn:E.
    + destruct (Text.isspace c); simpl.
      * split; [intros _; apply IH; reflexivity | reflexivity].
      * split; discriminate.
    + split; [discriminate|]. intros H. apply andb_true_iff in H as [_ H].
      apply IH in H. discriminate.
Qed.

(** [s.strip()] is empty exactly when [s] is made of whitespace. *)
Lemma text_strip_all_space (s : Text.text) :
  Text.strip s = [] <-> forallb Text.isspace s = true.
Proof.
  unfold Text.strip. split.
  - intros H. apply text_rstrip_all_space in H.
    destruct (Text.lstrip s) as [|c r] eqn:E.
    + apply text_lstrip_all_space. exact E.
    + apply text_lstrip_head in E. simpl in H. rewrite E in H. discriminate.
  - intros H. apply text_lstrip_all_space in H. rewrite H. reflexivity.
Qed.

Lemma text_strip_blank_test (s : Text.text) :
  (Text.len (Text.strip s) =? 0) = forallb Text.isspace s.
Proof.
  destruct (forallb Text.isspace s) eqn:E.
  - apply text_strip_all_space in E. rewrite E. reflexivity.
  - apply Z.eqb_neq. intros H. unfold Text.len in H.
    destruct (Text.strip s) eqn:E'; [|simpl in H; lia].
    apply text_strip_all_space in E'. congruence.
Qed.

(** On the characters below 256 the two readings of whitespace are
    the same. *)
Lemma isspace_of_ascii c : Text.isspace (N_of_ascii c) = Py.isspace c.
Proof.
  apply eqb_prop. revert c. apply ascii_forall_spec. vm_compute. reflexivity.
Qed.

Lemma of_string_cons c s :
  Text.of_string (String c s) = N_of_ascii c :: Text.of_string s.
Proof. reflexivity. Qed.

Lemma of_string_lstrip s : Text.lstrip (Text.of_string s) = Text.of_string (Py.lstrip s).
Proof.
  induction s as [|c s IH]; [reflexivity|].
  rewrite of_string_cons. simpl. rewrite isspace_of_ascii.
  destruct (Py.isspace c); [exact IH | reflexivity].
Qed.

Lemma of_string_rstrip s : Text.rstrip (Text.of_string s) = Text.of_string (Py.rstrip s).
Proof.
  induction s as [|c s IH]; [reflexivity|].
  rewrite of_string_cons. simpl. rewrite IH, isspace_of_ascii.
  destruct (Py.rstrip s); simpl; [destruct (Py.isspace c)|]; reflexivity.
Qed.

Lemma of_string_strip s : Text.strip (Text.of_string s) = Text.of_string (Py.strip s).
Proof. unfold Text.strip, Py.strip. rewrite of_string_lstrip, of_string_rstrip. reflexivity. Qed.

Lemma of_string_len s : Text.len (Text.of_string s) = Py.len s.
Proof.
  unfold Text.len, Py.len, Text.of_string. rewrite length_map. f_equal.
  induction s as [|c s IH]; simpl; congruence.
Qed.

Lemma of_string_truthy s : Text.truthy (Text.of_string s) = Py.truthy s.
Proof. destruct s; reflexivity. Qed.

(** On a string, [Text.validate_title] is [validate_title]. *)
Lemma validate_title_of_string (title : option string) :
  Text.validate_title (option_map Text.of_string title)
  = MetadataValidator.validate_title title.
Proof.
  destruct title as [t|]; [|reflexivity]. simpl.
  unfold MetadataValidator.validate_title.
  rewrite of_string_truthy, of_string_strip, !of_string_len. reflexivity.
Qed.

Lemma tag_char_of_ascii c : Text.tag_char (N_of_ascii c) = MetadataValidator.tag_char c.
Proof.
  apply eqb_prop. revert c. apply ascii_forall_spec. vm_compute. reflexivity.
Qed.

Lemma of_string_tag_chars s :
  forallb Text.tag_char (Text.of_string s) = Py.all_chars MetadataValidator.tag_char s.
Proof.
  induction s as [|c s IH]; [reflexivity|].
  rewrite of_string_cons, all_chars_cons. simpl. rewrite tag_char_of_ascii, IH. reflexivity.
Qed.

Lemma check_tag_of_string tag :
  Text.check_tag (Text.of_string tag) = MetadataValidator.check_tag tag.
Proof.
  unfold Text.check_tag, MetadataValidator.check_tag, Text.tag_re_match,
    MetadataValidator.tag_re_match.
  rewrite of_string_strip, !of_string_len, of_string_truthy, of_string_tag_chars.
  reflexivity.
Qed.

Lemma check_tags_of_string l :
  Text.check_tags (map Text.of_string l) = MetadataValidator.check_tags l.
Proof.
  induction l as [|x r IH]; [reflexivity|].
  simpl. rewrite check_tag_of_string, IH. reflexivity.
Qed.

(** On strings, [Text.validate_tags] is [validate_tags]. *)
Lemma validate_tags_of_string (tags : option (list string)) :
  Text.validate_tags (option_map (map Text.of_string) tags)
  = MetadataValidator.validate_tags tags.
Proof.
  destruct tags as [[|x r]|]; try reflexivity.
  unfold Text.validate_tags, MetadataValidator.validate_tags. cbn [option_map map].
  rewrite <- (check_tags_of_string (x :: r)). cbn [map length].
  rewrite length_map. reflexivity.
Qed.

End TextFacts.

(** ** The validators *)

Section Validators.

Lemma has_char_cons c d s :
  Py.has_char c (String d s) = Ascii.eqb c d || Py.has_char c s.
Proof. reflexivity. Qed.

Lemma split_not_nil sep s : Py.split sep s <> [].
Proof.
  destruct s as [|c s]; simpl; [discriminate|].
  destruct (Ascii.eqb c sep); [discriminate|].
  destruct (Py.split sep s); discriminate.
Qed.

(** Without the separator there is one segment, the string itself. *)
Lemma split_no_sep sep s : Py.has_char sep s = false -> Py.split sep s = [s].
Proof.
  induction s as [|c s IH]; [reflexivity|].
  rewrite has_char_cons. intros H. apply orb_false_iff in H as [Hc Hs].
  simpl. rewrite Ascii.eqb_sym, Hc, (IH Hs). reflexivity.
Qed.

(** [(pre + sep + suf).split(sep) == pre.split(sep) + suf.split(sep)] *)
Lemma split_app sep pre suf :
  Py.split sep (pre +:+ String sep suf) = Py.split sep pre ++ Py.split sep suf.
Proof.
  induction pre as [|c pre IH].
  - simpl. rewrite Ascii.eqb_refl. reflexivity.
  - change (String c pre +:+ String sep suf) with (String c (pre +:+ String sep suf)).
    simpl. rewrite IH. destruct (Ascii.eqb c sep); [reflexivity|].
    pose proof (split_not_nil sep pre) as Hne.
    destruct (Py.split sep pre) as [|h t]; [congruence|]. reflexivity.
Qed.

Lemma last_item_app {A} (l l' : list A) :
  l' <> [] -> Py.last_item (l ++ l') = Py.last_item l'.
Proof.
  intros Hne. induction l as [|x l IH]; [reflexivity|].
  simpl. destruct (l ++ l') as [|y r] eqn:E.
  - destruct l; [simpl in E; congruence | discriminate].
  - exact IH.
Qed.

Lemma lower_app s t : Py.lower (s +:+ t) = Py.lower s +:+ Py.lower t.
Proof.
  induction s as [|c s IH]; [reflexivity|].
  change (String c s +:+ t) with (String c (s +:+ t)). simpl. rewrite IH. reflexivity.
Qed.

Lemma lower_char_dot c :
  Ascii.eqb "." (Py.lower_char c) = Ascii.eqb "." c.
Proof.
  apply eqb_prop. revert c. apply ascii_forall_spec. vm_compute. reflexivity.
Qed.

Lemma has_dot_lower s : Py.has_char "." (Py.lower s) = Py.has_char "." s.
Proof.
  induction s as [|c s IH]; [reflexivity|].
  simpl Py.lower. rewrite !has_char_cons, lower_char_dot, IH. reflexivity.
Qed.

(** With a dot in the name, the extension is what follows the last
    dot, in lower case. *)
Lemma extension_of_dotted pre suf :
  Py.has_char "." suf = false ->
  ImageValidator.extension_of (pre +:+ String "." suf) = Py.lower suf.
Proof.
  intros Hsuf. unfold ImageValidator.extension_of.
  rewrite lower_app. simpl Py.lower.
  change (Py.lower_char ".") with "."%char.
  rewrite split_app, last_item_app by apply split_not_nil.
  rewrite split_no_sep by (rewrite has_dot_lower; exact Hsuf).
  reflexivity.
Qed.

(** Without a dot, the extension is the whole name, in lower case. *)
Lemma extension_of_dotless filename :
  Py.has_char "." filename = false ->
  ImageValidator.extension_of filename = Py.lower filename.
Proof.
  intros H. unfold ImageValidator.extension_of.
  rewrite split_no_sep by (rewrite has_dot_lower; exact H). reflexivity.
Qed.

Lemma truthy_app_cons s c t : Py.truthy (s +:+ String c t) = true.
Proof. destruct s; reflexivity. Qed.

(** A name with a dot passes exactly when the part after its last dot,
    lowercased, is an allowed extension. *)
Lemma validate_file_extension_dotted pre suf :
  Py.has_char "." suf = false ->
  ImageValidator.validate_file_extension (pre +:+ String "." suf)
  = Py.mem (Py.lower suf) ImageValidator.ALLOWED_EXTENSIONS.
Proof.
  intros H. unfold ImageValidator.validate_file_extension.
  rewrite truthy_app_cons, extension_of_dotted by exact H. reflexivity.
Qed.

Lemma validate_file_extension_empty :
  ImageValidator.validate_file_extension EmptyString = false.
Proof. reflexivity. Qed.

(** A name without a dot passes exactly when the whole name,
    lowercased, is one of the allowed words. *)
Lemma validate_file_extension_dotless filename :
  Py.has_char "." filename = false ->
  ImageValidator.validate_file_extension filename
  = Py.mem (Py.lower filename) ImageValidator.ALLOWED_EXTENSIONS.
Proof.
  intros H. unfold ImageValidator.validate_file_extension.
  destruct filename as [|c r]; [reflexivity|].
  rewrite extension_of_dotless by exact H. reflexivity.
Qed.

(** C6.  [validate_file_extension] lowercases what follows the last
    dot and compares it with the five extensions, and the empty name
    fails; but a name without any dot is taken whole as its own
    extension, so the dot-less name [jpg] passes, although the
    specification has every name without a dot fail. *)
Theorem validate_file_extension_accepts_dotless_name :
  Py.has_char "." "jpg" = false
  /\ ImageValidator.validate_file_extension "jpg" = true
  /\ ImageValidator.validate_file_extension "WEBP" = true
  /\ ImageValidator.validate_file_extension "noextension" = false
  /\ ImageValidator.validate_file_extension EmptyString = false.
Proof. repeat split; reflexivity. Qed.

(** Accepted titles, in closed form. *)
Lemma validate_title_bool title :
  is_valid (MetadataValidator.validate_title title)
  = match title with
    | None => true
    | Some t =>
        negb (Py.truthy t)
        || negb (Py.all_chars Py.isspace t) && (Py.len t <=? 200)
    end.
Proof.
  destruct title as [t|]; [|reflexivity].
  unfold MetadataValidator.validate_title, MetadataValidator.MAX_TITLE_LENGTH.
  destruct (Py.truthy t); [|reflexivity]. simpl negb. cbv iota.
  rewrite strip_blank_test.
  destruct (Py.all_chars Py.isspace t); [reflexivity|]. simpl.
  rewrite Z.gtb_ltb, Z.leb_antisym.
  destruct (200 <? Py.len t); reflexivity.
Qed.

(** The same on the strings. *)
Lemma validate_title_accepts_string title :
  is_valid (MetadataValidator.validate_title title) = true
  <-> title = None
      \/ title = Some EmptyString
      \/ exists t, title = Some t
                   /\ Py.all_chars Py.isspace t = false
                   /\ Py.len t <= 200.
Proof.
  rewrite validate_title_bool. destruct title as [t|].
  - rewrite orb_true_iff, andb_true_iff, negb_true_iff, negb_true_iff,
      Z.leb_le, truthy_false.
    split.
    + intros [-> | [Hs Hl]]; [right; left; reflexivity|].
      right; right. exists t. auto.
    + intros [H | [H | (t' & H & Hs & Hl)]]; [discriminate| |].
      * injection H as ->. left. reflexivity.
      * injection H as ->. right. auto.
  - split; [intros _; left; reflexivity | reflexivity].
Qed.



End Validators.

(** ** Tags: stored as one string, read back as a list *)

Section Tags.
Import Model.

Lemma all_chars_has_char p sep s :
  p sep = false -> Py.all_chars p s = true -> Py.has_char sep s = false.
Proof.
  intros Hp. induction s as [|c s IH]; [reflexivity|].
  rewrite all_chars_cons, has_char_cons. intros H.
  apply andb_true_iff in H as [Hc Hs]. rewrite (IH Hs), orb_false_r.
  destruct (Ascii.eqb_spec sep c) as [->|]; [congruence | reflexivity].
Qed.


Lemma nonblank_not_all_space s :
  ImageService.nonblank s = negb (Py.all_chars Py.isspace s).
Proof.
  unfold ImageService.nonblank. destruct (Py.all_chars Py.isspace s) eqn:E.
  - apply strip_all_space in E. rewrite E. reflexivity.
  - destruct (Py.strip s) eqn:E'; [|reflexivity].
    apply strip_all_space in E'. congruence.
Qed.

(** The list that [_convert_dynamo_to_api_format] computes from a
    stored string that is not empty: split on commas, strip each
    segment, drop the segments that are empty then. *)
Lemma convert_tags_nonempty stored :
  stored <> EmptyString ->
  ImageService.convert_tags stored
  = TagsList (map Py.strip (List.filter ImageService.nonblank (Py.split "," stored))).
Proof.
  intros Hne. unfold ImageService.convert_tags.
  destruct (Py.truthy stored) eqn:Ht; [|apply truthy_false in Ht; congruence].
  fold (ImageService.nonblank stored). destruct (ImageService.nonblank stored) eqn:Hb; [reflexivity|].
  rewrite nonblank_not_all_space in Hb. apply negb_false_iff in Hb.
  rewrite split_no_sep by (apply (all_chars_has_char Py.isspace); [reflexivity | exact Hb]).
  simpl. rewrite nonblank_not_all_space, Hb. reflexivity.
Qed.

(** The empty string is left as it is: a string, not a list. *)
Lemma convert_tags_empty :
  ImageService.convert_tags EmptyString = TagsStr EmptyString.
Proof. reflexivity. Qed.

(** No read returns an empty tag. *)
Lemma convert_tags_no_empty_tag stored l tag :
  ImageService.convert_tags stored = TagsList l -> In tag l -> tag <> EmptyString.
Proof.
  intros Hc Hin. destruct stored as [|c r]; [discriminate|].
  rewrite convert_tags_nonempty in Hc by discriminate.
  injection Hc as <-. apply in_map_iff in Hin as (x & <- & Hx).
  apply filter_In in Hx as [_ Hx]. unfold ImageService.nonblank in Hx.
  intros E. rewrite E in Hx. discriminate.
Qed.

(** [','.join(l).split(',') == l] for a list that is not empty and
    whose strings have no comma. *)
Lemma split_join l :
  l <> [] -> Forall (fun t => Py.has_char "," t = false) l ->
  Py.split "," (Py.join "," l) = l.
Proof.
  intros Hne Hall. induction Hall as [|x r Hx Hr IH]; [congruence|].
  destruct r as [|y r'].
  - simpl. apply split_no_sep. exact Hx.
  - change (Py.join "," (x :: y :: r')) with (x +:+ String "," (Py.join "," (y :: r'))).
    rewrite split_app, IH by discriminate.
    rewrite split_no_sep by exact Hx. reflexivity.
Qed.

(** What [validate_tags] guarantees of each tag it lets through. *)
Lemma check_tag_passes tag :
  MetadataValidator.check_tag tag = None ->
  Py.has_char "," tag = false /\ ImageService.nonblank tag = true.
Proof.
  unfold MetadataValidator.check_tag. rewrite strip_blank_test.
  destruct (Py.all_chars Py.isspace tag) eqn:Hs; [discriminate|].
  destruct (Py.len tag >? MetadataValidator.MAX_TAG_LENGTH); [discriminate|].
  destruct (MetadataValidator.tag_re_match tag) eqn:Hm; [|discriminate].
  intros _. split.
  - unfold MetadataValidator.tag_re_match in Hm. apply andb_true_iff in Hm as [_ Hm].
    apply (all_chars_has_char MetadataValidator.tag_char); [reflexivity | exact Hm].
  - rewrite nonblank_not_all_space, Hs. reflexivity.
Qed.

Lemma check_tags_passes l :
  MetadataValidator.check_tags l = Valid ->
  Forall (fun t => Py.has_char "," t = false) l /\ Forall (fun t => ImageService.nonblank t = true) l.
Proof.
  induction l as [|x r IH]; simpl; [split; constructor|].
  destruct (MetadataValidator.check_tag x) eqn:E; [discriminate|].
  intros H. destruct (IH H) as [H1 H2]. destruct (check_tag_passes x E).
  split; constructor; assumption.
Qed.

Lemma validate_tags_passes l :
  MetadataValidator.validate_tags (Some l) = Valid ->
  Forall (fun t => Py.has_char "," t = false) l /\ Forall (fun t => ImageService.nonblank t = true) l.
Proof.
  destruct l as [|x r]; [split; constructor|].
  unfold MetadataValidator.validate_tags.
  destruct (_ >? _); [discriminate|]. apply check_tags_passes.
Qed.

Lemma filter_all {A} (p : A -> bool) l :
  Forall (fun x => p x = true) l -> List.filter p l = l.
Proof.
  induction 1 as [|x r Hx _ IH]; [reflexivity|]. simpl. rewrite Hx, IH. reflexivity.
Qed.

Lemma join_truthy x r : ImageService.nonblank x = true -> Py.truthy (Py.join "," (x :: r)) = true.
Proof.
  intros Hx. destruct x as [|c x']; [discriminate|].
  destruct r; reflexivity.
Qed.

(** A validated tag list that is not empty comes back with each tag
    stripped. *)
Lemma tags_round_trip l :
  l <> [] ->
  MetadataValidator.validate_tags (Some l) = Valid ->
  ImageService.convert_tags (ImageService.join_tags (Some l))
  = TagsList (map Py.strip l).
Proof.
  intros Hne Hv. destruct (validate_tags_passes l Hv) as [Hc Hb].
  destruct l as [|x r]; [congruence|].
  unfold ImageService.join_tags.
  rewrite convert_tags_nonempty.
  - rewrite split_join by (try discriminate; exact Hc).
    rewrite filter_all by exact Hb. reflexivity.
  - apply Forall_inv in Hb. pose proof (join_truthy x r Hb) as Ht.
    intros E. rewrite E in Ht. discriminate.
Qed.

(** It comes back unchanged exactly when its tags are stripped
    already. *)
Lemma tags_round_trip_identity l :
  l <> [] ->
  MetadataValidator.validate_tags (Some l) = Valid ->
  (ImageService.convert_tags (ImageService.join_tags (Some l)) = TagsList l
   <-> Forall (fun t => Py.strip t = t) l).
Proof.
  intros Hne Hv. rewrite tags_round_trip by assumption. clear.
  split.
  - intros H. injection H as H. induction l as [|x r IH]; constructor.
    + injection H as H _. exact H.
    + apply IH. injection H as _ H. exact H.
  - intros H. f_equal. induction H as [|x r Hx _ IH]; [reflexivity|].
    simpl. rewrite Hx, IH. reflexivity.
Qed.

(** C10.  The tags of an upload are stored joined by commas and read
    back split, stripped and without empty segments; but the upload
    without tags stores the empty string, which the reader leaves a
    string: the round trip of the empty list (and of no list) is not
    the identity, and [ImageResponse], whose tags are a list, cannot be
    built from the record. *)
Theorem empty_tags_do_not_round_trip (image_metadata : ImageMetadata) :
  tags image_metadata = None \/ tags image_metadata = Some [] ->
  let api_data :=
    ImageService._convert_dynamo_to_api_format (ImageService.to_dynamo image_metadata) in
  tags (ImageService.to_dynamo image_metadata) = EmptyString
  /\ tags api_data = TagsStr EmptyString
  /\ ImageResponse_of api_data = None.
Proof.
  intros H. unfold ImageService._convert_dynamo_to_api_format, ImageService.to_dynamo,
    ImageResponse_of, with_tags. simpl.
  destruct H as [-> | ->]; simpl; auto.
Qed.

End Tags.

(** ** The stores *)

Section Stores.
Import Model Store.
Context `{Externals}.

(** Unfold the monad and the gateways. *)
Ltac run :=
  unfold S3Client.upload_image, S3Client.delete_image,
    S3Client.generate_presigned_url, DynamoDBClient.put_image_metadata,
    DynamoDBClient.get_image_metadata_by_id, DynamoDBClient.update_image_metadata,
    DynamoDBClient.list_images, DynamoDBClient.query_images_by_user,
    bind, ret, attempt, log, get_table, set_table, get_bucket, set_bucket in *;
  simpl in *.

Lemma first_by_created_at_in l m :
  DynamoDBClient.first_by_created_at l = Some m -> In m l.
Proof.
  revert m. induction l as [|x r IH]; simpl; [discriminate|]. intros m.
  destruct (DynamoDBClient.first_by_created_at r) as [y|].
  - destruct (String.leb _ _); intros E; injection E as <-; auto.
  - intros E; injection E as <-; auto.
Qed.

(** The record found under an id has this id. *)
Lemma query_by_id_image_id t id m :
  DynamoDBClient.query_by_id t id = Some m -> image_id m = id.
Proof.
  unfold DynamoDBClient.query_by_id. intros E.
  apply first_by_created_at_in, filter_In in E as [_ E].
  apply String.eqb_eq. exact E.
Qed.

Lemma first_by_created_at_map (f : Item -> Item) l :
  (forall it, created_at (f it) = created_at it) ->
  DynamoDBClient.first_by_created_at (map f l)
  = option_map f (DynamoDBClient.first_by_created_at l).
Proof.
  intros Hf. induction l as [|x r IH]; [reflexivity|].
  simpl. rewrite IH. destruct (DynamoDBClient.first_by_created_at r) as [y|]; simpl.
  - rewrite !Hf. destruct (String.leb _ _); reflexivity.
  - reflexivity.
Qed.

Lemma filter_map_commute {A} (p : A -> bool) (f : A -> A) l :
  (forall x, p (f x) = p x) -> List.filter p (map f l) = map f (List.filter p l).
Proof.
  intros Hp. induction l as [|x r IH]; [reflexivity|].
  simpl. rewrite Hp. destruct (p x); simpl; rewrite IH; reflexivity.
Qed.

(** After the update at the key of the record found under [id], the
    record found under [id] is the updated one. *)
Lemma query_by_id_update t id m u :
  DynamoDBClient.query_by_id t id = Some m ->
  DynamoDBClient.query_by_id
    (DynamoDBClient.update_item t id (created_at m) u) id
  = Some (DynamoDBClient.apply_updates u m).
Proof.
  intros E. pose proof (query_by_id_image_id _ _ _ E) as Hid.
  unfold DynamoDBClient.query_by_id, DynamoDBClient.update_item in *.
  set (f := fun it => if DynamoDBClient.same_key id (created_at m) it
                      then DynamoDBClient.apply_updates u it else it).
  rewrite (filter_map_commute _ f).
  - rewrite first_by_created_at_map.
    + transitivity (option_map f (Some m)); [f_equal; exact E|].
      simpl. unfold f, DynamoDBClient.same_key.
      rewrite Hid, !String.eqb_refl. reflexivity.
    + intros it. unfold f. destruct (DynamoDBClient.same_key _ _ it); reflexivity.
  - intros it. unfold f. destruct (DynamoDBClient.same_key _ _ it); reflexivity.
Qed.

(** C2.  A record that is soft-deleted and a record that is absent get
    the same answer from [get_image], whatever the rest of the two
    worlds: the failure ['Image not found'], and status 404 from the
    handler. *)
Theorem get_image_hides_deletion (w1 w2 : World) (image_id : string)
    (include1 include2 : bool) (metadata : Item) :
  DynamoDBClient.query_by_id (table w1) image_id = None ->
  DynamoDBClient.query_by_id (table w2) image_id = Some metadata ->
  is_deleted metadata = true ->
  (ImageService.get_image image_id include1 w1).1 = Failure "Image not found"
  /\ (ImageService.get_image image_id include2 w2).1 = Failure "Image not found"
  /\ (Main.get_image image_id include1 w1).1 = Main.HTTPException 404 "Image not found"
  /\ (Main.get_image image_id include2 w2).1 = Main.HTTPException 404 "Image not found".
Proof.
  intros H1 H2 Hd.
  unfold Main.get_image, ImageService.get_image. run.
  destruct (faults w1) as [|[] ?], (faults w2) as [|[] ?]; simpl;
    rewrite ?H1, ?H2, ?Hd; simpl; auto.
Qed.

Lemma model_dump_no_s3_key (r : ImageResponse) :
  dict_get (model_dump r) "s3_key" = None.
Proof. reflexivity. Qed.

(** Case analysis on the scrutinees of the goal. *)
Ltac cases :=
  repeat match goal with
         | |- context [match ?x with _ => _ end] => destruct x eqn:?; simpl
         | |- context [if ?x then _ else _] => destruct x eqn:?; simpl
         end.

(** What [get_image] returns on success is a dumped [ImageResponse]:
    it has no ['s3_key']. *)
Lemma get_image_success_no_s3_key (w w' : World) (image_id : string)
    (include_download_url : bool) (image : Dict) :
  ImageService.get_image image_id include_download_url w = (Success image, w') ->
  dict_get image "s3_key" = None.
Proof.
  unfold ImageService.get_image. run. cases;
    intros E; inversion E; subst; reflexivity.
Qed.

(** The download handler answers 200 in no world. *)
Lemma download_link_never_ok (w : World) (image_id : string) (expires_in : Z) :
  Main.status (Main.get_image_download_url image_id expires_in w).1 <> 200.
Proof.
  unfold Main.get_image_download_url, bind.
  destruct (ImageService.get_image image_id false w) as [[image|error] w'] eqn:E.
  - rewrite (get_image_success_no_s3_key _ _ _ _ _ E). simpl. discriminate.
  - destruct (Main.mentions "not found" error); simpl; discriminate.
Qed.

(** C7.  For a live record the download handler reads ['s3_key'] from
    the dumped [ImageResponse], which has no such key: the [KeyError]
    becomes status 500 (and a record stored without tags, from which no
    [ImageResponse] can be built, gets status 400), never the 200 with
    the link that the specification and the handler's own test
    expect. *)
Theorem download_link_of_live_record_fails (w : World) (image_id : string)
    (expires_in : Z) (metadata : Item) :
  reliable 1 w ->
  DynamoDBClient.query_by_id (table w) image_id = Some metadata ->
  is_deleted metadata = false ->
  (Main.get_image_download_url image_id expires_in w).1
  = Main.HTTPException (if Py.truthy (tags metadata) then 500 else 400)
      "Internal server error".
Proof.
  intros Hr Hq Hd.
  unfold Main.get_image_download_url, ImageService.get_image,
    ImageService._convert_dynamo_to_api_format, ImageResponse_of,
    ImageService.convert_tags, reliable in *. run.
  destruct (faults w) as [|f ?]; [|apply Forall_inv in Hr; subst f]; simpl;
    rewrite Hq, Hd; simpl;
    destruct (Py.truthy (tags metadata)); simpl;
    try destruct (Py.truthy (Py.strip (tags metadata))); reflexivity.
Qed.

Lemma reliable_cons n f fs b t c :
  reliable (S n) (mkWorld b t (f :: fs) c) -> f = false /\ reliable n (mkWorld b t fs c).
Proof. unfold reliable. simpl. intros Hr. inversion Hr; subst. auto. Qed.

(** One soft delete of a live record by its owner, when the two calls
    go through. *)
Lemma delete_image_live (w : World) (now image_id user_id : string) (metadata : Item) :
  reliable 2 w ->
  DynamoDBClient.query_by_id (table w) image_id = Some metadata ->
  Model.user_id metadata = user_id ->
  is_deleted metadata = false ->
  exists w',
    ImageService.delete_image now image_id user_id w
    = (Success (ImageService.mkDeleted "Image deleted successfully" image_id), w')
    /\ table w'
       = DynamoDBClient.update_item (table w) image_id (created_at metadata)
           (DynamoDBClient.mkUpdates true now)
    /\ bucket w' = bucket w
    /\ faults w' = drop 2 (faults w).
Proof.
  intros Hr Hq Hu Hd. destruct w as [b t fs c].
  unfold ImageService.delete_image. run.
  destruct fs as [|f1 fs]; simpl.
  - rewrite Hq. simpl. rewrite Hu, String.eqb_refl, Hd. simpl. eauto.
  - apply reliable_cons in Hr as [-> Hr]. simpl. rewrite Hq. simpl.
    rewrite Hu, String.eqb_refl, Hd. simpl.
    destruct fs as [|f2 fs]; simpl; [eauto|].
    apply reliable_cons in Hr as [-> Hr]. simpl. eauto.
Qed.

(** A soft delete of a deleted record changes neither store, and does
    not succeed, whoever asks and whatever the calls do. *)
Lemma delete_image_deleted (w : World) (now image_id user_id : string) (metadata : Item) :
  DynamoDBClient.query_by_id (table w) image_id = Some metadata ->
  is_deleted metadata = true ->
  let '(r, w') := ImageService.delete_image now image_id user_id w in
  table w' = table w /\ bucket w' = bucket w
  /\ (r = Failure "Image already deleted"
      \/ r = Failure "Unauthorized to delete this image"
      \/ r = Failure "Image not found").
Proof.
  intros Hq Hd. unfold ImageService.delete_image. run.
  destruct (faults w) as [|[] fs]; simpl; rewrite ?Hq; simpl;
    try destruct (String.eqb _ _); simpl; rewrite ?Hd; simpl; auto.
Qed.

(** C5.  Two soft deletes of a live record by its owner, when the calls
    go through: the first succeeds, the second fails with ['Image
    already deleted'], stores are the same after the second as after
    the first, and the record is the deleted one.  And [is_deleted] is
    absorbing: a soft delete of a deleted record changes nothing. *)
Theorem delete_image_twice (w : World) (now1 now2 image_id user_id : string)
    (metadata : Item) :
  reliable 3 w ->
  DynamoDBClient.query_by_id (table w) image_id = Some metadata ->
  Model.user_id metadata = user_id ->
  is_deleted metadata = false ->
  let '(r1, w1) := ImageService.delete_image now1 image_id user_id w in
  let '(r2, w2) := ImageService.delete_image now2 image_id user_id w1 in
  r1 = Success (ImageService.mkDeleted "Image deleted successfully" image_id)
  /\ r2 = Failure "Image already deleted"
  /\ table w2 = table w1
  /\ bucket w2 = bucket w1
  /\ DynamoDBClient.query_by_id (table w1) image_id
     = Some (DynamoDBClient.apply_updates (DynamoDBClient.mkUpdates true now1) metadata)
  /\ forall now3 user3,
       table (ImageService.delete_image now3 image_id user3 w2).2 = table w2.
Proof.
  intros Hr Hq Hu Hd.
  assert (Hr2 : reliable 2 w).
  { unfold reliable in *. destruct (faults w) as [|f1 [|f2 [|f3 fs]]]; simpl in *;
      try exact Hr. inversion Hr as [|? ? ? Hr']; subst.
    inversion Hr' as [|? ? ? Hr'']; subst. repeat constructor. }
  destruct (delete_image_live w now1 image_id user_id metadata Hr2 Hq Hu Hd)
    as (w1 & E1 & Ht1 & Hb1 & Hf1).
  rewrite E1.
  assert (Hq1 : DynamoDBClient.query_by_id (table w1) image_id
                = Some (DynamoDBClient.apply_updates (DynamoDBClient.mkUpdates true now1)
                          metadata)).
  { rewrite Ht1. apply query_by_id_update. exact Hq. }
  assert (Hh : hd false (faults w1) = false).
  { rewrite Hf1. unfold reliable in Hr.
    destruct (faults w) as [|f1 [|f2 [|f3 fs]]]; simpl in *; try reflexivity.
    inversion Hr as [|? ? ? Hr']; subst. inversion Hr' as [|? ? ? Hr'']; subst.
    inversion Hr''; subst. reflexivity. }
  destruct (ImageService.delete_image now2 image_id user_id w1) as [r2 w2] eqn:E2.
  assert (r2 = Failure "Image already deleted" /\ table w2 = table w1
          /\ bucket w2 = bucket w1) as (-> & Ht2 & Hb2).
  { revert E2. unfold ImageService.delete_image. run.
    destruct (faults w1) as [|f fs]; simpl in *; [|subst f; simpl];
      rewrite Hq1; simpl; rewrite Hu, String.eqb_refl; simpl;
      intros E; inversion E; subst; auto. }
  repeat split; try assumption.
  intros now3 user3.
  pose proof (delete_image_deleted w2 now3 image_id user3
                (DynamoDBClient.apply_updates (DynamoDBClient.mkUpdates true now1) metadata))
    as Habs.
  rewrite Ht2 in Habs. specialize (Habs Hq1 eq_refl).
  destruct (ImageService.delete_image now3 image_id user3 w2) as [r3 w3].
  simpl. destruct Habs as [Ht3 _]. rewrite Ht3, Ht2. reflexivity.
Qed.

End Stores.

(** ** The upload saga *)

Section Upload.
Import Model Store.
Context `{Externals}.

Ltac run :=
  unfold S3Client.upload_image, S3Client.delete_image,
    S3Client.generate_presigned_url, DynamoDBClient.put_image_metadata,
    DynamoDBClient.get_image_metadata_by_id, DynamoDBClient.update_image_metadata,
    DynamoDBClient.list_images, DynamoDBClient.query_images_by_user,
    bind, ret, attempt, log, get_table, set_table, get_bucket, set_bucket in *;
  simpl in *.

(** The two writes and the compensation, after the validations. *)
Lemma upload_image_validated fresh file_content filename upload_request width height format :
  ImageService.validated file_content filename upload_request width height format ->
  ImageService.upload_image fresh file_content filename upload_request
  = let image_metadata :=
      ImageService.new_metadata fresh file_content filename upload_request
        width height format in
    let* stored :=
      S3Client.upload_image file_content (s3_key image_metadata)
        (content_type image_metadata) in
    if negb stored then ret (Failure "Failed to upload image to storage")
    else
      let* put :=
        DynamoDBClient.put_image_metadata (ImageService.to_dynamo image_metadata) in
      if negb put then
        let* _ := S3Client.delete_image (s3_key image_metadata) in
        ret (Failure "Failed to store image metadata")
      else
        ret (Success (ImageService.mkUploaded (image_id image_metadata)
                        "Image uploaded successfully")).
Proof.
  intros (He & Hs & Hc & Ht & Hd & Hg & Hu).
  unfold ImageService.upload_image. rewrite He, Hs, Hc, Ht, Hd, Hg, Hu. reflexivity.
Qed.

(** An upload is validated, or fails without a call. *)
Lemma upload_image_cases fresh file_content filename upload_request :
  (exists e,
     ImageService.upload_image fresh file_content filename upload_request
     = ret (Failure e))
  \/ (exists width height format,
        ImageService.validated file_content filename upload_request width height format).
Proof.
  unfold ImageService.upload_image, ImageService.validated.
  destruct (ImageValidator.validate_file_extension filename); cbn [negb]; [|eauto].
  destruct (ImageValidator.validate_file_size (Py.len file_content)); cbn [negb]; [|eauto].
  destruct (ImageValidator.validate_image_content (image_open file_content))
    as [width height format|]; [|eauto].
  destruct (MetadataValidator.validate_title (req_title upload_request)); [|eauto].
  destruct (MetadataValidator.validate_description (req_description upload_request)); [|eauto].
  destruct (MetadataValidator.validate_tags (req_tags upload_request)); [|eauto].
  destruct (MetadataValidator.validate_user_id (Some (req_user_id upload_request))); [|eauto].
  right. exists width, height, format. repeat split; reflexivity.
Qed.

(** C1.  The upload writes the blob, then the record.  When the blob is
    written and the record is not, the blob delete is attempted and the
    answer is ['Failed to store image metadata'] whether or not the
    delete goes through; when the blob is not written, no record write
    is attempted; and in every run the table changes only by a record
    whose blob is in the bucket, written just before it. *)
Theorem upload_image_saga :
  (forall fresh file_content filename upload_request width height format w,
     ImageService.validated file_content filename upload_request width height format ->
     goes_through 0 w = true -> goes_through 1 w = false ->
     let md := ImageService.new_metadata fresh file_content filename upload_request
                 width height format in
     let '(r, w') := ImageService.upload_image fresh file_content filename
                       upload_request w in
     r = Failure "Failed to store image metadata"
     /\ calls w' = calls w ++ [PutObject (s3_key md) true;
                               PutItem (image_id md) (created_at md) false;
                               DeleteObject (s3_key md) (goes_through 2 w)]
     /\ table w' = table w)
  /\ (forall fresh file_content filename upload_request width height format w,
        ImageService.validated file_content filename upload_request width height format ->
        goes_through 0 w = false ->
        let md := ImageService.new_metadata fresh file_content filename upload_request
                    width height format in
        let '(r, w') := ImageService.upload_image fresh file_content filename
                          upload_request w in
        r = Failure "Failed to upload image to storage"
        /\ calls w' = calls w ++ [PutObject (s3_key md) false]
        /\ table w' = table w
        /\ bucket w' = bucket w)
  /\ (forall fresh file_content filename upload_request w,
        let '(r, w') := ImageService.upload_image fresh file_content filename
                          upload_request w in
        table w' = table w /\ (forall d, r <> Success d)
        \/ exists md : ImageMetadata,
             r = Success (ImageService.mkUploaded (image_id md)
                            "Image uploaded successfully")
             /\ table w' = DynamoDBClient.put_item (table w) (ImageService.to_dynamo md)
             /\ bucket w' !! s3_key md
                = Some (mkS3Object file_content (content_type md))
             /\ calls w' = calls w ++ [PutObject (s3_key md) true;
                                       PutItem (image_id md) (created_at md) true]).
Proof.
  split; [|split].
  - intros fresh file_content filename upload_request width height format w Hv H0 H1.
    rewrite (upload_image_validated _ _ _ _ _ _ _ Hv).
    unfold goes_through in *. destruct w as [b t fs c]. run.
    destruct fs as [|[] [|[] fs]]; simpl in *; try discriminate.
    destruct fs as [|[] fs]; simpl; repeat split; rewrite <- ?List.app_assoc; reflexivity.
  - intros fresh file_content filename upload_request width height format w Hv H0.
    rewrite (upload_image_validated _ _ _ _ _ _ _ Hv).
    unfold goes_through in *. destruct w as [b t fs c]. run.
    destruct fs as [|[] fs]; simpl in *; try discriminate. repeat split.
  - intros fresh file_content filename upload_request w.
    destruct (upload_image_cases fresh file_content filename upload_request)
      as [[e E] | (width & height & format & Hv)].
    + rewrite E. simpl. left. split; [reflexivity | discriminate].
    + rewrite (upload_image_validated _ _ _ _ _ _ _ Hv).
      set (md := ImageService.new_metadata fresh file_content filename upload_request
                   width height format).
      destruct w as [b t fs c]. run.
      destruct fs as [|f1 fs]; simpl.
      { right. exists md. rewrite <- ?List.app_assoc.
        repeat split; try reflexivity. apply lookup_insert_eq. }
      destruct f1; simpl; [left; split; [reflexivity | discriminate]|].
      destruct fs as [|f2 fs]; simpl.
      { right. exists md. rewrite <- ?List.app_assoc.
        repeat split; try reflexivity. apply lookup_insert_eq. }
      destruct f2; simpl.
      { destruct fs as [|f3 fs]; simpl; [|destruct f3; simpl];
          left; (split; [reflexivity | discriminate]). }
      right. exists md. rewrite <- ?List.app_assoc.
      repeat split; try reflexivity. apply lookup_insert_eq.
Qed.

End Upload.

(** ** Listing *)

Section Listing.
Import Model Store.
Context `{Externals}.

Ltac run :=
  unfold S3Client.upload_image, S3Client.delete_image,
    S3Client.generate_presigned_url, DynamoDBClient.put_image_metadata,
    DynamoDBClient.get_image_metadata_by_id, DynamoDBClient.update_image_metadata,
    DynamoDBClient.list_images, DynamoDBClient.query_images_by_user,
    bind, ret, attempt, log, get_table, set_table, get_bucket, set_bucket in *;
  simpl in *.

(** C9.  With an owner filter, the tag filter has no effect:
    [list_images] takes the query on the owner index, which has no tag
    argument.  (An empty [user_id] is no owner filter: it is false, and
    the scan is taken.) *)
Theorem list_images_owner_ignores_tags (limit : Z) (page_token tags : option string)
    (user_id : string) (w : World) :
  Py.truthy user_id = true ->
  ImageService.list_images limit page_token (Some user_id) tags w
  = ImageService.list_images limit page_token (Some user_id) None w.
Proof.
  intros Hu. destruct user_id as [|c r]; [discriminate|]. reflexivity.
Qed.

(** Without an owner filter the tag reaches the scan. *)
Lemma query_images_scans (limit : Z) (key : Json.value) (user_id tags : option string) :
  Py.truthy_opt user_id = false ->
  ImageService.query_images limit key user_id tags
  = DynamoDBClient.list_images limit key user_id tags.
Proof. intros Hu. unfold ImageService.query_images. rewrite Hu. reflexivity. Qed.

Lemma presign_spec (key : string) (expiration : Z) (w : World) :
  let '(url, w') := S3Client.generate_presigned_url key expiration w in
  table w' = table w
  /\ bucket w' = bucket w
  /\ List.filter is_fetch (calls w') = List.filter is_fetch (calls w).
Proof.
  run. destruct (faults w) as [|[] fs]; simpl;
    rewrite List.filter_app; simpl; rewrite List.app_nil_r; auto.
Qed.

Lemma ImageResponse_of_image_id (img : Item) (r : ImageResponse) :
  ImageResponse_of (ImageService._convert_dynamo_to_api_format img) = Some r ->
  r_image_id r = image_id img.
Proof.
  unfold ImageResponse_of. simpl.
  destruct (ImageService.convert_tags (tags img)); [discriminate|].
  intros E. injection E as <-. reflexivity.
Qed.

(** The loop over the live images makes presign calls only, and builds
    one response per image, in order. *)
Lemma image_responses_spec (active : list Item) (w : World) :
  let '(rs, w') := ImageService.image_responses active w in
  table w' = table w
  /\ bucket w' = bucket w
  /\ List.filter is_fetch (calls w') = List.filter is_fetch (calls w)
  /\ forall responses, rs = Some responses ->
       map r_image_id responses = map image_id active.
Proof.
  revert w. induction active as [|img rest IH]; intros w.
  - simpl. repeat split. intros responses E. injection E as <-. reflexivity.
  - simpl. destruct (ImageResponse_of (ImageService._convert_dynamo_to_api_format img))
      as [r|] eqn:Er.
    + unfold bind.
      pose proof (presign_spec (s3_key img) 3600 w) as Hp.
      destruct (S3Client.generate_presigned_url (s3_key img) 3600 w) as [url w1].
      destruct Hp as (Ht & Hb & Hc).
      specialize (IH w1).
      destruct (ImageService.image_responses rest w1) as [others w2].
      destruct IH as (IHt & IHb & IHc & IHr).
      unfold ret. rewrite IHt, IHb, IHc, Ht, Hb, Hc. repeat split.
      intros responses E. destruct others as [others|]; [|discriminate].
      injection E as <-. simpl. rewrite (IHr others eq_refl). f_equal.
      pose proof (ImageResponse_of_image_id img r Er) as Hid.
      destruct (Py.truthy_opt url); simpl; exact Hid.
    + simpl. repeat split. discriminate.
Qed.

Lemma query_images_spec (limit : Z) (key : Json.value) (user_id tags : option string)
    (w : World) :
  let '(page, w') := ImageService.query_images limit key user_id tags w in
  table w' = table w
  /\ bucket w' = bucket w
  /\ length (List.filter is_fetch (calls w'))
     = S (length (List.filter is_fetch (calls w))).
Proof.
  unfold ImageService.query_images.
  destruct (Py.truthy_opt user_id); run;
    destruct (faults w) as [|[] fs]; simpl;
    rewrite List.filter_app, length_app; simpl; repeat split; lia.
Qed.

(** C3.  A successful [list_images] has fetched one page with the
    limit it was given, without a second fetch; it returns, in the
    order of the page, exactly the records of that page whose
    [is_deleted] is not true, so that the records with [is_deleted]
    true are dropped after the fetch and the page may be shorter than
    the limit; and [has_more] tells whether the store returned a next
    key, whatever the filter kept. *)
Theorem list_images_page (limit : Z) (page_token user_id tags : option string)
    (w w' : World) (listing : ImageService.Listing) :
  ImageService.list_images limit page_token user_id tags w = (Success listing, w') ->
  exists key,
    ImageService.decode_page_token page_token = Some key
    /\ let page := (ImageService.query_images limit key user_id tags w).1 in
       let active := List.filter (fun img => negb (is_deleted img)) (items page) in
       map (fun d => dict_get d "image_id") (ImageService.images listing)
       = map (fun img => Some (PStr (image_id img))) active
       /\ Forall (fun img => is_deleted img = false) active
       /\ (forall img, In img (items page) -> is_deleted img = false -> In img active)
       /\ (forall img, In img (items page) -> is_deleted img = true -> ~ In img active)
       /\ ImageService.total_count listing = Z.of_nat (length active)
       /\ (length active <= length (items page))%nat
       /\ (ImageService.has_more listing = true <-> last_evaluated_key page <> None)
       /\ length (List.filter is_fetch (calls w'))
          = S (length (List.filter is_fetch (calls w)))
       /\ table w' = table w.
Proof.
  unfold ImageService.list_images.
  destruct (ImageService.decode_page_token page_token) as [key|]; [|discriminate].
  intros E. exists key. split; [reflexivity|].
  unfold bind in E.
  pose proof (query_images_spec limit key user_id tags w) as Hq.
  destruct (ImageService.query_images limit key user_id tags w) as [page w1].
  destruct Hq as (Ht & _ & Hc). simpl.
  change (List.filter ImageService.live (items page))
    with (List.filter (fun img => negb (is_deleted img)) (items page)) in E.
  set (active := List.filter (fun img => negb (is_deleted img)) (items page)) in *.
  pose proof (image_responses_spec active w1) as Hr.
  destruct (ImageService.image_responses active w1)
    as [[responses|] w2]; [|discriminate].
  destruct Hr as (Ht2 & _ & Hc2 & Hids).
  specialize (Hids responses eq_refl).
  unfold ret in E. injection E as <- <-. simpl.
  assert (Hlen : length responses = length active).
  { rewrite <- (length_map r_image_id), Hids, length_map. reflexivity. }
  split.
  { rewrite map_map, <- (map_map image_id (fun i => Some (PStr i))), <- Hids, map_map.
    reflexivity. }
  split.
  { apply List.Forall_forall. intros img Hin. apply filter_In in Hin as [_ Hd].
    apply negb_true_iff. exact Hd. }
  split.
  { intros img Hin Hd. apply filter_In. split; [exact Hin|]. rewrite Hd. reflexivity. }
  split.
  { intros img _ Hd Hin. apply filter_In in Hin as [_ Hn]. rewrite Hd in Hn. discriminate. }
  split; [rewrite Hlen; reflexivity|].
  split; [apply List.filter_length_le|].
  split.
  { destruct (last_evaluated_key page); split; try discriminate; congruence. }
  split; [rewrite Hc2; exact Hc | congruence].
Qed.

End Listing.

(** ** The page token *)

Section Base64Facts.
Import Base64 Aux.

(** Induction on a string three characters at a time. *)
Lemma string_ind3 (P : string -> Prop) :
  P EmptyString ->
  (forall a, P (String a EmptyString)) ->
  (forall a b, P (String a (String b EmptyString))) ->
  (forall a b c r, P r -> P (String a (String b (String c r)))) ->
  forall s, P s.
Proof.
  intros H0 H1 H2 H3.
  assert (Hall : forall s, P s /\ (forall a, P (String a s))
                           /\ (forall a b, P (String a (String b s)))).
  { induction s as [|c r (IH0 & IH1 & IH2)]; [auto|].
    split; [apply IH1|]. split; [intros a; apply IH2|].
    intros a b. apply H3. exact IH0. }
  intros s. apply Hall.
Qed.

Lemma reads_back_spec n :
  reads_back n = true ->
  b64_index (b64_char n) = Some n
  /\ Ascii.eqb (b64_char n) "=" = false
  /\ is_ascii (b64_char n) = true.
Proof.
  unfold reads_back. intros H.
  apply andb_true_iff in H as [H Ha]. apply andb_true_iff in H as [Hi Hp].
  destruct (b64_index (b64_char n)) as [m|]; [|discriminate].
  apply N.eqb_eq in Hi. subst m. apply negb_true_iff in Hp. auto.
Qed.

Lemma sextet0_reads_back a : reads_back (sextet0 a) = true.
Proof. revert a. apply ascii_forall_spec. vm_compute. reflexivity. Qed.

Lemma sextet1_reads_back a b : reads_back (sextet1 a b) = true.
Proof.
  revert b. revert a.
  assert (Hc : ascii_forall (fun a => ascii_forall (fun b => reads_back (sextet1 a b)))
               = true) by (vm_compute; reflexivity).
  intros a. apply ascii_forall_spec. revert a.
  apply (ascii_forall_spec (fun a => ascii_forall (fun b => reads_back (sextet1 a b)))).
  exact Hc.
Qed.

Lemma sextet2_reads_back b c : reads_back (sextet2 b c) = true.
Proof.
  revert c. revert b.
  assert (Hc : ascii_forall (fun b => ascii_forall (fun c => reads_back (sextet2 b c)))
               = true) by (vm_compute; reflexivity).
  intros b. apply ascii_forall_spec. revert b.
  apply (ascii_forall_spec (fun b => ascii_forall (fun c => reads_back (sextet2 b c)))).
  exact Hc.
Qed.

Lemma sextet3_reads_back c : reads_back (sextet3 c) = true.
Proof. revert c. apply ascii_forall_spec. vm_compute. reflexivity. Qed.

Lemma first_byte a b : first_byte_back a b = true.
Proof.
  revert b. revert a.
  assert (Hc : ascii_forall (fun a => ascii_forall (fun b => first_byte_back a b)) = true)
    by (vm_compute; reflexivity).
  intros a. apply ascii_forall_spec. revert a.
  apply (ascii_forall_spec (fun a => ascii_forall (fun b => first_byte_back a b))).
  exact Hc.
Qed.

Lemma second_byte b c : second_byte_back b c = true.
Proof.
  revert c. revert b.
  assert (Hc : ascii_forall (fun b => ascii_forall (fun c => second_byte_back b c)) = true)
    by (vm_compute; reflexivity).
  intros b. apply ascii_forall_spec. revert b.
  apply (ascii_forall_spec (fun b => ascii_forall (fun c => second_byte_back b c))).
  exact Hc.
Qed.

Lemma third_byte c : third_byte_back c = true.
Proof. revert c. apply ascii_forall_spec. vm_compute. reflexivity. Qed.

Lemma a2b_data n r quad_pos leftchar pads :
  reads_back n = true ->
  a2b_loop (String (b64_char n) r) quad_pos leftchar pads
  = if (quad_pos =? 0)%N then a2b_loop r 1%N n 0%N
    else if (quad_pos =? 1)%N then
      String (byte (N.lor (N.shiftl leftchar 2) (N.shiftr n 4)))
        <$> a2b_loop r 2%N (N.land n 15) 0%N
    else if (quad_pos =? 2)%N then
      String (byte (N.lor (N.shiftl leftchar 4) (N.shiftr n 2)))
        <$> a2b_loop r 3%N (N.land n 3) 0%N
    else
      String (byte (N.lor (N.shiftl leftchar 6) n)) <$> a2b_loop r 0%N 0%N 0%N.
Proof.
  intros H. apply reads_back_spec in H as (Hi & Hp & _).
  cbn [a2b_loop]. rewrite Hp, Hi. reflexivity.
Qed.

Lemma first_byte_eq a b :
  byte (N.lor (N.shiftl (sextet0 a) 2) (N.shiftr (sextet1 a b) 4)) = a
  /\ N.land (sextet1 a b) 15 = N.shiftr (N_of_ascii b) 4.
Proof.
  pose proof (first_byte a b) as H. unfold first_byte_back in H.
  apply andb_true_iff in H as [H1 H2].
  apply Ascii.eqb_eq in H1. apply N.eqb_eq in H2. auto.
Qed.

Lemma second_byte_eq b c :
  byte (N.lor (N.shiftl (N.shiftr (N_of_ascii b) 4) 4) (N.shiftr (sextet2 b c) 2)) = b
  /\ N.land (sextet2 b c) 3 = N.shiftr (N_of_ascii c) 6.
Proof.
  pose proof (second_byte b c) as H. unfold second_byte_back in H.
  apply andb_true_iff in H as [H1 H2].
  apply Ascii.eqb_eq in H1. apply N.eqb_eq in H2. auto.
Qed.

Lemma third_byte_eq c :
  byte (N.lor (N.shiftl (N.shiftr (N_of_ascii c) 6) 6) (sextet3 c)) = c.
Proof.
  pose proof (third_byte c) as H. unfold third_byte_back in H.
  apply Ascii.eqb_eq in H. exact H.
Qed.

(** [a2b_base64(b2a_base64(s)) == s] *)
Lemma a2b_b2a s : a2b_loop (b2a_base64 s) 0%N 0%N 0%N = Some s.
Proof.
  induction s as [|a|a b|a b c r IH] using string_ind3.
  - reflexivity.
  - cbn [b2a_base64].
    rewrite a2b_data by apply sextet0_reads_back. cbn [N.eqb].
    rewrite a2b_data by apply sextet1_reads_back. cbn [N.eqb Pos.eqb].
    destruct (first_byte_eq a NUL) as [-> _]. reflexivity.
  - cbn [b2a_base64].
    rewrite a2b_data by apply sextet0_reads_back. cbn [N.eqb].
    rewrite a2b_data by apply sextet1_reads_back. cbn [N.eqb Pos.eqb].
    destruct (first_byte_eq a b) as [-> ->].
    rewrite a2b_data by apply sextet2_reads_back. cbn [N.eqb Pos.eqb].
    destruct (second_byte_eq b NUL) as [-> _]. reflexivity.
  - cbn [b2a_base64].
    rewrite a2b_data by apply sextet0_reads_back. cbn [N.eqb].
    rewrite a2b_data by apply sextet1_reads_back. cbn [N.eqb Pos.eqb].
    destruct (first_byte_eq a b) as [-> ->].
    rewrite a2b_data by apply sextet2_reads_back. cbn [N.eqb Pos.eqb].
    destruct (second_byte_eq b c) as [-> ->].
    rewrite a2b_data by apply sextet3_reads_back. cbn [N.eqb Pos.eqb].
    rewrite third_byte_eq, IH. reflexivity.
Qed.

Lemma b2a_ascii s : Py.all_chars is_ascii (b2a_base64 s) = true.
Proof.
  induction s as [|a|a b|a b c r IH] using string_ind3; cbn [b2a_base64];
    rewrite ?all_chars_cons.
  - reflexivity.
  - destruct (reads_back_spec _ (sextet0_reads_back a)) as (_ & _ & ->).
    destruct (reads_back_spec _ (sextet1_reads_back a NUL)) as (_ & _ & ->).
    reflexivity.
  - destruct (reads_back_spec _ (sextet0_reads_back a)) as (_ & _ & ->).
    destruct (reads_back_spec _ (sextet1_reads_back a b)) as (_ & _ & ->).
    destruct (reads_back_spec _ (sextet2_reads_back b NUL)) as (_ & _ & ->).
    reflexivity.
  - destruct (reads_back_spec _ (sextet0_reads_back a)) as (_ & _ & ->).
    destruct (reads_back_spec _ (sextet1_reads_back a b)) as (_ & _ & ->).
    destruct (reads_back_spec _ (sextet2_reads_back b c)) as (_ & _ & ->).
    destruct (reads_back_spec _ (sextet3_reads_back c)) as (_ & _ & ->).
    rewrite IH. reflexivity.
Qed.

(** [b64decode(b64encode(s)) == s], for all bytes [s]. *)
Lemma b64decode_b64encode s : b64decode (b64encode s) = Some s.
Proof.
  unfold b64decode, b64encode. rewrite b2a_ascii. apply a2b_b2a.
Qed.

(** An encoding is never empty unless the bytes are. *)
Lemma b64encode_empty s : b64encode s = EmptyString -> s = EmptyString.
Proof.
  destruct s as [|a [|b [|c r]]]; [reflexivity | discriminate..].
Qed.

End Base64Facts.

Section JsonFacts.
Import Json Aux.

Lemma append_cons (x : ascii) (a b : string) : String x a +:+ b = String x (a +:+ b).
Proof. reflexivity. Qed.

Lemma append_nil_l (b : string) : EmptyString +:+ b = b.
Proof. reflexivity. Qed.

Lemma append_assoc (a b c : string) : (a +:+ b) +:+ c = a +:+ (b +:+ c).
Proof.
  induction a as [|x a IH]; [reflexivity|]. rewrite !append_cons, IH. reflexivity.
Qed.

Lemma append_nil_r (a : string) : a +:+ EmptyString = a.
Proof.
  induction a as [|x a IH]; [reflexivity|]. rewrite append_cons, IH. reflexivity.
Qed.

Lemma length_append (a b : string) :
  String.length (a +:+ b) = (String.length a + String.length b)%nat.
Proof.
  induction a as [|x a IH]; [reflexivity|]. rewrite append_cons. simpl.
  rewrite IH. reflexivity.
Qed.

(** *** What [dumps] writes is ASCII, hence valid UTF-8 *)

Lemma escape_char_ascii c : Py.all_chars Base64.is_ascii (escape_char c) = true.
Proof. revert c. apply ascii_forall_spec. vm_compute. reflexivity. Qed.

Lemma escape_ascii s : Py.all_chars Base64.is_ascii (escape s) = true.
Proof.
  induction s as [|c s IH]; [reflexivity|].
  cbn [escape]. rewrite all_chars_app, escape_char_ascii, IH. reflexivity.
Qed.

Lemma encode_string_ascii s : Py.all_chars Base64.is_ascii (encode_string s) = true.
Proof.
  unfold encode_string. rewrite all_chars_cons, all_chars_app, escape_ascii. reflexivity.
Qed.

Lemma join_ascii l :
  Forall (fun s => Py.all_chars Base64.is_ascii s = true) l ->
  Py.all_chars Base64.is_ascii (Py.join ", " l) = true.
Proof.
  induction 1 as [|x r Hx Hr IH]; [reflexivity|].
  destruct r as [|y r]; [exact Hx|].
  change (Py.join ", " (x :: y :: r)) with (x +:+ ", " +:+ Py.join ", " (y :: r)).
  rewrite !all_chars_app, Hx, IH. reflexivity.
Qed.

Lemma dumps_ascii d : Py.all_chars Base64.is_ascii (dumps d) = true.
Proof.
  unfold dumps. rewrite !all_chars_app, join_ascii; [reflexivity|].
  apply List.Forall_forall. intros s Hs. apply in_map_iff in Hs as ([k v] & <- & _).
  unfold dumps_member. simpl.
  rewrite !all_chars_app, !encode_string_ascii. reflexivity.
Qed.

Lemma utf8_valid_ascii s : Py.all_chars Base64.is_ascii s = true -> Utf8.valid s = true.
Proof.
  induction s as [|c s IH]; [reflexivity|].
  rewrite all_chars_cons. intros H. apply andb_true_iff in H as [Hc Hs].
  cbn [Utf8.valid].
  replace (Utf8.in_range 0 127 c) with true; [apply IH; exact Hs|].
  unfold Utf8.in_range, Base64.is_ascii in *. apply N.ltb_lt in Hc.
  symmetry. apply andb_true_iff. split; apply N.leb_le; lia.
Qed.

(** *** Strings are read back *)

Lemma scanstring_escape_char c tail :
  Base64.is_ascii c = true ->
  scanstring (escape_char c +:+ tail) = prepend (String c EmptyString) (scanstring tail).
Proof.
  intros Hc.
  destruct c as [[] [] [] [] [] [] [] []]; try discriminate Hc; reflexivity.
Qed.

Lemma scanstring_escape s rest :
  Py.all_chars Base64.is_ascii s = true ->
  scanstring (escape s +:+ String DQUOTE rest) = Some (s, rest).
Proof.
  induction s as [|c s IH]; [reflexivity|].
  rewrite all_chars_cons. intros H. apply andb_true_iff in H as [Hc Hs].
  cbn [escape]. rewrite append_assoc, scanstring_escape_char, (IH Hs) by exact Hc.
  reflexivity.
Qed.

Lemma scan_once_string fuel s rest :
  Py.all_chars Base64.is_ascii s = true ->
  scan_once (S fuel) (String DQUOTE (escape s +:+ String DQUOTE rest))
  = Some (JStr s, rest).
Proof.
  intros Hs.
  change (scan_once (S fuel) (String DQUOTE (escape s +:+ String DQUOTE rest)))
    with (match scanstring (escape s +:+ String DQUOTE rest) with
          | Some (str, rest) => Some (JStr str, rest)
          | None => None
          end).
  rewrite scanstring_escape by exact Hs. reflexivity.
Qed.

(** *** Objects are read back *)

Lemma member_text k v tail :
  dumps_member (k, v) +:+ tail
  = String DQUOTE (escape k +:+ String DQUOTE (String ":" (String " "
      (String DQUOTE (escape v +:+ String DQUOTE tail))))).
Proof.
  unfold dumps_member, encode_string. simpl fst. simpl snd.
  rewrite !append_assoc, !append_cons, !append_assoc, !append_cons, !append_nil_l.
  reflexivity.
Qed.

Lemma object_members_step fuel k v tail acc :
  Py.all_chars Base64.is_ascii k = true ->
  Py.all_chars Base64.is_ascii v = true ->
  object_members (S (S fuel)) (dumps_member (k, v) +:+ tail) acc
  = match skip_ws tail with
    | EmptyString => None
    | String c r4 =>
        if Ascii.eqb c "}" then Some (put_str acc (k, v), r4)
        else if Ascii.eqb c ","
             then object_members (S fuel) (skip_ws r4) (put_str acc (k, v))
        else None
    end.
Proof.
  intros Hk Hv. rewrite member_text.
  set (after_key := String ":" (String " " (String DQUOTE (escape v +:+ String DQUOTE tail)))).
  change (object_members (S (S fuel)) (String DQUOTE (escape k +:+ String DQUOTE after_key)) acc)
    with (match scanstring (escape k +:+ String DQUOTE after_key) with
          | None => None
          | Some (key, r1) =>
              match skip_ws r1 with
              | EmptyString => None
              | String colon r2 =>
                  if negb (Ascii.eqb colon ":") then None
                  else
                    match scan_once (S fuel) (skip_ws r2) with
                    | None => None
                    | Some (val, r3) =>
                        let acc' := dict_set acc key val in
                        match skip_ws r3 with
                        | EmptyString => None
                        | String c r4 =>
                            if Ascii.eqb c "}" then Some (acc', r4)
                            else if Ascii.eqb c ","
                            then object_members (S fuel) (skip_ws r4) acc'
                            else None
                        end
                    end
              end
          end).
  rewrite scanstring_escape by exact Hk. subst after_key.
  change (skip_ws (String ":" (String " " (String DQUOTE (escape v +:+ String DQUOTE tail)))))
    with (String ":" (String " " (String DQUOTE (escape v +:+ String DQUOTE tail)))).
  cbv iota beta.
  change (negb (Ascii.eqb ":" ":")) with false. cbv iota.
  change (skip_ws (String " " (String DQUOTE (escape v +:+ String DQUOTE tail))))
    with (String DQUOTE (escape v +:+ String DQUOTE tail)).
  rewrite scan_once_string by exact Hv. reflexivity.
Qed.

Lemma members_text_join d : Py.join ", " (map dumps_member d) = members_text d.
Proof.
  induction d as [|kv [|kv2 r] IH]; [reflexivity..|].
  change (Py.join ", " (map dumps_member (kv :: kv2 :: r)))
    with (dumps_member kv +:+ ", " +:+ Py.join ", " (map dumps_member (kv2 :: r))).
  rewrite IH. reflexivity.
Qed.

Lemma ascii_cursor_cons kv d :
  ascii_cursor (kv :: d) = true ->
  Py.all_chars Base64.is_ascii kv.1 = true
  /\ Py.all_chars Base64.is_ascii kv.2 = true
  /\ ascii_cursor d = true.
Proof.
  unfold ascii_cursor. simpl. intros H.
  apply andb_true_iff in H as [H Hd]. apply andb_true_iff in H as [Hk Hv]. auto.
Qed.

Lemma object_members_text d fuel acc rest :
  d <> [] -> ascii_cursor d = true -> (length d < fuel)%nat ->
  object_members fuel (members_text d +:+ String "}" rest) acc
  = Some (fold_left put_str d acc, rest).
Proof.
  revert fuel acc. induction d as [|[k v] d IH]; intros fuel acc Hne Ha Hf; [congruence|].
  apply ascii_cursor_cons in Ha as (Hk & Hv & Hd). simpl in Hk, Hv.
  destruct fuel as [|[|fuel]]; [simpl in Hf; lia..|].
  destruct d as [|kv2 d].
  - cbn [members_text]. rewrite object_members_step by assumption.
    change (skip_ws (String "}" rest)) with (String "}" rest). cbv iota.
    change (Ascii.eqb "}" "}") with true. reflexivity.
  - change (members_text ((k, v) :: kv2 :: d))
      with (dumps_member (k, v) +:+ ", " +:+ members_text (kv2 :: d)).
    rewrite !append_assoc. rewrite object_members_step by assumption.
    rewrite !append_cons, append_nil_l.
    change (skip_ws (String "," (String " " (members_text (kv2 :: d) +:+ String "}" rest))))
      with (String "," (String " " (members_text (kv2 :: d) +:+ String "}" rest))).
    cbv iota. change (Ascii.eqb "," "}") with false.
    change (Ascii.eqb "," ",") with true. cbv iota.
    assert (Hsk : skip_ws (String " " (members_text (kv2 :: d) +:+ String "}" rest))
                  = members_text (kv2 :: d) +:+ String "}" rest).
    { destruct kv2 as [k2 v2]. destruct d; cbn [members_text];
        rewrite ?append_assoc, member_text; reflexivity. }
    rewrite Hsk. rewrite IH; [reflexivity | discriminate | exact Hd | simpl in *; lia].
Qed.

Lemma scan_once_object fuel r :
  scan_once (S fuel) (String "{" r)
  = match skip_ws r with
    | String c' r' =>
        if Ascii.eqb c' "}" then Some (JObj [], r')
        else match object_members fuel (skip_ws r) [] with
             | Some (d, rest) => Some (JObj d, rest)
             | None => None
             end
    | EmptyString => None
    end.
Proof. reflexivity. Qed.

Lemma dict_set_fresh {A} (acc : list (string * A)) k v :
  ~ In k (map fst acc) -> dict_set acc k v = acc ++ [(k, v)].
Proof.
  induction acc as [|[k' v'] acc IH]; [reflexivity|].
  simpl. intros Hn. destruct (String.eqb_spec k' k) as [->|_]; [tauto|].
  rewrite IH by tauto. reflexivity.
Qed.

(** Without a key twice, the dictionary built member by member has the
    members in their order. *)
Lemma fold_put_str d acc :
  NoDup (map fst acc ++ map fst d) ->
  fold_left put_str d acc = acc ++ map (fun kv => (kv.1, JStr kv.2)) d.
Proof.
  revert acc. induction d as [|[k v] d IH]; intros acc Hnd.
  - simpl. rewrite List.app_nil_r. reflexivity.
  - simpl. unfold put_str at 2. simpl.
    assert (Hk : ~ In k (map fst acc)).
    { intros Hin. apply NoDup_app in Hnd as (_ & Hd & _).
      apply (Hd k); [apply list_elem_of_In; exact Hin | simpl; left]. }
    rewrite dict_set_fresh by exact Hk.
    rewrite IH.
    + rewrite <- List.app_assoc. reflexivity.
    + rewrite map_app. simpl. rewrite <- List.app_assoc. exact Hnd.
Qed.

Lemma members_text_length d : (length d <= String.length (members_text d))%nat.
Proof.
  induction d as [|[k v] [|kv2 d] IH]; [simpl; lia | |].
  - unfold members_text, dumps_member, encode_string. simpl. lia.
  - change (members_text ((k, v) :: kv2 :: d))
      with (dumps_member (k, v) +:+ ", " +:+ members_text (kv2 :: d)).
    rewrite !length_append. simpl in *. lia.
Qed.

Lemma members_text_head kv d rest :
  exists r, members_text (kv :: d) +:+ rest = String DQUOTE r.
Proof.
  destruct kv as [k v]. destruct d; cbn [members_text];
    rewrite ?append_assoc, member_text; eauto.
Qed.

(** [json.loads(json.dumps(d)) == d] for a valid cursor. *)
Lemma loads_dumps d : valid_cursor d -> loads (dumps d) = Some (of_cursor d).
Proof.
  intros [Hnd Ha]. unfold loads, loads_with, dumps. rewrite members_text_join.
  destruct d as [|kv d]; [reflexivity|].
  rewrite append_cons, append_nil_l.
  change (skip_ws (String "{" (members_text (kv :: d) +:+ "}")))
    with (String "{" (members_text (kv :: d) +:+ "}")).
  replace (2 * String.length (String "{" (members_text (kv :: d) +:+ "}")) + 2)%nat
    with (S (2 * String.length (String "{" (members_text (kv :: d) +:+ "}")) + 1))
    by lia.
  rewrite scan_once_object.
  destruct (members_text_head kv d "}") as [r Hr]. rewrite Hr.
  change (skip_ws (String DQUOTE r)) with (String DQUOTE r). cbv iota.
  change (Ascii.eqb DQUOTE "}") with false. cbv iota. rewrite <- Hr.
  rewrite object_members_text; [| discriminate | exact Ha |].
  - rewrite fold_put_str by exact Hnd. reflexivity.
  - pose proof (members_text_length (kv :: d)) as Hl.
    simpl String.length. rewrite length_append. simpl in *. lia.
Qed.

End JsonFacts.

(** *** The fuel of the scanner is enough *)

Section JsonFuel.
Import Json.

Local Abbreviation len := String.length.

Lemma skip_ws_length s : (len (skip_ws s) <= len s)%nat.
Proof.
  induction s as [|c s IH]; simpl; [lia|]. destruct (is_ws c); simpl; lia.
Qed.

Lemma take_digits_length s ds r : take_digits s = (ds, r) -> (len r <= len s)%nat.
Proof.
  revert ds r. induction s as [|c s IH]; simpl; intros ds r E.
  - injection E as <- <-. simpl. lia.
  - destruct (Py.is_digit c).
    + destruct (take_digits s) as [ds' r'] eqn:E'. injection E as <- <-.
      specialize (IH _ _ eq_refl). lia.
    + injection E as <- <-. simpl. lia.
Qed.

Lemma match_sign_length s sign r : match_sign s = (sign, r) -> (len r <= len s)%nat.
Proof.
  destruct s as [|c s]; simpl; intros E.
  - injection E as <- <-. simpl. lia.
  - destruct (Ascii.eqb c "-"); injection E as <- <-; simpl; lia.
Qed.

Lemma match_int_length s ip r : match_int s = Some (ip, r) -> (len r < len s)%nat.
Proof.
  destruct s as [|c s]; simpl; [discriminate|].
  destruct (Ascii.eqb c "0"); [intros E; injection E as <- <-; lia|].
  destruct (Py.is_digit c); [|discriminate].
  destruct (take_digits s) as [ds r'] eqn:E'. intros E. injection E as <- <-.
  apply take_digits_length in E'. lia.
Qed.

Lemma match_frac_length s frac r : match_frac s = (frac, r) -> (len r <= len s)%nat.
Proof.
  destruct s as [|dot [|d s]]; simpl; intros E; try (injection E as <- <-; simpl; lia).
  destruct (Ascii.eqb dot "." && Py.is_digit d).
  - destruct (take_digits s) as [ds r'] eqn:E'. injection E as <- <-.
    apply take_digits_length in E'. lia.
  - injection E as <- <-. simpl. lia.
Qed.

Lemma match_exp_length s expo r : match_exp s = (expo, r) -> (len r <= len s)%nat.
Proof.
  destruct s as [|e s]; simpl; intros E; [injection E as <- <-; simpl; lia|].
  destruct (Ascii.eqb e "e" || Ascii.eqb e "E"); [|injection E as <- <-; simpl; lia].
  destruct s as [|g t].
  - simpl in E. injection E as <- <-. simpl. lia.
  - destruct (Ascii.eqb g "-" || Ascii.eqb g "+").
    + destruct (take_digits t) as [ds r'] eqn:E'. apply take_digits_length in E'.
      destruct (Py.truthy ds); injection E as <- <-; simpl; lia.
    + destruct (take_digits (String g t)) as [ds r'] eqn:E'.
      apply take_digits_length in E'.
      destruct (Py.truthy ds); injection E as <- <-; simpl in *; lia.
Qed.

Lemma match_number_length s lexeme r :
  match_number s = Some (lexeme, r) -> (len r < len s)%nat.
Proof.
  unfold match_number.
  destruct (match_sign s) as [sign s1] eqn:E1.
  destruct (match_int s1) as [[ip r1]|] eqn:E2; [|discriminate].
  destruct (match_frac r1) as [frac r2] eqn:E3.
  destruct (match_exp r2) as [expo r3] eqn:E4.
  intros E. injection E as _ <-.
  apply match_sign_length in E1. apply match_int_length in E2.
  apply match_frac_length in E3. apply match_exp_length in E4. lia.
Qed.

Lemma drop_prefix_length p s r : drop_prefix p s = Some r -> (len r <= len s)%nat.
Proof.
  revert s. induction p as [|a p IH]; intros s; simpl.
  - intros E. injection E as <-. lia.
  - destruct s as [|b s]; [discriminate|].
    destruct (Ascii.eqb a b); [|discriminate]. intros E. apply IH in E. simpl. lia.
Qed.

Lemma scan_literal_length c r v rest :
  scan_literal c r = Some (v, rest) -> (len rest < len (String c r))%nat.
Proof.
  unfold scan_literal.
  repeat match goal with
         | |- context [if Ascii.eqb c ?c0 then _ else _] =>
             destruct (Ascii.eqb c c0)
         | |- context [drop_prefix ?t r] =>
             let E := fresh "E" in
             destruct (drop_prefix t r) eqn:E;
             [apply drop_prefix_length in E;
              intros H; injection H as _ <-; simpl; lia|]
         end;
    destruct (match_number (String c r)) as [[lexeme rest']|] eqn:Em; try discriminate;
    intros H; injection H as _ <-; apply match_number_length in Em; exact Em.
Qed.

Lemma prepend_some p x str rest :
  prepend p x = Some (str, rest) -> exists str', x = Some (str', rest).
Proof.
  destruct x as [[str' rest']|]; simpl; [|discriminate].
  intros E. injection E as _ <-. eauto.
Qed.

Lemma scanstring_length_aux n :
  forall s str rest,
    (len s <= n)%nat -> scanstring s = Some (str, rest) -> (len rest < len s)%nat.
Proof.
  induction n as [|n IH]; intros s str rest Hn E.
  - destruct s; [discriminate | simpl in Hn; lia].
  - destruct s as [|c r]; [discriminate|]. simpl in Hn.
    assert (Hrec : forall t str', (len t <= n)%nat ->
                     prepend str' (scanstring t) = Some (str, rest) ->
                     (len rest < len t)%nat).
    { intros t str' Ht Hp. apply prepend_some in Hp as [x Hx]. eapply IH; eauto. }
    cbn [scanstring] in E.
    destruct (Ascii.eqb c DQUOTE); [injection E as _ <-; simpl; lia|].
    destruct (Ascii.eqb c BACKSLASH).
    + destruct r as [|e r1]; [discriminate|].
      destruct (Ascii.eqb e "u").
      * destruct r1 as [|h1 [|h2 [|h3 [|h4 r2]]]]; try discriminate.
        destruct (hex4 h1 h2 h3 h4) as [cu|]; [|discriminate].
        destruct (is_high_surrogate cu).
        -- destruct r2 as [|b1 [|b2 [|g1 [|g2 [|g3 [|g4 r3]]]]]];
             try (apply Hrec in E; simpl in *; lia).
           destruct (Ascii.eqb b1 BACKSLASH && Ascii.eqb b2 "u");
             [|apply Hrec in E; simpl in *; lia].
           destruct (hex4 g1 g2 g3 g4) as [cu2|]; [|discriminate].
           destruct (is_low_surrogate cu2); apply Hrec in E; simpl in *; lia.
        -- apply Hrec in E; simpl in *; lia.
      * destruct (simple_escape e); [|discriminate].
        apply Hrec in E; simpl in *; lia.
    + destruct (N_of_ascii c <=? 31)%N; [discriminate|].
      apply Hrec in E; simpl in *; lia.
Qed.

Lemma scanstring_length s str rest :
  scanstring s = Some (str, rest) -> (len rest < len s)%nat.
Proof. apply (scanstring_length_aux (len s)). lia. Qed.

Lemma scan_once_S f c r :
  scan_once (S f) (String c r)
  = if Ascii.eqb c DQUOTE then
      match scanstring r with
      | Some (str, rest) => Some (JStr str, rest)
      | None => None
      end
    else if Ascii.eqb c "{" then
      match skip_ws r with
      | String c' r' =>
          if Ascii.eqb c' "}" then Some (JObj [], r')
          else match object_members f (skip_ws r) [] with
               | Some (d, rest) => Some (JObj d, rest)
               | None => None
               end
      | EmptyString => None
      end
    else if Ascii.eqb c "[" then
      match skip_ws r with
      | String c' r' =>
          if Ascii.eqb c' "]" then Some (JArr [], r')
          else match array_items f (skip_ws r) with
               | Some (l, rest) => Some (JArr l, rest)
               | None => None
               end
      | EmptyString => None
      end
    else scan_literal c r.
Proof. reflexivity. Qed.

Lemma array_items_S f s :
  array_items (S f) s
  = match scan_once f s with
    | None => None
    | Some (v, r) =>
        match skip_ws r with
        | EmptyString => None
        | String c r' =>
            if Ascii.eqb c "]" then Some ([v], r')
            else if Ascii.eqb c "," then
              match array_items f (skip_ws r') with
              | Some (l, rest) => Some (v :: l, rest)
              | None => None
              end
            else None
        end
    end.
Proof. reflexivity. Qed.

Lemma object_members_S f q r acc :
  object_members (S f) (String q r) acc
  = if negb (Ascii.eqb q DQUOTE) then None
    else
      match scanstring r with
      | None => None
      | Some (key, r1) =>
          match skip_ws r1 with
          | EmptyString => None
          | String colon r2 =>
              if negb (Ascii.eqb colon ":") then None
              else
                match scan_once f (skip_ws r2) with
                | None => None
                | Some (val, r3) =>
                    match skip_ws r3 with
                    | EmptyString => None
                    | String c r4 =>
                        if Ascii.eqb c "}" then Some (dict_set acc key val, r4)
                        else if Ascii.eqb c ","
                        then object_members f (skip_ws r4) (dict_set acc key val)
                        else None
                    end
                end
          end
      end.
Proof. reflexivity. Qed.

(** Each of the three scanners consumes input. *)
Lemma scanner_length f :
  (forall s v r, scan_once f s = Some (v, r) -> (len r < len s)%nat)
  /\ (forall s l r, array_items f s = Some (l, r) -> (len r < len s)%nat)
  /\ (forall s acc d r, object_members f s acc = Some (d, r) -> (len r < len s)%nat).
Proof.
  induction f as [|f (IHs & IHa & IHo)]; [repeat split; discriminate|].
  split; [|split].
  - intros [|c r] v rest; [discriminate|]. rewrite scan_once_S.
    destruct (Ascii.eqb c DQUOTE).
    { destruct (scanstring r) as [[str rest']|] eqn:E; [|discriminate].
      intros H. injection H as _ <-. apply scanstring_length in E. simpl. lia. }
    destruct (Ascii.eqb c "{").
    { pose proof (skip_ws_length r) as Hw.
      destruct (skip_ws r) as [|c' r'] eqn:Ew; [discriminate|].
      destruct (Ascii.eqb c' "}").
      - intros H. injection H as _ <-. simpl in *. lia.
      - destruct (object_members f (String c' r') []) as [[d rest']|] eqn:E; [|discriminate].
        intros H. injection H as _ <-. apply IHo in E. simpl in *. lia. }
    destruct (Ascii.eqb c "[").
    { pose proof (skip_ws_length r) as Hw.
      destruct (skip_ws r) as [|c' r'] eqn:Ew; [discriminate|].
      destruct (Ascii.eqb c' "]").
      - intros H. injection H as _ <-. simpl in *. lia.
      - destruct (array_items f (String c' r')) as [[l rest']|] eqn:E; [|discriminate].
        intros H. injection H as _ <-. apply IHa in E. simpl in *. lia. }
    apply scan_literal_length.
  - intros s l rest. rewrite array_items_S.
    destruct (scan_once f s) as [[v r]|] eqn:E; [|discriminate]. apply IHs in E.
    pose proof (skip_ws_length r) as Hw.
    destruct (skip_ws r) as [|c r'] eqn:Ew; [discriminate|].
    destruct (Ascii.eqb c "]"); [intros H; injection H as _ <-; simpl in *; lia|].
    destruct (Ascii.eqb c ","); [|discriminate].
    destruct (array_items f (skip_ws r')) as [[l' rest']|] eqn:E'; [|discriminate].
    intros H. injection H as _ <-. apply IHa in E'.
    pose proof (skip_ws_length r'). simpl in *. lia.
  - intros [|q r] acc d rest; [discriminate|]. rewrite object_members_S.
    destruct (negb (Ascii.eqb q DQUOTE)); [discriminate|].
    destruct (scanstring r) as [[key r1]|] eqn:E1; [|discriminate].
    apply scanstring_length in E1.
    pose proof (skip_ws_length r1) as Hw1.
    destruct (skip_ws r1) as [|colon r2] eqn:Ew1; [discriminate|].
    destruct (negb (Ascii.eqb colon ":")); [discriminate|].
    destruct (scan_once f (skip_ws r2)) as [[val r3]|] eqn:E2; [|discriminate].
    apply IHs in E2. pose proof (skip_ws_length r2) as Hw2.
    pose proof (skip_ws_length r3) as Hw3.
    destruct (skip_ws r3) as [|c r4] eqn:Ew3; [discriminate|].
    destruct (Ascii.eqb c "}"); [intros H; injection H as _ <-; simpl in *; lia|].
    destruct (Ascii.eqb c ","); [|discriminate].
    intros H. apply IHo in H. pose proof (skip_ws_length r4). simpl in *. lia.
Qed.

(** With enough fuel for the length of the input, more fuel changes
    nothing. *)
Lemma scanner_fuel n :
  forall s, (len s <= n)%nat ->
    (forall f1 f2, (2 * len s + 1 <= f1)%nat -> (2 * len s + 1 <= f2)%nat ->
                   scan_once f1 s = scan_once f2 s)
    /\ (forall f1 f2, (2 * len s + 2 <= f1)%nat -> (2 * len s + 2 <= f2)%nat ->
                      array_items f1 s = array_items f2 s)
    /\ (forall f1 f2 acc, (2 * len s + 2 <= f1)%nat -> (2 * len s + 2 <= f2)%nat ->
                          object_members f1 s acc = object_members f2 s acc).
Proof.
  induction n as [|n IH]; intros s Hn.
  - destruct s; [|simpl in Hn; lia].
    repeat split; intros; (destruct f1; [simpl in *; lia|]);
      (destruct f2; [simpl in *; lia|]); try reflexivity.
    rewrite !array_items_S. destruct f1, f2; reflexivity.
  - assert (Hscan : forall f1 f2, (2 * len s + 1 <= f1)%nat -> (2 * len s + 1 <= f2)%nat ->
                                  scan_once f1 s = scan_once f2 s).
    { intros [|g1] [|g2] H1 H2; try lia.
      destruct s as [|c r]; [reflexivity|]. simpl in Hn, H1, H2.
      rewrite !scan_once_S.
      pose proof (skip_ws_length r) as Hw.
      destruct (IH (skip_ws r) ltac:(lia)) as (_ & IHa & IHo).
      rewrite (IHa g1 g2) by lia. rewrite (IHo g1 g2 []) by lia. reflexivity. }
    split; [exact Hscan|]. split.
    + intros [|g1] [|g2] H1 H2; try lia. rewrite !array_items_S.
      rewrite (Hscan g1 g2) by lia.
      destruct (scan_once g2 s) as [[v r]|] eqn:E; [|reflexivity].
      apply (proj1 (scanner_length g2)) in E.
      pose proof (skip_ws_length r) as Hw.
      destruct (skip_ws r) as [|c r'] eqn:Ew; [reflexivity|].
      pose proof (skip_ws_length r') as Hw'.
      destruct (IH (skip_ws r') ltac:(simpl in *; lia)) as (_ & IHa & _).
      rewrite (IHa g1 g2) by (simpl in *; lia). reflexivity.
    + intros [|g1] [|g2] acc H1 H2; try lia.
      destruct s as [|q r]; [reflexivity|]. simpl in Hn, H1, H2.
      rewrite !object_members_S.
      destruct (negb (Ascii.eqb q DQUOTE)); [reflexivity|].
      destruct (scanstring r) as [[key r1]|] eqn:E1; [|reflexivity].
      apply scanstring_length in E1.
      pose proof (skip_ws_length r1) as Hw1.
      destruct (skip_ws r1) as [|colon r2] eqn:Ew1; [reflexivity|].
      destruct (negb (Ascii.eqb colon ":")); [reflexivity|].
      pose proof (skip_ws_length r2) as Hw2.
      destruct (IH (skip_ws r2) ltac:(simpl in *; lia)) as (IHs & _ & _).
      rewrite (IHs g1 g2) by (simpl in *; lia).
      destruct (scan_once g2 (skip_ws r2)) as [[val r3]|] eqn:E2; [|reflexivity].
      apply (proj1 (scanner_length g2)) in E2.
      pose proof (skip_ws_length r3) as Hw3.
      destruct (skip_ws r3) as [|c r4] eqn:Ew3; [reflexivity|].
      pose proof (skip_ws_length r4) as Hw4.
      destruct (IH (skip_ws r4) ltac:(simpl in *; lia)) as (_ & _ & IHo).
      rewrite (IHo g1 g2) by (simpl in *; lia). reflexivity.
Qed.

(** [loads] does not depend on its fuel: with as much or more, the
    result is the same, failure included. *)
Lemma loads_fuel s fuel :
  (2 * len s + 2 <= fuel)%nat -> loads_with fuel s = loads s.
Proof.
  intros Hf. unfold loads, loads_with.
  pose proof (skip_ws_length s) as Hw.
  destruct (scanner_fuel (len (skip_ws s)) (skip_ws s) (le_n _)) as (Hs & _ & _).
  rewrite (Hs fuel (2 * len s + 2)%nat) by lia. reflexivity.
Qed.

End JsonFuel.

Section PageTokenFacts.

(** The token of a valid cursor decodes to the cursor. *)
Lemma decode_encode (key : Json.Cursor) :
  Json.valid_cursor key ->
  PageToken.decode (PageToken.encode key) = Some (Json.of_cursor key).
Proof.
  intros Hv. unfold PageToken.decode, PageToken.encode.
  rewrite b64decode_b64encode. unfold Utf8.decode.
  rewrite utf8_valid_ascii by apply dumps_ascii.
  apply loads_dumps. exact Hv.
Qed.

(** No cursor has the empty token. *)
Lemma encode_not_empty (key : Json.Cursor) : PageToken.encode key <> EmptyString.
Proof.
  unfold PageToken.encode. intros E. apply b64encode_empty in E.
  unfold Json.dumps in E. discriminate.
Qed.

End PageTokenFacts.

Section PageTokenClaims.
Import Model Store.

Lemma list_images_bad_token (E : Externals) (limit : Z) (token : string)
    (user_id tags : option string) (w : World) :
  Py.truthy token = true ->
  PageToken.decode token = None ->
  ImageService.list_images limit (Some token) user_id tags w
  = (Failure "Invalid page token", w).
Proof.
  intros Ht Hd. unfold ImageService.list_images, ImageService.decode_page_token.
  destruct token as [|c r]; [discriminate|].
  change (Py.truthy_opt (Some (String c r))) with true. cbv iota.
  change (default EmptyString (Some (String c r))) with (String c r).
  rewrite Hd. reflexivity.
Qed.






End PageTokenClaims.

(** ** The properties at concrete inputs *)

Section Instances.
Import Model Store.

(** An upload into the empty world whose record write fails and whose
    compensating delete fails too. *)
Lemma upload_image_saga_witness :
  let w := mkWorld ∅ [] [false; true; true] [] in
  @ImageService.validated Sample.externals Sample.file_content "sunset.JPG"
    Sample.request 200 200 "jpeg"
  /\ goes_through 0 w = true
  /\ goes_through 1 w = false
  /\ (@ImageService.upload_image Sample.externals Sample.fresh Sample.file_content
        "sunset.JPG" Sample.request w).1
     = Failure "Failed to store image metadata"
  /\ calls (@ImageService.upload_image Sample.externals Sample.fresh Sample.file_content
              "sunset.JPG" Sample.request w).2
     = [PutObject "images/2024/02/img-9.jpeg" true;
        PutItem "img-9" "2024-02-01T08:00:00" false;
        DeleteObject "images/2024/02/img-9.jpeg" false].
Proof.
  intros w.
  assert (Hv : @ImageService.validated Sample.externals Sample.file_content "sunset.JPG"
                 Sample.request 200 200 "jpeg")
    by (unfold ImageService.validated; repeat split; vm_compute; reflexivity).
  assert (H0 : goes_through 0 w = true) by reflexivity.
  assert (H1 : goes_through 1 w = false) by reflexivity.
  pose proof (proj1 (@upload_image_saga Sample.externals) Sample.fresh Sample.file_content
                "sunset.JPG" Sample.request 200 200 "jpeg" w Hv H0 H1) as H.
  cbv zeta in H.
  destruct (@ImageService.upload_image Sample.externals Sample.fresh Sample.file_content
              "sunset.JPG" Sample.request w) as [r w'].
  destruct H as (Hr & Hc & _).
  exact (conj Hv (conj H0 (conj H1 (conj Hr Hc)))).
Defined.

Lemma get_image_hides_deletion_witness :
  DynamoDBClient.query_by_id (table Sample.empty_world) "img-2" = None
  /\ DynamoDBClient.query_by_id (table Sample.world) "img-2" = Some Sample.deleted_item
  /\ is_deleted Sample.deleted_item = true
  /\ (@ImageService.get_image Sample.externals "img-2" true Sample.empty_world).1
     = (@ImageService.get_image Sample.externals "img-2" true Sample.world).1.
Proof.
  assert (H1 : DynamoDBClient.query_by_id (table Sample.empty_world) "img-2" = None)
    by reflexivity.
  assert (H2 : DynamoDBClient.query_by_id (table Sample.world) "img-2"
               = Some Sample.deleted_item) by reflexivity.
  assert (H3 : is_deleted Sample.deleted_item = true) by reflexivity.
  destruct (@get_image_hides_deletion Sample.externals Sample.empty_world Sample.world
              "img-2" true true Sample.deleted_item H1 H2 H3) as (Ha & Hb & _).
  refine (conj H1 (conj H2 (conj H3 _))). rewrite Ha, Hb. reflexivity.
Defined.

(** A page of two, [img-1] and the deleted [img-2]: the one image
    returned is [img-1], and more is to come. *)
Lemma list_images_page_witness :
  exists listing w',
    @ImageService.list_images Sample.externals 2 None None None Sample.world
    = (Success listing, w')
    /\ items (@ImageService.query_images Sample.externals 2 Json.JNull None None
                Sample.world).1
       = [Sample.live_item; Sample.deleted_item]
    /\ is_deleted Sample.live_item = false
    /\ is_deleted Sample.deleted_item = true
    /\ map (fun d => dict_get d "image_id") (ImageService.images listing)
       = [Some (PStr "img-1")]
    /\ ImageService.total_count listing = 1
    /\ ImageService.has_more listing = true
    /\ length (List.filter is_fetch (calls w')) = 1%nat.
Proof.
  eexists. eexists. split; [vm_compute; reflexivity|].
  match goal with
  | |- context [ImageService.total_count ?l] => set (listing := l)
  end.
  match goal with
  | |- context [calls ?w] => set (w' := w)
  end.
  assert (He : @ImageService.list_images Sample.externals 2 None None None Sample.world
               = (Success listing, w')) by (vm_compute; reflexivity).
  assert (Hp : items (@ImageService.query_images Sample.externals 2 Json.JNull None None
                        Sample.world).1
               = [Sample.live_item; Sample.deleted_item]) by reflexivity.
  destruct (@list_images_page Sample.externals 2 None None None Sample.world w' listing He)
    as (key & Hk & Hids & _ & _ & _ & Hcount & _ & Hmore & Hfetch & _).
  injection Hk as <-. rewrite Hp in Hids, Hcount.
  split; [exact Hp|].
  split; [reflexivity|]. split; [reflexivity|].
  split; [exact Hids|].
  split; [exact Hcount|].
  split; [apply Hmore; discriminate | exact Hfetch].
Defined.


Lemma delete_image_twice_witness :
  reliable 3 Sample.world
  /\ DynamoDBClient.query_by_id (table Sample.world) "img-1" = Some Sample.live_item
  /\ user_id Sample.live_item = "u1"
  /\ is_deleted Sample.live_item = false
  /\ let '(r1, w1) := ImageService.delete_image "2024-03-01T00:00:00" "img-1" "u1"
                        Sample.world in
     let '(r2, w2) := ImageService.delete_image "2024-03-02T00:00:00" "img-1" "u1" w1 in
     r1 = Success (ImageService.mkDeleted "Image deleted successfully" "img-1")
     /\ r2 = Failure "Image already deleted"
     /\ table w2 = table w1.
Proof.
  assert (Hr : reliable 3 Sample.world) by constructor.
  assert (Hq : DynamoDBClient.query_by_id (table Sample.world) "img-1"
               = Some Sample.live_item) by reflexivity.
  assert (Hu : user_id Sample.live_item = "u1") by reflexivity.
  assert (Hd : is_deleted Sample.live_item = false) by reflexivity.
  pose proof (delete_image_twice Sample.world "2024-03-01T00:00:00" "2024-03-02T00:00:00"
                "img-1" "u1" Sample.live_item Hr Hq Hu Hd) as H.
  split; [exact Hr|]. split; [exact Hq|]. split; [exact Hu|]. split; [exact Hd|].
  revert H.
  destruct (ImageService.delete_image "2024-03-01T00:00:00" "img-1" "u1" Sample.world)
    as [r1 w1].
  destruct (ImageService.delete_image "2024-03-02T00:00:00" "img-1" "u1" w1) as [r2 w2].
  intros (H1 & H2 & H3 & _). exact (conj H1 (conj H2 H3)).
Defined.

Lemma download_link_of_live_record_fails_witness :
  reliable 1 Sample.world
  /\ DynamoDBClient.query_by_id (table Sample.world) "img-1" = Some Sample.live_item
  /\ is_deleted Sample.live_item = false
  /\ (@Main.get_image_download_url Sample.externals "img-1" 3600 Sample.world).1
     = Main.HTTPException 500 "Internal server error".
Proof.
  assert (Hr : reliable 1 Sample.world) by constructor.
  assert (Hq : DynamoDBClient.query_by_id (table Sample.world) "img-1"
               = Some Sample.live_item) by reflexivity.
  assert (Hd : is_deleted Sample.live_item = false) by reflexivity.
  refine (conj Hr (conj Hq (conj Hd _))).
  exact (@download_link_of_live_record_fails Sample.externals Sample.world "img-1" 3600
           Sample.live_item Hr Hq Hd).
Defined.

Lemma list_images_owner_ignores_tags_witness :
  Py.truthy "u1" = true
  /\ @ImageService.list_images Sample.externals 10 None (Some "u1") (Some "b") Sample.world
     = @ImageService.list_images Sample.externals 10 None (Some "u1") None Sample.world.
Proof.
  split; [reflexivity|].
  apply (@list_images_owner_ignores_tags Sample.externals). reflexivity.
Defined.

Lemma empty_tags_do_not_round_trip_witness :
  let image_metadata :=
    create_new Sample.fresh (mkUploadRequest None None None "u1") "a.png" 2048
      "image/png" 100 100 "png" in
  (tags image_metadata = None \/ tags image_metadata = Some [])
  /\ ImageResponse_of
       (ImageService._convert_dynamo_to_api_format (ImageService.to_dynamo image_metadata))
     = None.
Proof.
  intros image_metadata.
  assert (H : tags image_metadata = None \/ tags image_metadata = Some [])
    by (left; reflexivity).
  split; [exact H|].
  exact (proj2 (proj2 (empty_tags_do_not_round_trip image_metadata H))).
Defined.

(** An upload without tags succeeds, and the image cannot be read. *)
Example untagged_upload_is_unreadable :
  let request := mkUploadRequest (Some "Sunset") None None "u1" in
  let '(r, w) := @ImageService.upload_image Sample.externals Sample.fresh
                   Sample.file_content "sunset.jpg" request Sample.empty_world in
  r = Success (ImageService.mkUploaded "img-9" "Image uploaded successfully")
  /\ (@ImageService.get_image Sample.externals "img-9" true w).1
     = Failure "Internal server error".
Proof. vm_compute. split; reflexivity. Qed.

(** The service returns the tags of the specification's scenario. *)
Example tagged_upload_is_readable :
  let request := mkUploadRequest None None (Some ["a"; " b "]) "u1" in
  let '(r, w) := @ImageService.upload_image Sample.externals Sample.fresh
                   Sample.file_content "sunset.jpg" request Sample.empty_world in
  exists image,
    (@ImageService.get_image Sample.externals "img-9" false w).1 = Success image
    /\ dict_get image "tags" = Some (PStrList ["a"; "b"])
    /\ dict_get image "format" = Some (PStr "jpeg").
Proof. vm_compute. eexists. repeat split; reflexivity. Qed.

End Instances.

(** ** The cases of [tests/test_utils/test_validators.py] *)

Section RepositoryTests.
Import Model Store.

Example test_validate_file_extension_valid :
  forallb ImageValidator.validate_file_extension
    ["image.jpg"; "image.jpeg"; "image.png"; "image.gif"; "image.webp"] = true.
Proof. reflexivity. Qed.

Example test_validate_file_extension_invalid :
  existsb ImageValidator.validate_file_extension
    ["image.txt"; "image.pdf"; "image.doc"; "noextension"; EmptyString] = false.
Proof. reflexivity. Qed.

Example test_validate_file_size :
  map ImageValidator.validate_file_size
    [1024; 5 * 1024 * 1024; 10 * 1024 * 1024; 500; 11 * 1024 * 1024]
  = [true; true; true; false; false].
Proof. reflexivity. Qed.

Example test_validate_image_content :
  ImageValidator.validate_image_content
    (ImageValidator.Opens (ImageValidator.mkDecoded 100 100 (Some "JPEG")))
  = ImageValidator.ContentValid 100 100 "jpeg"
  /\ ImageValidator.validate_image_content
       (ImageValidator.Opens (ImageValidator.mkDecoded 30 30 (Some "JPEG")))
     = ImageValidator.ContentInvalid "Image dimensions must be between 50px and 4000px".
Proof. split; reflexivity. Qed.

Example test_validate_title :
  map (fun t => is_valid (MetadataValidator.validate_title t))
    [None; Some EmptyString; Some "Short title"; Some (Sample.repeat_char "A" 200);
     Some (Sample.repeat_char "A" 201)]
  = [true; true; true; true; false].
Proof. vm_compute. reflexivity. Qed.

Example test_validate_description :
  map (fun d => is_valid (MetadataValidator.validate_description d))
    [None; Some "Short description"; Some (Sample.repeat_char "A" 1000);
     Some (Sample.repeat_char "A" 1001)]
  = [true; true; true; false].
Proof. vm_compute. reflexivity. Qed.

Example test_validate_tags :
  map (fun t => is_valid (MetadataValidator.validate_tags t))
    [None; Some []; Some ["tag1"; "tag2"]; Some [Sample.repeat_char "a" 50];
     Some (repeat EmptyString 11); Some [Sample.repeat_char "a" 51];
     Some [EmptyString]; Some ["tag with @special!"]]
  = [true; true; true; true; false; false; false; false].
Proof. vm_compute. reflexivity. Qed.

Example test_validate_user_id :
  map (fun u => is_valid (MetadataValidator.validate_user_id u))
    [Some "user123"; Some "user_123"; Some "user-123"; None; Some EmptyString;
     Some "   "; Some "user@123"; Some "user with spaces"]
  = [true; true; true; false; false; false; false; false].
Proof. vm_compute. reflexivity. Qed.

(** An empty [user_id] is no owner filter: the scan is taken and the
    tag counts. *)
Example empty_owner_is_no_filter :
  (@ImageService.list_images Sample.externals 10 None (Some EmptyString) (Some "b")
     Sample.world).1
  <> (@ImageService.list_images Sample.externals 10 None (Some EmptyString) None
        Sample.world).1.
Proof. vm_compute. discriminate. Qed.

End RepositoryTests.

(* ================================================================== *)
(** * Part III. Further properties of the code *)
(* ================================================================== *)

(** ** The validators, in closed form *)

Section ValidatorForms.

Lemma mem_In x l : Py.mem x l = true <-> In x l.
Proof.
  unfold Py.mem. rewrite existsb_exists. split.
  - intros (y & Hy & E). apply String.eqb_eq in E. subst. exact Hy.
  - intros Hx. exists x. split; [exact Hx | apply String.eqb_refl].
Qed.

(** A string has no dot, or a last dot. *)
Lemma last_dot s :
  Py.has_char "." s = false
  \/ exists pre suf, s = pre +:+ String "." suf /\ Py.has_char "." suf = false.
Proof.
  induction s as [|c s IH]; [left; reflexivity|].
  destruct IH as [Hs | (pre & suf & -> & Hsuf)].
  - rewrite has_char_cons, Hs, orb_false_r.
    destruct (Ascii.eqb_spec "."%char c) as [<-|Hc].
    + right. exists EmptyString, s. split; [reflexivity | exact Hs].
    + left. reflexivity.
  - right. exists (String c pre), suf. split; [reflexivity | exact Hsuf].
Qed.

Lemma lower_truthy s : Py.truthy (Py.lower s) = Py.truthy s.
Proof. destruct s; reflexivity. Qed.

Lemma allowed_extension_has_no_dot ext :
  In ext ImageValidator.ALLOWED_EXTENSIONS -> Py.has_char "." ext = false /\ Py.truthy ext = true.
Proof.
  simpl. intros [<-|[<-|[<-|[<-|[<-|[]]]]]]; split; reflexivity.
Qed.

(** X1.  [validate_file_extension] accepts a name exactly when the
    lowercased name is one of the five extensions or ends with a dot
    followed by one of them. *)
Theorem validate_file_extension_accepts filename :
  ImageValidator.validate_file_extension filename = true
  <-> exists ext,
        In ext ImageValidator.ALLOWED_EXTENSIONS
        /\ (Py.lower filename = ext
            \/ exists pre, Py.lower filename = pre +:+ String "." ext).
Proof.
  unfold ImageValidator.validate_file_extension, ImageValidator.extension_of.
  rewrite <- (lower_truthy filename). set (s := Py.lower filename). split.
  - destruct (Py.truthy s) eqn:Ht; [|discriminate]. cbn [negb]. intros Hm.
    apply mem_In in Hm.
    destruct (last_dot s) as [Hs | (pre & suf & E & Hsuf)].
    + rewrite split_no_sep in Hm by exact Hs. exists s. split; [exact Hm | left; reflexivity].
    + rewrite E, split_app, last_item_app in Hm by apply split_not_nil.
      rewrite split_no_sep in Hm by exact Hsuf.
      exists suf. split; [exact Hm | right; exists pre; exact E].
  - intros (ext & Hin & Hs). destruct (allowed_extension_has_no_dot ext Hin) as [Hd Ht].
    destruct Hs as [-> | [pre ->]].
    + rewrite Ht, split_no_sep by exact Hd. apply mem_In. exact Hin.
    + rewrite truthy_app_cons, split_app, last_item_app by apply split_not_nil.
      rewrite split_no_sep by exact Hd. apply mem_In. exact Hin.
Qed.

(** X2.  [validate_description] accepts a description exactly when it
    is absent or at most 1000 characters long: unlike a title, a
    description made of whitespace passes. *)
Theorem validate_description_accepts description :
  MetadataValidator.validate_description description = Valid
  <-> description = None
      \/ exists d, description = Some d /\ Py.len d <= 1000.
Proof.
  unfold MetadataValidator.validate_description, MetadataValidator.MAX_DESCRIPTION_LENGTH.
  destruct description as [d|]; [|split; auto].
  split.
  - intros Hv. right. exists d. split; [reflexivity|].
    destruct d as [|c r]; [unfold Py.len; simpl; lia|]. cbn [Py.truthy negb] in Hv.
    destruct (Z.gtb_spec (Py.len (String c r)) 1000); [discriminate | lia].
  - intros [E | (d' & E & Hl)]; [discriminate|]. injection E as <-.
    destruct (Py.truthy d); [|reflexivity]. cbn [negb].
    destruct (Z.gtb_spec (Py.len d) 1000); [lia | reflexivity].
Qed.

Lemma check_tag_accepts tag :
  MetadataValidator.check_tag tag = None
  <-> Py.all_chars Py.isspace tag = false
      /\ Py.len tag <= 50
      /\ Py.all_chars MetadataValidator.tag_char tag = true.
Proof.
  unfold MetadataValidator.check_tag, MetadataValidator.MAX_TAG_LENGTH,
    MetadataValidator.tag_re_match.
  rewrite strip_blank_test.
  destruct (Py.all_chars Py.isspace tag) eqn:Hs.
  { split; [discriminate | intros [E _]; discriminate]. }
  assert (Ht : Py.truthy tag = true) by (destruct tag; [discriminate | reflexivity]).
  rewrite Ht. cbn [andb].
  destruct (Z.gtb_spec (Py.len tag) 50).
  { split; [discriminate | intros (_ & Hl & _); lia]. }
  destruct (Py.all_chars MetadataValidator.tag_char tag); cbn [negb].
  - split; [intros _; repeat split; lia | reflexivity].
  - split; [discriminate | intros (_ & _ & E); discriminate].
Qed.

Lemma check_tags_accepts l :
  MetadataValidator.check_tags l = Valid
  <-> Forall (fun tag => MetadataValidator.check_tag tag = None) l.
Proof.
  induction l as [|x r IH]; simpl.
  - split; [constructor | reflexivity].
  - destruct (MetadataValidator.check_tag x) eqn:E.
    + split; [discriminate | intros Hf; inversion Hf; congruence].
    + rewrite IH. split; [intros Hr; constructor; assumption | intros Hf; inversion Hf; assumption].
Qed.

(** The accepted tag lists, on the strings. *)
Lemma validate_tags_accepts_string tags :
  MetadataValidator.validate_tags tags = Valid
  <-> tags = None
      \/ exists l, tags = Some l
           /\ (length l <= 10)%nat
           /\ Forall (fun tag => Py.all_chars Py.isspace tag = false
                                 /\ Py.len tag <= 50
                                 /\ Py.all_chars MetadataValidator.tag_char tag = true) l.
Proof.
  destruct tags as [l|]; [|split; auto].
  assert (Hf : forall l,
             MetadataValidator.check_tags l = Valid
             <-> Forall (fun tag => Py.all_chars Py.isspace tag = false
                                 /\ Py.len tag <= 50
                                 /\ Py.all_chars MetadataValidator.tag_char tag = true) l).
  { intros l'. rewrite check_tags_accepts, !List.Forall_forall.
    split; intros Hl x Hx; apply check_tag_accepts, Hl, Hx. }
  unfold MetadataValidator.validate_tags, MetadataValidator.MAX_TAGS_COUNT.
  destruct l as [|x r].
  - split; [intros _; right; exists []; repeat split; simpl; [lia | constructor] | reflexivity].
  - destruct (Z.gtb_spec (Z.of_nat (length (x :: r))) 10) as [Hg|Hg].
    + split; [discriminate|]. intros [E | (l & E & Hl & _)]; [discriminate|].
      injection E as <-. lia.
    + rewrite Hf. split.
      * intros Hv. right. exists (x :: r). repeat split; [lia | exact Hv].
      * intros [E | (l & E & _ & Hv)]; [discriminate|]. injection E as <-. exact Hv.
Qed.

Lemma text_check_tag_accepts (tag : Text.text) :
  Text.check_tag tag = None
  <-> forallb Text.isspace tag = false
      /\ Text.len tag <= 50
      /\ forallb Text.tag_char tag = true.
Proof.
  unfold Text.check_tag, MetadataValidator.MAX_TAG_LENGTH, Text.tag_re_match.
  rewrite text_strip_blank_test.
  destruct (forallb Text.isspace tag) eqn:Hs.
  { split; [discriminate | intros [E _]; discriminate]. }
  assert (Ht : Text.truthy tag = true) by (destruct tag; [discriminate | reflexivity]).
  rewrite Ht. cbn [andb].
  destruct (Z.gtb_spec (Text.len tag) 50).
  { split; [discriminate | intros (_ & Hl & _); lia]. }
  destruct (forallb Text.tag_char tag); cbn [negb].
  - split; [intros _; repeat split; lia | reflexivity].
  - split; [discriminate | intros (_ & _ & E); discriminate].
Qed.

Lemma text_check_tags_accepts (l : list Text.text) :
  Text.check_tags l = Valid
  <-> Forall (fun tag => Text.check_tag tag = None) l.
Proof.
  induction l as [|x r IH]; simpl.
  - split; [constructor | reflexivity].
  - destruct (Text.check_tag x) eqn:E.
    + split; [discriminate | intros Hf; inversion Hf; congruence].
    + rewrite IH. split; [intros Hr; constructor; assumption | intros Hf; inversion Hf; assumption].
Qed.

(** X3.  For every list of tags, each a [str] of any code points:
    [validate_tags] accepts exactly the absent list and the lists of at
    most ten tags, each with a character that [strip] does not remove,
    at most 50 characters long, and made of the letters a-z and A-Z,
    the digits, the characters of the class [\s], hyphens and
    underscores. *)
Theorem validate_tags_accepts (tags : option (list Text.text)) :
  Text.validate_tags tags = Valid
  <-> tags = None
      \/ exists l, tags = Some l
           /\ (length l <= 10)%nat
           /\ Forall (fun tag => forallb Text.isspace tag = false
                                 /\ Text.len tag <= 50
                                 /\ forallb Text.tag_char tag = true) l.
Proof.
  destruct tags as [l|]; [|split; auto].
  assert (Hf : forall l,
             Text.check_tags l = Valid
             <-> Forall (fun tag => forallb Text.isspace tag = false
                                 /\ Text.len tag <= 50
                                 /\ forallb Text.tag_char tag = true) l).
  { intros l'. rewrite text_check_tags_accepts, !List.Forall_forall.
    split; intros Hl x Hx; apply text_check_tag_accepts, Hl, Hx. }
  unfold Text.validate_tags, MetadataValidator.MAX_TAGS_COUNT.
  destruct l as [|x r].
  - split; [intros _; right; exists []; repeat split; simpl; [lia | constructor] | reflexivity].
  - destruct (Z.gtb_spec (Z.of_nat (length (x :: r))) 10) as [Hg|Hg].
    + split; [discriminate|]. intros [E | (l & E & Hl & _)]; [discriminate|].
      injection E as <-. lia.
    + rewrite Hf. split.
      * intros Hv. right. exists (x :: r). repeat split; [lia | exact Hv].
      * intros [E | (l & E & _ & Hv)]; [discriminate|]. injection E as <-. exact Hv.
Qed.

Lemma user_id_char_not_space c :
  MetadataValidator.user_id_char c = true -> Py.isspace c = false.
Proof.
  assert (Hall : forall c, (negb (MetadataValidator.user_id_char c) || negb (Py.isspace c)) = true).
  { apply ascii_forall_spec. vm_compute. reflexivity. }
  intros Hc. specialize (Hall c). rewrite Hc in Hall. simpl in Hall.
  apply negb_true_iff. exact Hall.
Qed.

Lemma user_id_re_tail_accepts s :
  MetadataValidator.user_id_re_tail s = true
  <-> exists body,
        Py.all_chars MetadataValidator.user_id_char body = true
        /\ (s = body \/ s = body +:+ String "010" EmptyString).
Proof.
  induction s as [|c s IH].
  - split; [intros _; exists EmptyString; split; [reflexivity | left; reflexivity] | reflexivity].
  - simpl. destruct (MetadataValidator.user_id_char c) eqn:Hc.
    + rewrite IH. split.
      * intros (body & Hb & Hs). exists (String c body). rewrite all_chars_cons, Hc, Hb.
        split; [reflexivity|]. destruct Hs as [-> | ->]; [left | right]; reflexivity.
      * intros (body & Hb & Hs). destruct body as [|d body].
        -- destruct Hs as [E | E]; [discriminate|]. injection E as -> ->.
           vm_compute in Hc. discriminate.
        -- rewrite all_chars_cons in Hb. apply andb_true_iff in Hb as [_ Hb].
           exists body. split; [exact Hb|].
           destruct Hs as [E | E]; injection E as _ ->; [left | right]; reflexivity.
    + split.
      * intros Hn. apply andb_true_iff in Hn as [Hn He].
        apply Ascii.eqb_eq in Hn. apply negb_true_iff, truthy_false in He. subst.
        exists EmptyString. split; [reflexivity | right; reflexivity].
      * intros (body & Hb & Hs). destruct body as [|d body].
        -- destruct Hs as [E | E]; [discriminate|]. injection E as -> ->. reflexivity.
        -- rewrite all_chars_cons in Hb. apply andb_true_iff in Hb as [Hd _].
           destruct Hs as [E | E]; injection E as -> _; congruence.
Qed.

(** X4.  [validate_user_id] accepts exactly the identifiers made of
    one or more letters, digits, hyphens and underscores, and the same
    followed by one line feed, which the [$] of the pattern lets
    through. *)
Theorem validate_user_id_accepts user_id :
  MetadataValidator.validate_user_id user_id = Valid
  <-> exists body,
        Py.truthy body = true
        /\ Py.all_chars MetadataValidator.user_id_char body = true
        /\ (user_id = Some body
            \/ user_id = Some (body +:+ String "010" EmptyString)).
Proof.
  destruct user_id as [u|].
  2:{ split; [discriminate | intros (body & _ & _ & [E|E]); discriminate]. }
  unfold MetadataValidator.validate_user_id.
  destruct u as [|c r].
  { split; [discriminate|]. intros (body & Ht & _ & [E|E]); injection E as E.
    - subst. discriminate.
    - destruct body; discriminate. }
  cbn [Py.truthy negb]. rewrite strip_blank_test.
  unfold MetadataValidator.user_id_re_match.
  destruct (MetadataValidator.user_id_char c) eqn:Hc.
  - rewrite all_chars_cons, (user_id_char_not_space c Hc). cbn [andb].
    destruct (MetadataValidator.user_id_re_tail r) eqn:Hr; cbn [negb].
    + split; [|reflexivity]. intros _.
      apply user_id_re_tail_accepts in Hr as (body & Hb & Hs).
      exists (String c body). rewrite all_chars_cons, Hc, Hb.
      split; [reflexivity|]. split; [reflexivity|].
      destruct Hs as [-> | ->]; [left | right]; reflexivity.
    + split; [discriminate|]. intros (body & Ht & Hb & Hs).
      destruct body as [|d body]; [discriminate|].
      rewrite all_chars_cons in Hb. apply andb_true_iff in Hb as [_ Hb].
      assert (MetadataValidator.user_id_re_tail r = true); [|congruence].
      apply user_id_re_tail_accepts. exists body. split; [exact Hb|].
      destruct Hs as [E | E]; injection E as _ ->; [left | right]; reflexivity.
  - cbn [andb negb].
    destruct (Py.all_chars Py.isspace (String c r)).
    + split; [discriminate|]. intros (body & Ht & Hb & Hs).
      destruct body as [|d body]; [discriminate|].
      rewrite all_chars_cons in Hb. apply andb_true_iff in Hb as [Hd _].
      destruct Hs as [E | E]; injection E as -> _; congruence.
    + split; [discriminate|]. intros (body & Ht & Hb & Hs).
      destruct body as [|d body]; [discriminate|].
      rewrite all_chars_cons in Hb. apply andb_true_iff in Hb as [Hd _].
      destruct Hs as [E | E]; injection E as -> _; congruence.
Qed.

End ValidatorForms.

(** ** Tags: what is read back *)

Section TagForms.
Import Model.

Lemma rstrip_idempotent s : Py.rstrip (Py.rstrip s) = Py.rstrip s.
Proof.
  induction s as [|c s IH]; [reflexivity|].
  simpl. destruct (Py.rstrip s) as [|d r] eqn:E.
  - destruct (Py.isspace c) eqn:Hc; [reflexivity|]. simpl. rewrite Hc. reflexivity.
  - change (Py.rstrip (String c (String d r)))
      with (match Py.rstrip (String d r) with
            | EmptyString => if Py.isspace c then EmptyString else String c EmptyString
            | r' => String c r'
            end).
    rewrite IH. reflexivity.
Qed.

Lemma rstrip_head c s d u : Py.rstrip (String c s) = String d u -> d = c.
Proof.
  simpl. destruct (Py.rstrip s).
  - destruct (Py.isspace c); [discriminate|]. intros E. injection E as <- _. reflexivity.
  - intros E. injection E as <- _. reflexivity.
Qed.

Lemma lstrip_fixed s :
  match s with EmptyString => True | String c _ => Py.isspace c = false end ->
  Py.lstrip s = s.
Proof. destruct s as [|c r]; [reflexivity|]. simpl. intros ->. reflexivity. Qed.

(** [s.strip().strip() == s.strip()] *)
Lemma strip_idempotent s : Py.strip (Py.strip s) = Py.strip s.
Proof.
  unfold Py.strip. set (t := Py.lstrip s).
  assert (Hl : Py.lstrip (Py.rstrip t) = Py.rstrip t).
  { apply lstrip_fixed. destruct (Py.rstrip t) as [|d u] eqn:E; [exact I|].
    destruct t as [|c r] eqn:Et; [discriminate|].
    apply rstrip_head in E. subst d. apply (lstrip_head s c r). exact Et. }
  rewrite Hl. apply rstrip_idempotent.
Qed.

Lemma has_char_lstrip c s : Py.has_char c s = false -> Py.has_char c (Py.lstrip s) = false.
Proof.
  induction s as [|d s IH]; [reflexivity|].
  rewrite has_char_cons. intros Hc. apply orb_false_iff in Hc as [Hd Hs].
  simpl. destruct (Py.isspace d); [exact (IH Hs)|].
  rewrite has_char_cons, Hd, Hs. reflexivity.
Qed.

Lemma has_char_rstrip c s : Py.has_char c s = false -> Py.has_char c (Py.rstrip s) = false.
Proof.
  induction s as [|d s IH]; [reflexivity|].
  rewrite has_char_cons. intros Hc. apply orb_false_iff in Hc as [Hd Hs].
  simpl. specialize (IH Hs). destruct (Py.rstrip s) as [|e r].
  - destruct (Py.isspace d); [reflexivity|]. rewrite has_char_cons, Hd. reflexivity.
  - rewrite has_char_cons, Hd. exact IH.
Qed.

Lemma has_char_strip c s : Py.has_char c s = false -> Py.has_char c (Py.strip s) = false.
Proof. intros Hc. apply has_char_rstrip, has_char_lstrip, Hc. Qed.

(** No segment of [s.split(sep)] holds the separator. *)
Lemma split_segments sep s :
  Forall (fun seg => Py.has_char sep seg = false) (Py.split sep s).
Proof.
  induction s as [|c s IH]; [repeat constructor|].
  simpl. destruct (Ascii.eqb_spec c sep) as [->|Hc].
  - constructor; [reflexivity | exact IH].
  - destruct (Py.split sep s) as [|h t]; [repeat constructor|].
    + rewrite has_char_cons, orb_false_r. apply Ascii.eqb_neq. congruence.
    + inversion IH as [|? ? Hh Ht]; subst. constructor; [|exact Ht].
      rewrite has_char_cons, Hh, orb_false_r. apply Ascii.eqb_neq. congruence.
Qed.

Lemma map_fixed {A} (f : A -> A) l : Forall (fun x => f x = x) l -> map f l = l.
Proof. induction 1 as [|x r Hx _ IH]; [reflexivity|]. simpl. rewrite Hx, IH. reflexivity. Qed.

(** X5.  A record whose tags passed [validate_tags] and are not empty
    is served, after the write and the read, with each tag stripped
    and every other field as it was built. *)
Theorem stored_tags_are_served_stripped (image_metadata : ImageMetadata) (l : list string) :
  tags image_metadata = Some l ->
  l <> [] ->
  MetadataValidator.validate_tags (Some l) = Valid ->
  ImageResponse_of
    (ImageService._convert_dynamo_to_api_format (ImageService.to_dynamo image_metadata))
  = ImageResponse_of (with_tags image_metadata (TagsList (map Py.strip l))).
Proof.
  intros Ht Hne Hv.
  unfold ImageService._convert_dynamo_to_api_format, ImageService.to_dynamo.
  cbn [with_tags tags]. rewrite Ht, (tags_round_trip l Hne Hv). reflexivity.
Qed.

(** X6.  Whatever string is stored, the tags that
    [_convert_dynamo_to_api_format] reads from it are in normal form:
    none is empty, none has a comma, each is stripped; and storing the
    list that was read gives the same list at the next read. *)
Theorem tags_read_back_are_normal (stored : string) (l : list string) :
  ImageService.convert_tags stored = TagsList l ->
  Forall (fun tag => tag <> EmptyString
                     /\ Py.strip tag = tag
                     /\ Py.has_char "," tag = false) l
  /\ (l <> [] ->
      ImageService.convert_tags (ImageService.join_tags (Some l)) = TagsList l).
Proof.
  intros Hc.
  assert (Hn : Forall (fun tag => tag <> EmptyString
                     /\ Py.strip tag = tag
                     /\ Py.has_char "," tag = false) l).
  { destruct stored as [|c r]; [discriminate|].
    rewrite convert_tags_nonempty in Hc by discriminate. injection Hc as <-.
    apply List.Forall_forall. intros tag Hin.
    apply in_map_iff in Hin as (seg & <- & Hseg).
    apply filter_In in Hseg as [Hseg Hb].
    split; [|split].
    - unfold ImageService.nonblank in Hb. intros E. rewrite E in Hb. discriminate.
    - apply strip_idempotent.
    - apply has_char_strip.
      exact (proj1 (List.Forall_forall _ _) (split_segments "," (String c r)) seg Hseg). }
  split; [exact Hn|]. intros Hne.
  assert (Hb : Forall (fun t => ImageService.nonblank t = true) l).
  { eapply List.Forall_impl; [|exact Hn]. intros t (Ht & Hs & _).
    unfold ImageService.nonblank. rewrite Hs. destruct t; [congruence | reflexivity]. }
  destruct l as [|x r]; [congruence|].
  unfold ImageService.join_tags. rewrite convert_tags_nonempty.
  - rewrite split_join.
    + rewrite filter_all by exact Hb. f_equal. apply map_fixed.
      eapply List.Forall_impl; [|exact Hn]. intros t (_ & Hs & _). exact Hs.
    + discriminate.
    + eapply List.Forall_impl; [|exact Hn]. intros t (_ & _ & Hc'). exact Hc'.
  - apply Forall_inv in Hb. pose proof (join_truthy x r Hb) as Ht.
    intros E. rewrite E in Ht. discriminate.
Qed.

End TagForms.

(** ** More on the upload *)

(** Unfold the monad and the gateways. *)
Ltac run_store :=
  unfold S3Client.upload_image, S3Client.delete_image, S3Client.get_image,
    S3Client.image_exists, S3Client.generate_presigned_url,
    DynamoDBClient.put_image_metadata, DynamoDBClient.get_image_metadata_by_id,
    DynamoDBClient.get_image_metadata, DynamoDBClient.delete_image_metadata,
    DynamoDBClient.update_image_metadata, DynamoDBClient.list_images,
    DynamoDBClient.query_images_by_user,
    Store.bind, Store.ret, Store.attempt, Store.log, Store.get_table,
    Store.set_table, Store.get_bucket, Store.set_bucket in *;
  simpl in *.

Section UploadForms.
Import Model Store.
Context `{Externals}.

Lemma lower_char_idempotent c : Py.lower_char (Py.lower_char c) = Py.lower_char c.
Proof.
  assert (Hall : forall c, Ascii.eqb (Py.lower_char (Py.lower_char c)) (Py.lower_char c) = true).
  { apply ascii_forall_spec. vm_compute. reflexivity. }
  apply Ascii.eqb_eq, Hall.
Qed.

Lemma lower_idempotent s : Py.lower (Py.lower s) = Py.lower s.
Proof.
  induction s as [|c s IH]; [reflexivity|].
  simpl. rewrite lower_char_idempotent, IH. reflexivity.
Qed.

(** What [validate_image_content] lets through. *)
Lemma validate_image_content_valid opened width height format :
  ImageValidator.validate_image_content opened
  = ImageValidator.ContentValid width height format ->
  50 <= width <= 4000 /\ 50 <= height <= 4000 /\ Py.lower format = format.
Proof.
  unfold ImageValidator.validate_image_content, ImageValidator.MIN_DIMENSION,
    ImageValidator.MAX_DIMENSION.
  destruct opened as [image|message]; [|discriminate].
  destruct (_ || _) eqn:Hd; [discriminate|].
  intros E. injection E as <- <- <-.
  apply orb_false_iff in Hd as [Hd H4]. apply orb_false_iff in Hd as [Hd H3].
  apply orb_false_iff in Hd as [H1 H2].
  split; [lia|]. split; [lia|].
  destruct (ImageValidator.dec_format image) as [f|]; [|reflexivity].
  destruct (Py.truthy f); [apply lower_idempotent | reflexivity].
Qed.

Lemma put_item_In t it : In it (DynamoDBClient.put_item t it).
Proof.
  induction t as [|x r IH]; simpl; [auto|].
  destruct (DynamoDBClient.same_key _ _ x); simpl; auto.
Qed.

(** Under an identifier that the table does not hold, the record that
    was put is the one found. *)
Lemma query_by_id_put_item t it :
  Forall (fun x => image_id x <> image_id it) t ->
  DynamoDBClient.query_by_id (DynamoDBClient.put_item t it) (image_id it) = Some it.
Proof.
  unfold DynamoDBClient.query_by_id. induction 1 as [|x r Hx Hr IH]; simpl.
  - rewrite String.eqb_refl. reflexivity.
  - unfold DynamoDBClient.same_key.
    destruct (String.eqb_spec (image_id x) (image_id it)) as [E|_]; [congruence|].
    simpl. destruct (String.eqb_spec (image_id x) (image_id it)) as [E|_]; [congruence|].
    exact IH.
Qed.

(** X7.  An upload that does not pass the seven validations fails with
    one message in every world and changes nothing: no call is made to
    either store.  The extension is checked first, the size second. *)
Theorem upload_image_rejection_makes_no_call (fresh : Fresh)
    (file_content filename : string) (upload_request : ImageUploadRequest) :
  ~ (exists width height format,
       ImageService.validated file_content filename upload_request width height format) ->
  exists e,
    (forall w, ImageService.upload_image fresh file_content filename upload_request w
               = (Failure e, w))
    /\ (ImageValidator.validate_file_extension filename = false ->
        e = "Invalid file extension. Allowed: jpg, jpeg, png, gif, webp")
    /\ (ImageValidator.validate_file_extension filename = true ->
        ImageValidator.validate_file_size (Py.len file_content) = false ->
        e = "File size must be between 1KB and 10MB").
Proof.
  intros Hn. unfold ImageService.upload_image.
  destruct (ImageValidator.validate_file_extension filename) eqn:He; cbn [negb].
  2:{ eexists. split; [reflexivity|]. split; [reflexivity | discriminate]. }
  destruct (ImageValidator.validate_file_size (Py.len file_content)) eqn:Hs; cbn [negb].
  2:{ eexists. split; [reflexivity|]. split; [discriminate | reflexivity]. }
  destruct (ImageValidator.validate_image_content (image_open file_content))
    as [width height format|e] eqn:Hc.
  2:{ exists e. split; [reflexivity|]. split; discriminate. }
  destruct (MetadataValidator.validate_title (req_title upload_request)) as [|e] eqn:Ht.
  2:{ exists e. split; [reflexivity|]. split; discriminate. }
  destruct (MetadataValidator.validate_description (req_description upload_request))
    as [|e] eqn:Hd.
  2:{ exists e. split; [reflexivity|]. split; discriminate. }
  destruct (MetadataValidator.validate_tags (req_tags upload_request)) as [|e] eqn:Hg.
  2:{ exists e. split; [reflexivity|]. split; discriminate. }
  destruct (MetadataValidator.validate_user_id (Some (req_user_id upload_request)))
    as [|e] eqn:Hu.
  2:{ exists e. split; [reflexivity|]. split; discriminate. }
  exfalso. apply Hn. exists width, height, format.
  unfold ImageService.validated. auto 10.
Qed.

(** X8.  Every successful upload leaves in the table a live record
    within the bounds of the data model (size between 1 KB and 10 MB,
    sides between 50 and 4000 pixels, a lowercase format that names the
    content type and ends the key), and its blob in the bucket under
    the key of the record. *)
Theorem uploaded_record_is_within_bounds (fresh : Fresh) (file_content filename : string)
    (upload_request : ImageUploadRequest) (w w' : World)
    (uploaded : ImageService.Uploaded) :
  ImageService.upload_image fresh file_content filename upload_request w
  = (Success uploaded, w') ->
  exists item : Item,
    In item (table w')
    /\ ImageService.up_image_id uploaded = uuid4 fresh
    /\ image_id item = uuid4 fresh
    /\ created_at item = utcnow_isoformat fresh
    /\ user_id item = req_user_id upload_request
    /\ file_name item = filename
    /\ is_deleted item = false
    /\ updated_at item = None
    /\ file_size item = Py.len file_content
    /\ 1024 <= file_size item <= 10485760
    /\ 50 <= width item <= 4000
    /\ 50 <= height item <= 4000
    /\ Py.lower (format item) = format item
    /\ content_type item = "image/" +:+ format item
    /\ s3_key item = "images/" +:+ utcnow_year_month fresh +:+ "/" +:+ uuid4 fresh
                     +:+ "." +:+ format item
    /\ bucket w' !! s3_key item = Some (mkS3Object file_content (content_type item)).
Proof.
  intros E.
  destruct (upload_image_cases fresh file_content filename upload_request)
    as [[e Hf] | (width & height & format & Hv)].
  { rewrite Hf in E. discriminate. }
  pose proof Hv as (_ & Hs & Hc & _).
  apply validate_image_content_valid in Hc as (Hw & Hh & Hl).
  unfold ImageValidator.validate_file_size, ImageValidator.MIN_FILE_SIZE,
    ImageValidator.MAX_FILE_SIZE in Hs.
  apply andb_true_iff in Hs as [Hs1 Hs2].
  rewrite (upload_image_validated _ _ _ _ _ _ _ Hv) in E.
  set (md := ImageService.new_metadata fresh file_content filename upload_request
               width height format) in *.
  exists (ImageService.to_dynamo md).
  assert (Hok : uploaded = ImageService.mkUploaded (uuid4 fresh) "Image uploaded successfully"
                /\ table w' = DynamoDBClient.put_item (table w) (ImageService.to_dynamo md)
                /\ bucket w' !! s3_key md
                   = Some (mkS3Object file_content (content_type md))).
  { destruct w as [b t fs c]. revert E. run_store.
    destruct fs as [|[] [|[] fs]]; simpl; try discriminate;
      try (destruct fs as [|[] fs]; simpl; discriminate);
      intros E; injection E as <- <-; simpl;
      (split; [reflexivity|]); (split; [reflexivity|]); apply lookup_insert_eq. }
  destruct Hok as (-> & Ht & Hb).
  split; [rewrite Ht; apply put_item_In|].
  simpl. rewrite Hl.
  repeat (split; [first [reflexivity | lia]|]).
  unfold md in Hb. simpl in Hb. rewrite Hl in Hb. exact Hb.
Qed.

(** X9.  After an upload with tags whose three calls go through, under
    an identifier that the table did not hold, [get_image] returns the
    record that was written: the fields of the upload, with each tag
    stripped. *)
Theorem uploaded_image_is_read_back (fresh : Fresh) (file_content filename : string)
    (upload_request : ImageUploadRequest) (width height : Z) (format : string)
    (l : list string) (w : World) :
  ImageService.validated file_content filename upload_request width height format ->
  req_tags upload_request = Some l ->
  l <> [] ->
  reliable 3 w ->
  Forall (fun it => image_id it <> uuid4 fresh) (table w) ->
  let '(r, w1) := ImageService.upload_image fresh file_content filename upload_request w in
  r = Success (ImageService.mkUploaded (uuid4 fresh) "Image uploaded successfully")
  /\ (ImageService.get_image (uuid4 fresh) false w1).1
     = Success
         (model_dump
            (mkImageResponse (uuid4 fresh) (utcnow_isoformat fresh)
               (req_user_id upload_request) (req_title upload_request)
               (req_description upload_request) (Some (map Py.strip l)) filename
               (Py.len file_content) ("image/" +:+ format) width height format
               None None)).
Proof.
  intros Hv Hl Hne Hr Hfresh.
  rewrite (upload_image_validated _ _ _ _ _ _ _ Hv).
  set (md := ImageService.new_metadata fresh file_content filename upload_request
               width height format).
  assert (Hq : DynamoDBClient.query_by_id
                 (DynamoDBClient.put_item (table w) (ImageService.to_dynamo md))
                 (uuid4 fresh) = Some (ImageService.to_dynamo md)).
  { apply (query_by_id_put_item (table w) (ImageService.to_dynamo md)). exact Hfresh. }
  assert (Hresp : ImageResponse_of
                    (ImageService._convert_dynamo_to_api_format (ImageService.to_dynamo md))
                  = ImageResponse_of (with_tags md (TagsList (map Py.strip l)))).
  { destruct Hv as (_ & _ & _ & _ & _ & Hg & _). rewrite Hl in Hg.
    unfold ImageService._convert_dynamo_to_api_format, ImageService.to_dynamo.
    cbn [with_tags tags]. unfold md, ImageService.new_metadata, create_new.
    cbn [tags]. rewrite Hl, (tags_round_trip l Hne Hg). reflexivity. }
  unfold ImageService.get_image.
  destruct w as [b t fs c]. unfold reliable in Hr. run_store.
  destruct fs as [|f1 [|f2 [|f3 fs]]]; simpl in *;
    repeat match goal with
           | H : Forall _ (_ :: _) |- _ => inversion H; subst; clear H
           end; simpl;
    (split; [reflexivity|]);
    rewrite Hq; simpl; rewrite Hresp; reflexivity.
Qed.

(** X10.  When the blob is written and the record is not, the table is
    as before and so is every other key of the bucket; under the key of
    the upload the bucket holds nothing when the compensating delete
    goes through (a blob that was there before is gone too), and the
    orphaned blob when it does not. *)
Theorem rolled_back_upload_leaves_no_blob (fresh : Fresh) (file_content filename : string)
    (upload_request : ImageUploadRequest) (width height : Z) (format : string)
    (w : World) :
  ImageService.validated file_content filename upload_request width height format ->
  goes_through 0 w = true ->
  goes_through 1 w = false ->
  let md := ImageService.new_metadata fresh file_content filename upload_request
              width height format in
  let w' := (ImageService.upload_image fresh file_content filename upload_request w).2 in
  table w' = table w
  /\ bucket w' !! s3_key md
     = (if goes_through 2 w then None
        else Some (mkS3Object file_content (content_type md)))
  /\ forall key, key <> s3_key md -> bucket w' !! key = bucket w !! key.
Proof.
  intros Hv H0 H1. rewrite (upload_image_validated _ _ _ _ _ _ _ Hv).
  unfold goes_through in *. destruct w as [b t fs c]. run_store.
  destruct fs as [|[] [|[] fs]]; simpl in *; try discriminate.
  destruct fs as [|[] fs]; simpl; (split; [reflexivity|]); split.
  - apply lookup_delete_eq.
  - intros key Hk. rewrite lookup_delete_ne, lookup_insert_ne by congruence. reflexivity.
  - apply lookup_insert_eq.
  - intros key Hk. rewrite lookup_insert_ne by congruence. reflexivity.
  - apply lookup_delete_eq.
  - intros key Hk. rewrite lookup_delete_ne, lookup_insert_ne by congruence. reflexivity.
Qed.

End UploadForms.

(** ** More on reading and deleting *)

Section ReadAndDelete.
Import Model Store.
Context `{Externals}.

(** X11.  For a live record whose tags are read as a list, [get_image]
    returns the fields of the record; it asks for a signed URL, valid
    for 3600 seconds, only when [include_download_url] is set, and a
    signing that fails (or gives an empty URL) leaves the answer a
    success without a URL.  Neither store is changed. *)
Theorem get_image_of_live_record (w : World) (image_id : string)
    (include_download_url : bool) (metadata : Item) (l : list string) :
  goes_through 0 w = true ->
  DynamoDBClient.query_by_id (table w) image_id = Some metadata ->
  is_deleted metadata = false ->
  ImageService.convert_tags (tags metadata) = TagsList l ->
  let url := presigned_url (s3_key metadata) 3600 in
  let response :=
    mkImageResponse (Model.image_id metadata) (created_at metadata) (user_id metadata)
      (title metadata) (description metadata) (Some l) (file_name metadata)
      (file_size metadata) (content_type metadata) (width metadata) (height metadata)
      (format metadata)
      (if include_download_url && goes_through 1 w && Py.truthy url
       then Some url else None)
      None in
  let '(r, w') := ImageService.get_image image_id include_download_url w in
  r = Success (model_dump response)
  /\ calls w'
     = calls w ++ QueryById image_id true
         :: (if include_download_url
             then [PresignGet (s3_key metadata) 3600 (goes_through 1 w)] else [])
  /\ table w' = table w
  /\ bucket w' = bucket w.
Proof.
  intros H0 Hq Hd Hl. unfold ImageService.get_image, goes_through in *.
  destruct w as [b t fs c]. run_store.
  destruct fs as [|f1 fs]; simpl in *; [|destruct f1; [discriminate|]; simpl];
    rewrite Hq; simpl; rewrite Hd; unfold ImageResponse_of; simpl; rewrite Hl;
    destruct include_download_url; simpl;
    try (destruct fs as [|[] fs]; simpl);
    try destruct (Py.truthy (presigned_url (s3_key metadata) 3600)); simpl;
    rewrite <- ?List.app_assoc; auto.
Qed.

(** X12.  When the query of the table raises, the record is taken for
    absent: [get_image] and [delete_image] answer ['Image not found']
    (status 404 from the handlers) whatever the table holds, and the
    table is not changed. *)
Theorem store_failure_is_reported_as_not_found (w : World) (now image_id user_id : string)
    (include_download_url : bool) :
  goes_through 0 w = false ->
  ImageService.get_image image_id include_download_url w
  = (Failure "Image not found",
     mkWorld (bucket w) (table w) (tl (faults w)) (calls w ++ [QueryById image_id false]))
  /\ ImageService.delete_image now image_id user_id w
     = (Failure "Image not found",
        mkWorld (bucket w) (table w) (tl (faults w)) (calls w ++ [QueryById image_id false]))
  /\ (Main.get_image image_id include_download_url w).1
     = Main.HTTPException 404 "Image not found"
  /\ (Main.delete_image now image_id user_id w).1
     = Main.HTTPException 404 "Image not found".
Proof.
  intros H0. unfold Main.get_image, Main.delete_image, ImageService.get_image,
    ImageService.delete_image, goes_through in *.
  destruct w as [b t fs c]. run_store.
  destruct fs as [|[] fs]; simpl in *; try discriminate. auto.
Qed.

Lemma update_item_keys t id created u :
  map (fun it : Item => (Model.image_id it, created_at it))
    (DynamoDBClient.update_item t id created u)
  = map (fun it : Item => (Model.image_id it, created_at it)) t.
Proof.
  unfold DynamoDBClient.update_item. rewrite map_map. apply map_ext.
  intros it. destruct (DynamoDBClient.same_key id created it); reflexivity.
Qed.

(** X13.  The status of [DELETE /images/{image_id}] in every world:
    404 when the query raises or finds nothing, 403 for another user
    than the owner (whether or not the record is deleted), 410 for the
    owner of a deleted record, 400 when the update raises, 200
    otherwise.  The table is changed only with status 200, no record
    is ever removed from it, and the bucket is never changed. *)
Theorem delete_image_status (w : World) (now image_id x_user_id : string) :
  let '(r, w') := Main.delete_image now image_id x_user_id w in
  Main.status r
  = (if negb (goes_through 0 w) then 404
     else match DynamoDBClient.query_by_id (table w) image_id with
          | None => 404
          | Some metadata =>
              if negb (String.eqb (user_id metadata) x_user_id) then 403
              else if is_deleted metadata then 410
              else if goes_through 1 w then 200 else 400
          end)
  /\ (Main.status r <> 200 -> table w' = table w)
  /\ map (fun it : Item => (Model.image_id it, created_at it)) (table w')
     = map (fun it : Item => (Model.image_id it, created_at it)) (table w)
  /\ bucket w' = bucket w.
Proof.
  unfold Main.delete_image, ImageService.delete_image, goes_through.
  destruct w as [b t fs c]. run_store.
  destruct fs as [|f1 fs]; simpl; [|destruct f1; simpl; [auto|]];
    (destruct (DynamoDBClient.query_by_id t image_id) as [metadata|]; simpl; [|auto]);
    (destruct (String.eqb (user_id metadata) x_user_id); simpl; [|auto]);
    (destruct (is_deleted metadata); simpl; [auto|]);
    try (destruct fs as [|[] fs]; simpl);
    repeat split; try reflexivity; try congruence; try apply update_item_keys.
Qed.

(** X14.  After the soft delete of a live record by its owner, with
    the calls going through, [get_image] no longer finds the image; the
    record is still in the table, marked deleted and stamped; and the
    blob is still in the bucket. *)
Theorem deleted_image_is_hidden_and_kept (w : World) (now image_id user_id : string)
    (include_download_url : bool) (metadata : Item) :
  reliable 3 w ->
  DynamoDBClient.query_by_id (table w) image_id = Some metadata ->
  Model.user_id metadata = user_id ->
  is_deleted metadata = false ->
  let w1 := (ImageService.delete_image now image_id user_id w).2 in
  (ImageService.get_image image_id include_download_url w1).1 = Failure "Image not found"
  /\ In (DynamoDBClient.apply_updates (DynamoDBClient.mkUpdates true now) metadata)
       (table w1)
  /\ bucket w1 = bucket w.
Proof.
  intros Hr Hq Hu Hd.
  assert (Hr2 : reliable 2 w).
  { unfold reliable in *. destruct (faults w) as [|f1 [|f2 [|f3 fs]]]; simpl in *;
      try exact Hr. inversion Hr as [|? ? ? Hr']; subst.
    inversion Hr' as [|? ? ? Hr'']; subst. repeat constructor. }
  destruct (delete_image_live w now image_id user_id metadata Hr2 Hq Hu Hd)
    as (w1 & E1 & Ht1 & Hb1 & Hf1).
  rewrite E1. cbn [snd].
  assert (Hq1 : DynamoDBClient.query_by_id (table w1) image_id
                = Some (DynamoDBClient.apply_updates (DynamoDBClient.mkUpdates true now)
                          metadata)).
  { rewrite Ht1. apply query_by_id_update. exact Hq. }
  assert (Hh : hd false (faults w1) = false).
  { rewrite Hf1. unfold reliable in Hr.
    destruct (faults w) as [|f1 [|f2 [|f3 fs]]]; simpl in *; try reflexivity.
    inversion Hr as [|? ? ? Hr']; subst. inversion Hr' as [|? ? ? Hr'']; subst.
    inversion Hr''; subst. reflexivity. }
  split; [|split; [|exact Hb1]].
  - unfold ImageService.get_image. run_store.
    destruct (faults w1) as [|f fs]; simpl in *; [|subst f; simpl];
      rewrite Hq1; reflexivity.
  - unfold DynamoDBClient.query_by_id in Hq1.
    apply first_by_created_at_in, filter_In in Hq1 as [Hin _]. exact Hin.
Qed.

End ReadAndDelete.

(** ** More on listing *)

Section ListingForms.
Import Model Store.
Context `{Externals}.

Lemma presign_calls (key : string) (expiration : Z) (w : World) :
  let '(url, w') := S3Client.generate_presigned_url key expiration w in
  exists ok, calls w' = calls w ++ [PresignGet key expiration ok].
Proof. run_store. destruct (faults w) as [|[] fs]; simpl; eauto. Qed.

(** The calls of the loop over the live images are presign calls. *)
Lemma image_responses_calls (active : list Item) (w : World) :
  let '(rs, w') := ImageService.image_responses active w in
  exists new,
    calls w' = calls w ++ new
    /\ Forall (fun c => match c with PresignGet _ _ _ => True | _ => False end) new.
Proof.
  revert w. induction active as [|img rest IH]; intros w.
  - simpl. exists []. rewrite List.app_nil_r. split; [reflexivity | constructor].
  - simpl. destruct (ImageResponse_of (ImageService._convert_dynamo_to_api_format img)).
    + unfold bind.
      pose proof (presign_calls (s3_key img) 3600 w) as Hp.
      destruct (S3Client.generate_presigned_url (s3_key img) 3600 w) as [url w1].
      destruct Hp as [ok Hc]. specialize (IH w1).
      destruct (ImageService.image_responses rest w1) as [others w2].
      destruct IH as (new & Hn & Hall). unfold ret.
      exists (PresignGet (s3_key img) 3600 ok :: new). split.
      * rewrite Hn, Hc, <- List.app_assoc. reflexivity.
      * constructor; [exact I | exact Hall].
    + simpl. exists []. rewrite List.app_nil_r. split; [reflexivity | constructor].
Qed.

(** X15.  When the fetch of the page raises, [list_images] does not
    fail: it answers with a successful, empty page without a next
    token, after this one call. *)
Theorem list_images_store_failure (limit : Z) (page_token user_id tags : option string)
    (key : Json.value) (w : World) :
  ImageService.decode_page_token page_token = Some key ->
  goes_through 0 w = false ->
  exists call,
    is_fetch call = true
    /\ ImageService.list_images limit page_token user_id tags w
       = (Success (ImageService.mkListing [] 0 None false),
          mkWorld (bucket w) (table w) (tl (faults w)) (calls w ++ [call])).
Proof.
  intros Hk H0. unfold ImageService.list_images, ImageService.query_images, goes_through in *.
  rewrite Hk. destruct w as [b t fs c].
  destruct (Py.truthy_opt user_id); run_store;
    destruct fs as [|[] fs]; simpl in *; try discriminate;
    eexists; (split; [|reflexivity]); reflexivity.
Qed.

Lemma model_dump_internal_keys (r : ImageResponse) :
  dict_get (model_dump r) "s3_key" = None
  /\ dict_get (model_dump r) "is_deleted" = None
  /\ dict_get (model_dump r) "updated_at" = None.
Proof. repeat split. Qed.

(** X16.  No image that [get_image] or [list_images] returns has the
    storage key, the deletion flag or the update stamp of its record:
    they are dumps of [ImageResponse], which has none of the three
    fields. *)
Theorem responses_have_no_internal_field (w w' : World) :
  (forall image_id include_download_url image,
     ImageService.get_image image_id include_download_url w = (Success image, w') ->
     dict_get image "s3_key" = None
     /\ dict_get image "is_deleted" = None
     /\ dict_get image "updated_at" = None)
  /\ (forall limit page_token user_id tags listing,
        ImageService.list_images limit page_token user_id tags w = (Success listing, w') ->
        Forall (fun image => dict_get image "s3_key" = None
                             /\ dict_get image "is_deleted" = None
                             /\ dict_get image "updated_at" = None)
          (ImageService.images listing)).
Proof.
  split.
  - intros image_id include_download_url image.
    unfold ImageService.get_image. run_store.
    repeat match goal with
           | |- context [match ?x with _ => _ end] => destruct x eqn:?; simpl
           | |- context [if ?x then _ else _] => destruct x eqn:?; simpl
           end;
      intros E; inversion E; subst; repeat split.
  - intros limit page_token user_id tags listing.
    unfold ImageService.list_images.
    destruct (ImageService.decode_page_token page_token) as [key|]; [|discriminate].
    unfold bind.
    destruct (ImageService.query_images limit key user_id tags w) as [page w1].
    destruct (ImageService.image_responses (List.filter ImageService.live (items page)) w1)
      as [[responses|] w2]; [|discriminate].
    unfold ret. intros E. injection E as <- _. simpl.
    apply List.Forall_forall. intros image Hin.
    apply in_map_iff in Hin as (r & <- & _). apply model_dump_internal_keys.
Qed.

(** X17.  The token that [list_images] hands out is the encoded next
    key of the store (and then [has_more] is set); when this key is a
    dictionary of ASCII strings, a call with the token decodes it to
    the key and sends the key as the start of its one fetch. *)
Theorem next_page_token_resumes (limit : Z) (page_token user_id tags : option string)
    (w w1 : World) (listing : ImageService.Listing) (token : string) :
  ImageService.list_images limit page_token user_id tags w = (Success listing, w1) ->
  ImageService.next_page_token listing = Some token ->
  exists key cursor,
    ImageService.decode_page_token page_token = Some key
    /\ last_evaluated_key (ImageService.query_images limit key user_id tags w).1
       = Some cursor
    /\ token = PageToken.encode cursor
    /\ ImageService.has_more listing = true
    /\ (Json.valid_cursor cursor ->
        ImageService.decode_page_token (Some token) = Some (Json.of_cursor cursor)
        /\ forall limit2 w2,
             List.filter is_fetch
               (calls (ImageService.list_images limit2 (Some token) user_id tags w2).2)
             = List.filter is_fetch (calls w2)
               ++ [fetch_from limit2 (Json.of_cursor cursor) user_id tags
                     (goes_through 0 w2)]).
Proof.
  unfold ImageService.list_images at 1.
  destruct (ImageService.decode_page_token page_token) as [key|]; [|discriminate].
  unfold bind.
  destruct (ImageService.query_images limit key user_id tags w) as [page w'] eqn:Eq.
  destruct (ImageService.image_responses (List.filter ImageService.live (items page)) w')
    as [[responses|] w''']; [|discriminate].
  unfold ret. intros E Ht. injection E as <- _. simpl in Ht.
  destruct (last_evaluated_key page) as [[|kv cursor]|] eqn:El; try discriminate.
  injection Ht as <-.
  exists key, (kv :: cursor). rewrite Eq. simpl. rewrite El.
  repeat (split; [reflexivity|]).
  intros Hv.
  assert (Hd : ImageService.decode_page_token (Some (PageToken.encode (kv :: cursor)))
               = Some (Json.of_cursor (kv :: cursor))).
  { unfold ImageService.decode_page_token.
    destruct (PageToken.encode (kv :: cursor)) as [|c r] eqn:Ee.
    - exfalso. exact (encode_not_empty _ Ee).
    - change (Py.truthy_opt (Some (String c r))) with true. cbv iota.
      change (default EmptyString (Some (String c r))) with (String c r).
      rewrite <- Ee. apply decode_encode. exact Hv. }
  split; [exact Hd|]. intros limit2 w2.
  unfold ImageService.list_images. rewrite Hd. unfold bind.
  destruct (ImageService.query_images limit2 (Json.of_cursor (kv :: cursor)) user_id tags w2)
    as [page2 w3] eqn:Eq2.
  pose proof (image_responses_spec (List.filter ImageService.live (items page2)) w3) as Hr.
  destruct (ImageService.image_responses (List.filter ImageService.live (items page2)) w3)
    as [rs w4].
  destruct Hr as (_ & _ & Hc & _).
  assert (Hc4 : List.filter is_fetch (calls (match rs with
                  | Some responses =>
                      ret (Success
                        (ImageService.mkListing (map model_dump responses)
                           (Z.of_nat (length responses))
                           match last_evaluated_key page2 with
                           | Some (kv0 :: key0) => Some (PageToken.encode (kv0 :: key0))
                           | _ => None
                           end
                           match last_evaluated_key page2 with
                           | Some _ => true
                           | None => false
                           end))
                  | None => ret (Failure "Internal server error")
                  end w4).2) = List.filter is_fetch (calls w4)).
  { destruct rs; reflexivity. }
  rewrite Hc4, Hc. clear Hc4 Hc.
  revert Eq2. unfold ImageService.query_images, fetch_from, goes_through.
  destruct w2 as [b2 t2 fs2 c2].
  destruct (Py.truthy_opt user_id) eqn:Hu; run_store; rewrite ?Hu;
    destruct fs2 as [|[] fs2]; simpl; intros E2; injection E2 as _ <-; simpl;
    rewrite List.filter_app; reflexivity.
Qed.

End ListingForms.

(** ** The handlers of the list routes *)

Section ListRoutes.
Import Model Store.
Context `{Externals}.

(** The calls of [list_images]: one fetch with the limit it was given,
    then signings for 3600 seconds. *)
Lemma list_images_calls (limit : Z) (page_token user_id tags : option string) (w : World) :
  let '(r, w') := ImageService.list_images limit page_token user_id tags w in
  exists new,
    calls w' = calls w ++ new
    /\ Forall (fun c => match c with
                        | Scan l _ _ _ _ | QueryUserIndex _ l _ _ => l = limit
                        | PresignGet _ _ _ => True
                        | _ => False
                        end) new.
Proof.
  unfold ImageService.list_images.
  destruct (ImageService.decode_page_token page_token) as [key|].
  2:{ unfold ret. exists []. rewrite List.app_nil_r. split; [reflexivity | constructor]. }
  unfold bind.
  destruct (ImageService.query_images limit key user_id tags w) as [page w1] eqn:Eq.
  assert (Hq : exists c, calls w1 = calls w ++ [c]
                         /\ match c with
                            | Scan l _ _ _ _ | QueryUserIndex _ l _ _ => l = limit
                            | PresignGet _ _ _ => True
                            | _ => False
                            end).
  { revert Eq. unfold ImageService.query_images. destruct w as [b t fs c].
    destruct (Py.truthy_opt user_id); run_store;
      destruct fs as [|[] fs]; simpl; intros E; injection E as _ <-; simpl;
      eexists; (split; [reflexivity|]); reflexivity. }
  destruct Hq as (c & Hc & Hl).
  pose proof (image_responses_calls (List.filter ImageService.live (items page)) w1) as Hr.
  destruct (ImageService.image_responses (List.filter ImageService.live (items page)) w1)
    as [rs w2].
  destruct Hr as (new & Hn & Hall).
  assert (Hw : calls w2 = calls w ++ c :: new).
  { rewrite Hn, Hc, <- List.app_assoc. reflexivity. }
  destruct rs as [responses|]; unfold ret; exists (c :: new); (split; [exact Hw|]);
    (constructor; [exact Hl|]);
    (eapply List.Forall_impl; [|exact Hall]); intros [] Hx; first [exact Hx | destruct Hx].
Qed.

(** The two failures of [list_images]. *)
Lemma list_images_errors (limit : Z) (page_token user_id tags : option string)
    (w w' : World) (e : string) :
  ImageService.list_images limit page_token user_id tags w = (Failure e, w') ->
  e = "Invalid page token" \/ e = "Internal server error".
Proof.
  unfold ImageService.list_images.
  destruct (ImageService.decode_page_token page_token) as [key|].
  2:{ unfold ret. intros E. injection E as <- _. left. reflexivity. }
  unfold bind.
  destruct (ImageService.query_images limit key user_id tags w) as [page w1].
  destruct (ImageService.image_responses (List.filter ImageService.live (items page)) w1)
    as [[responses|] w2]; unfold ret; intros E; [discriminate|].
  injection E as <- _. right. reflexivity.
Qed.

(** The limit that the declaration lets through is between 1 and
    100. *)
Lemma query_limit_range (limit : option Z) (l : Z) :
  Main.query_limit limit = Some l -> 1 <= l <= 100.
Proof.
  unfold Main.query_limit. destruct limit as [l0|].
  - destruct (Z.leb_spec 1 l0), (Z.leb_spec l0 100); simpl; try discriminate.
    intros E. injection E as <-. lia.
  - intros E. injection E as <-. lia.
Qed.

Lemma validate_limit_in_range (l : Z) :
  1 <= l <= 100 ->
  QueryValidator.validate_limit (Some l) = QueryValidator.LimitValid l.
Proof.
  intros Hl.
  unfold QueryValidator.validate_limit, QueryValidator.MIN_LIMIT, QueryValidator.MAX_LIMIT.
  destruct (Z.ltb_spec l 1); [lia|]. destruct (Z.gtb_spec l 100); [lia|]. reflexivity.
Qed.

(** X18.  [GET /images] declares its limit with [ge=1, le=100]: a
    limit below 1 or above 100 is answered with status 422 before the
    handler runs and before any call, so that the check of the limit
    in the handler never fails (its two messages are never the detail
    of a 400), and the one fetch is made with the limit of the request
    (20 without one), between 1 and 100; the other calls are
    signings. *)
Theorem list_images_handler_checks_limit (limit : option Z)
    (page_token user_id tags start_date end_date : option string) (w : World) :
  let '(r, w') :=
    Main.list_images limit page_token user_id tags start_date end_date w in
  (forall l, limit = Some l -> l < 1 \/ 100 < l -> r = Main.Unprocessable /\ w' = w)
  /\ r <> Main.Handled (Main.HTTPException 400 "Limit must be at least 1")
  /\ r <> Main.Handled (Main.HTTPException 400 "Limit cannot exceed 100")
  /\ exists new,
       calls w' = calls w ++ new
       /\ Forall (fun c => match c with
                           | Scan l _ _ _ _ | QueryUserIndex _ l _ _ =>
                               Main.query_limit limit = Some l /\ 1 <= l <= 100
                           | PresignGet _ _ _ => True
                           | _ => False
                           end) new.
Proof.
  unfold Main.list_images.
  destruct (Main.query_limit limit) as [l|] eqn:Hq.
  2:{ unfold ret. split; [auto|]. split; [discriminate|]. split; [discriminate|].
      exists []. rewrite List.app_nil_r. split; [reflexivity | constructor]. }
  pose proof (query_limit_range limit l Hq) as Hl.
  assert (Hout : forall l0, limit = Some l0 -> l0 < 1 \/ 100 < l0 -> False).
  { intros l0 -> Hb. unfold Main.query_limit in Hq.
    destruct (Z.leb_spec 1 l0), (Z.leb_spec l0 100); simpl in Hq; try discriminate; lia. }
  unfold bind, Main.list_images_body. rewrite (validate_limit_in_range l Hl).
  destruct (QueryValidator.validate_last_evaluated_key page_token) as [token|e] eqn:Hk.
  2:{ unfold ret.
      assert (He : e = "Invalid pagination key").
      { unfold QueryValidator.validate_last_evaluated_key in Hk.
        destruct page_token as [k|]; [|discriminate].
        destruct (_ >? 0); [discriminate|]. injection Hk as <-. reflexivity. }
      subst e. split; [intros l0 E Hb; destruct (Hout l0 E Hb)|].
      split; [discriminate|]. split; [discriminate|].
      exists []. rewrite List.app_nil_r. split; [reflexivity | constructor]. }
  unfold bind.
  pose proof (list_images_calls l token user_id tags w) as Hc.
  destruct (ImageService.list_images l token user_id tags w) as [r w1] eqn:Er.
  destruct Hc as (new & Hn & Hall).
  assert (Hgoal : exists new0,
             calls w1 = calls w ++ new0
             /\ Forall (fun c => match c with
                           | Scan l0 _ _ _ _ | QueryUserIndex _ l0 _ _ =>
                               Some l = Some l0 /\ 1 <= l0 <= 100
                           | PresignGet _ _ _ => True
                           | _ => False
                           end) new0).
  { exists new. split; [exact Hn|]. eapply List.Forall_impl; [|exact Hall].
    intros [] Hx; first [exact Hx | subst; split; [reflexivity | lia]]. }
  destruct r as [listing|e]; unfold ret; simpl.
  - split; [intros l0 E Hb; destruct (Hout l0 E Hb)|].
    split; [discriminate|]. split; [discriminate | exact Hgoal].
  - split; [intros l0 E Hb; destruct (Hout l0 E Hb)|].
    destruct (list_images_errors _ _ _ _ _ _ _ Er) as [-> | ->];
      (split; [discriminate|]); (split; [discriminate | exact Hgoal]).
Qed.

Lemma a2b_loop_blank (t : string) :
  Py.all_chars Py.isspace t = true -> Base64.a2b_loop t 0 0 0 = Some EmptyString.
Proof.
  assert (Hc : forall c, (negb (Py.isspace c)
                          || (negb (Ascii.eqb c "=")
                              && match Base64.b64_index c with None => true | Some _ => false end))
                         = true).
  { apply ascii_forall_spec. vm_compute. reflexivity. }
  induction t as [|c t IH]; [reflexivity|].
  rewrite all_chars_cons. intros Ha. apply andb_true_iff in Ha as [Hs Ht].
  specialize (Hc c). rewrite Hs in Hc. simpl in Hc. apply andb_true_iff in Hc as [He Hi].
  apply negb_true_iff in He. simpl. rewrite He.
  destruct (Base64.b64_index c); [discriminate|]. exact (IH Ht).
Qed.

(** A token made of whitespace does not decode: with a character
    outside ASCII the base64 decoder raises, and without one it gives
    the empty text, which is no JSON document. *)
Lemma blank_token_does_not_decode (t : string) :
  Py.all_chars Py.isspace t = true -> PageToken.decode t = None.
Proof.
  intros Ht. unfold PageToken.decode, Base64.b64decode.
  destruct (Py.all_chars Base64.is_ascii t); [|reflexivity].
  rewrite (a2b_loop_blank t Ht). reflexivity.
Qed.

(** X19.  For a limit that the declarations let through and a user
    and a tag that are segments of a path, the routes of a user and of
    a tag are [GET /images] with the one filter, for every token but
    the blank ones: a token made of the characters that [strip]
    removes gets ['Invalid pagination key'] from [GET /images], and
    from the two other routes ['Invalid page token'], or the first
    page when it is empty. *)
Theorem list_routes_differ_on_blank_tokens (limit : option Z) (l : Z)
    (page_token : option string) (user_id tag : string)
    (start_date end_date : option string) (w : World) :
  Main.query_limit limit = Some l ->
  Main.path_segment user_id = true ->
  Main.path_segment tag = true ->
  match page_token with
  | Some t =>
      if Py.all_chars Py.isspace t then
        (forall user_filter tag_filter,
           Main.list_images limit page_token user_filter tag_filter start_date end_date w
           = (Main.Handled (Main.HTTPException 400 "Invalid pagination key"), w))
        /\ Main.list_user_images user_id limit page_token w
           = (if Py.truthy t
              then (Main.Handled (Main.HTTPException 400 "Invalid page token"), w)
              else Main.list_user_images user_id limit None w)
        /\ Main.list_images_by_tag tag limit page_token w
           = (if Py.truthy t
              then (Main.Handled (Main.HTTPException 400 "Invalid page token"), w)
              else Main.list_images_by_tag tag limit None w)
      else
        Main.list_user_images user_id limit page_token w
        = Main.list_images limit page_token (Some user_id) None start_date end_date w
        /\ Main.list_images_by_tag tag limit page_token w
           = Main.list_images limit page_token None (Some tag) start_date end_date w
  | None =>
      Main.list_user_images user_id limit None w
      = Main.list_images limit None (Some user_id) None start_date end_date w
      /\ Main.list_images_by_tag tag limit None w
         = Main.list_images limit None None (Some tag) start_date end_date w
  end.
Proof.
  intros Hq _ _. pose proof (query_limit_range limit l Hq) as Hl.
  unfold Main.list_images, Main.list_user_images, Main.list_images_by_tag,
    Main.list_images_body.
  rewrite Hq, (validate_limit_in_range l Hl).
  unfold QueryValidator.validate_last_evaluated_key, bind.
  destruct page_token as [t|].
  2:{ split.
      - destruct (ImageService.list_images l None (Some user_id) None w) as [[r|e] w1];
          reflexivity.
      - destruct (ImageService.list_images l None None (Some tag) w) as [[r|e] w1];
          reflexivity. }
  pose proof (strip_blank_test t) as Hb.
  destruct (Py.all_chars Py.isspace t) eqn:Hs.
  - apply Z.eqb_eq in Hb. rewrite Hb. cbn [Z.gtb Z.compare].
    split; [reflexivity|].
    destruct t as [|c r]; [split; reflexivity|].
    cbn [Py.truthy].
    rewrite !(list_images_bad_token _ l (String c r) _ _ w eq_refl
                (blank_token_does_not_decode _ Hs)).
    split; reflexivity.
  - apply Z.eqb_neq in Hb.
    assert (Hg : (Py.len (Py.strip t) >? 0) = true).
    { apply Z.gtb_lt. unfold Py.len in *. lia. }
    rewrite Hg. split.
    + destruct (ImageService.list_images l (Some t) (Some user_id) None w)
        as [[r|e] w1]; reflexivity.
    + destruct (ImageService.list_images l (Some t) None (Some tag) w)
        as [[r|e] w1]; reflexivity.
Qed.

End ListRoutes.

(** ** The handler of the upload *)

Section UploadRoute.
Import Model Store.
Context `{Externals}.

(** The tags that the handler parses from the form field are stripped
    and not empty. *)
Lemma parse_tags_normal (tags : option string) (l : list string) :
  Main.parse_tags tags = Some l ->
  Forall (fun tag => Py.all_chars Py.isspace tag = false /\ Py.strip tag = tag) l.
Proof.
  unfold Main.parse_tags. destruct (Py.truthy_opt tags); [|discriminate].
  intros E. injection E as <-. apply List.Forall_forall. intros tag Hin.
  apply in_map_iff in Hin as (seg & <- & Hseg). apply filter_In in Hseg as [_ Hb].
  split; [|apply strip_idempotent].
  destruct (Py.all_chars Py.isspace (Py.strip seg)) eqn:Hs; [|reflexivity].
  apply strip_all_space in Hs. rewrite strip_idempotent in Hs.
  unfold ImageService.nonblank in Hb. rewrite Hs in Hb. discriminate.
Qed.

(** What the request model has checked of a request it built. *)
Lemma ImageUploadRequest_of_checked title description tags user_id upload_request :
  ImageUploadRequest_of title description tags user_id = Some upload_request ->
  upload_request = mkUploadRequest title description tags user_id
  /\ (forall t, title = Some t -> Py.len t <= 200)
  /\ (forall d, description = Some d -> Py.len d <= 1000)
  /\ (forall l, tags = Some l ->
        (length l <= 10)%nat /\ Forall (fun tag => Py.len tag <= 50) l)
  /\ user_id <> EmptyString.
Proof.
  unfold ImageUploadRequest_of.
  destruct (_ && _) eqn:Hc; [|discriminate]. intros E. injection E as <-.
  apply andb_true_iff in Hc as [Hc Hv]. apply andb_true_iff in Hc as [Hc Hu].
  apply andb_true_iff in Hc as [Hc Hg]. apply andb_true_iff in Hc as [Ht Hd].
  split; [reflexivity|]. split; [|split; [|split]].
  - intros t ->. lia.
  - intros d ->. lia.
  - intros l ->. split; [lia|]. simpl in Hv.
    apply List.Forall_forall. intros tag Hin.
    rewrite forallb_forall in Hv. specialize (Hv tag Hin).
    apply andb_true_iff in Hv as [_ Hv]. apply negb_true_iff in Hv.
    destruct (Z.gtb_spec (Py.len tag) 50); [discriminate | lia].
  - intros ->. discriminate.
Qed.

Lemma validate_title_error title e :
  MetadataValidator.validate_title title = Invalid e ->
  (forall t, title = Some t -> Py.len t <= 200) ->
  e = "Title cannot be empty".
Proof.
  unfold MetadataValidator.validate_title, MetadataValidator.MAX_TITLE_LENGTH.
  destruct title as [t|]; [|discriminate]. intros E Hl. specialize (Hl t eq_refl).
  destruct (Py.truthy t); [|discriminate]. cbn [negb] in E.
  destruct (Py.len (Py.strip t) =? 0); [congruence|].
  destruct (Z.gtb_spec (Py.len t) 200); [lia | discriminate].
Qed.

Lemma validate_description_error description e :
  MetadataValidator.validate_description description = Invalid e ->
  (forall d, description = Some d -> Py.len d <= 1000) ->
  False.
Proof.
  unfold MetadataValidator.validate_description, MetadataValidator.MAX_DESCRIPTION_LENGTH.
  destruct description as [d|]; [|discriminate]. intros E Hl. specialize (Hl d eq_refl).
  destruct (Py.truthy d); [|discriminate]. cbn [negb] in E.
  destruct (Z.gtb_spec (Py.len d) 1000); [lia | discriminate].
Qed.

Lemma check_tags_error l e :
  MetadataValidator.check_tags l = Invalid e ->
  Forall (fun tag => Py.all_chars Py.isspace tag = false) l ->
  Forall (fun tag => Py.len tag <= 50) l ->
  e = "Tags can only contain letters, numbers, spaces, hyphens, and underscores".
Proof.
  induction l as [|x r IH]; simpl; [discriminate|].
  intros E Hb Hl. inversion Hb as [|? ? Hx Hr]; subst. inversion Hl as [|? ? Hlx Hlr]; subst.
  unfold MetadataValidator.check_tag, MetadataValidator.MAX_TAG_LENGTH in E.
  rewrite strip_blank_test, Hx in E.
  destruct (Z.gtb_spec (Py.len x) 50); [lia|].
  destruct (MetadataValidator.tag_re_match x); cbn [negb] in E; [|congruence].
  exact (IH E Hr Hlr).
Qed.

Lemma validate_tags_error tags e :
  MetadataValidator.validate_tags tags = Invalid e ->
  (forall l, tags = Some l ->
     (length l <= 10)%nat
     /\ Forall (fun tag => Py.len tag <= 50) l
     /\ Forall (fun tag => Py.all_chars Py.isspace tag = false) l) ->
  e = "Tags can only contain letters, numbers, spaces, hyphens, and underscores".
Proof.
  unfold MetadataValidator.validate_tags, MetadataValidator.MAX_TAGS_COUNT.
  destruct tags as [[|x r]|]; try discriminate. intros E Hl.
  destruct (Hl _ eq_refl) as (Hn & Hlen & Hb).
  destruct (Z.gtb_spec (Z.of_nat (length (x :: r))) 10); [lia|].
  exact (check_tags_error _ _ E Hb Hlen).
Qed.

Lemma validate_user_id_error user_id e :
  MetadataValidator.validate_user_id (Some user_id) = Invalid e ->
  user_id <> EmptyString ->
  e = "User ID cannot be empty"
  \/ e = "User ID can only contain letters, numbers, hyphens, and underscores".
Proof.
  unfold MetadataValidator.validate_user_id. intros E Hu.
  destruct user_id as [|c r]; [congruence|]. cbn [Py.truthy negb] in E.
  destruct (_ =? 0); [left; congruence|].
  destruct (MetadataValidator.user_id_re_match _); cbn [negb] in E;
    [discriminate | right; congruence].
Qed.

Lemma validate_image_content_error opened e :
  ImageValidator.validate_image_content opened = ImageValidator.ContentInvalid e ->
  (exists message, e = String "I" message).
Proof.
  unfold ImageValidator.validate_image_content.
  destruct opened as [image|message].
  - destruct (_ || _); [|discriminate]. intros E. injection E as <-.
    eexists. reflexivity.
  - intros E. injection E as <-. eexists. reflexivity.
Qed.

(** A failed upload leaves the table as it was. *)
Lemma upload_image_failure fresh file_content filename upload_request w e w' :
  ImageService.upload_image fresh file_content filename upload_request w
  = (Failure e, w') ->
  table w' = table w.
Proof.
  destruct (upload_image_cases fresh file_content filename upload_request)
    as [[e' Hf] | (width & height & format & Hv)].
  - rewrite Hf. unfold ret. intros E. injection E as _ <-. reflexivity.
  - rewrite (upload_image_validated _ _ _ _ _ _ _ Hv).
    destruct w as [b t fs c]. run_store.
    destruct fs as [|[] [|[] fs]]; simpl; try discriminate;
      try (destruct fs as [|[] fs]; simpl);
      intros E; inversion E; subst; reflexivity.
Qed.

Lemma upload_image_error fresh file_content filename title description tags user_id
    upload_request w e w' :
  ImageUploadRequest_of title description (Main.parse_tags tags) user_id
  = Some upload_request ->
  ImageService.upload_image fresh file_content filename upload_request w
  = (Failure e, w') ->
  ~ In e length_errors.
Proof.
  intros Hreq.
  apply ImageUploadRequest_of_checked in Hreq as (-> & Ht & Hd & Hg & Hu).
  unfold ImageService.upload_image. cbn [req_title req_description req_tags req_user_id].
  destruct (ImageValidator.validate_file_extension filename); cbn [negb].
  2:{ unfold ret. intros E. injection E as <- _. unfold length_errors. simpl.
      intros [E|[E|[E|[E|[E|[E|[]]]]]]]; discriminate E. }
  destruct (ImageValidator.validate_file_size (Py.len file_content)); cbn [negb].
  2:{ unfold ret. intros E. injection E as <- _. unfold length_errors. simpl.
      intros [E|[E|[E|[E|[E|[E|[]]]]]]]; discriminate E. }
  destruct (ImageValidator.validate_image_content (image_open file_content))
    as [width height format|e0] eqn:Hc.
  2:{ unfold ret. intros E. injection E as <- _.
      apply validate_image_content_error in Hc as [message ->].
      unfold length_errors. simpl.
      intros [E|[E|[E|[E|[E|[E|[]]]]]]]; discriminate E. }
  destruct (MetadataValidator.validate_title title) as [|e0] eqn:Hvt.
  2:{ unfold ret. intros E. injection E as <- _.
      rewrite (validate_title_error _ _ Hvt Ht). unfold length_errors. simpl.
      intros [E|[E|[E|[E|[E|[E|[]]]]]]]; discriminate E. }
  destruct (MetadataValidator.validate_description description) as [|e0] eqn:Hvd.
  2:{ destruct (validate_description_error _ _ Hvd Hd). }
  destruct (MetadataValidator.validate_tags (Main.parse_tags tags)) as [|e0] eqn:Hvg.
  2:{ unfold ret. intros E. injection E as <- _.
      rewrite (validate_tags_error _ _ Hvg).
      - unfold length_errors. simpl.
        intros [E|[E|[E|[E|[E|[E|[]]]]]]]; discriminate E.
      - intros l Hl. destruct (Hg l Hl) as [Hn Hlen]. split; [exact Hn|].
        split; [exact Hlen|].
        eapply List.Forall_impl; [|exact (parse_tags_normal tags l Hl)].
        intros tag [Hb _]. exact Hb. }
  destruct (MetadataValidator.validate_user_id (Some user_id)) as [|e0] eqn:Hvu.
  2:{ unfold ret. intros E. injection E as <- _.
      destruct (validate_user_id_error _ _ Hvu Hu) as [-> | ->];
        unfold length_errors; simpl;
        intros [E|[E|[E|[E|[E|[E|[]]]]]]]; discriminate E. }
  destruct w as [b t fs c]. run_store.
  destruct fs as [|[] [|[] fs]]; simpl; try discriminate;
    try (destruct fs as [|[] fs]; simpl);
    intros E; inversion E; subst; unfold length_errors; simpl;
    intros [E'|[E'|[E'|[E'|[E'|[E'|[]]]]]]]; discriminate E'.
Qed.

Lemma form_value_some (v : option string) (t : string) :
  v = Some t -> 0 < Py.len t -> Main.form_value v = Some t.
Proof.
  intros -> Hl. destruct t as [|c r]; [unfold Py.len in Hl; simpl in Hl; lia | reflexivity].
Qed.

Lemma parse_tags_form_value (tags : option string) :
  Main.parse_tags (Main.form_value tags) = Main.parse_tags tags.
Proof. destruct tags as [[|c r]|]; reflexivity. Qed.

(** X20.  [POST /images] builds [ImageUploadRequest] before it calls
    the service: for a request with a file of an image content type and
    a user, a title over 200 characters, a description over 1000, more
    than ten tags or a tag over 50 characters make the model raise, and
    the handler answers status 500 ['Internal server error'] without
    any call. *)
Theorem upload_handler_answers_500_for_long_fields (fresh : Fresh)
    (file : Main.UploadFile) (content_type : string)
    (title description tags : option string) (user_id : string) (w : World) :
  Main.uf_content_type file = Some content_type ->
  String.prefix "image/" content_type = true ->
  user_id <> EmptyString ->
  (exists t, title = Some t /\ 200 < Py.len t)
  \/ (exists d, description = Some d /\ 1000 < Py.len d)
  \/ (exists l, Main.parse_tags tags = Some l /\ (10 < length l)%nat)
  \/ (exists l tag, Main.parse_tags tags = Some l /\ In tag l /\ 50 < Py.len tag) ->
  Main.upload_image fresh (Some file) title description tags (Some user_id) w
  = (Main.Handled (Main.HTTPException 500 "Internal server error"), w).
Proof.
  intros Hct Hp Hu Hbad. unfold Main.upload_image.
  assert (Hfu : Main.form_value (Some user_id) = Some user_id).
  { destruct user_id; [congruence | reflexivity]. }
  rewrite Hfu. unfold bind, Main.upload_image_body. rewrite Hct.
  assert (Ht : Py.truthy_opt (Some content_type) = true).
  { destruct content_type; [discriminate | reflexivity]. }
  rewrite Ht. change (default EmptyString (Some content_type)) with content_type.
  rewrite Hp. cbn [negb orb]. rewrite parse_tags_form_value.
  destruct (ImageUploadRequest_of (Main.form_value title) (Main.form_value description)
              (Main.parse_tags tags) user_id) as [upload_request|] eqn:Hreq; [|reflexivity].
  exfalso. apply ImageUploadRequest_of_checked in Hreq as (_ & Hlt & Hld & Hlg & _).
  destruct Hbad as [(t & E & Hl) | [(d & E & Hl) | [(l & E & Hl) | (l & tag & E & Hin & Hl)]]].
  - specialize (Hlt t (form_value_some _ _ E ltac:(lia))). lia.
  - specialize (Hld d (form_value_some _ _ E ltac:(lia))). lia.
  - destruct (Hlg l E) as [Hn _]. lia.
  - destruct (Hlg l E) as [_ Hall].
    pose proof (proj1 (List.Forall_forall _ _) Hall tag Hin) as Hle. simpl in Hle. lia.
Qed.

(** X21.  [POST /images] answers 200, 400, 422 or 500: 422 exactly
    when the file or the user is missing (an empty user counts as
    missing), before the handler runs; status 500 comes before any
    call, and a failure of either store is a 400; the table is changed
    only with status 200; and the messages of the service about
    lengths, the number of tags, empty tags and the missing user are
    never the detail of a 400: the declarations and the request model
    have checked these before. *)
Theorem upload_handler_outcomes (fresh : Fresh) (file : option Main.UploadFile)
    (title description tags user_id : option string) (w : World) :
  let '(r, w') := Main.upload_image fresh file title description tags user_id w in
  (Main.endpoint_status r = 200 \/ Main.endpoint_status r = 400
   \/ Main.endpoint_status r = 422 \/ Main.endpoint_status r = 500)
  /\ (Main.endpoint_status r = 422
      <-> file = None \/ user_id = None \/ user_id = Some EmptyString)
  /\ (Main.endpoint_status r = 422 \/ Main.endpoint_status r = 500 -> w' = w)
  /\ (Main.endpoint_status r <> 200 -> table w' = table w)
  /\ (forall detail,
        r = Main.Handled (Main.HTTPException 400 detail) -> ~ In detail length_errors).
Proof.
  unfold Main.upload_image.
  destruct file as [file|].
  2:{ simpl. split; [auto|]. split; [split; auto|]. split; [auto|].
      split; [auto | discriminate]. }
  destruct user_id as [[|c u]|].
  1,3: simpl; (split; [auto|]); (split; [split; auto|]); (split; [auto|]);
       (split; [auto | discriminate]).
  assert (Hno : ~ (Some file = None \/ Some (String c u) = None
                   \/ Some (String c u) = Some EmptyString)).
  { intros [E|[E|E]]; discriminate E. }
  change (Main.form_value (Some (String c u))) with (Some (String c u)). cbv iota.
  unfold bind, Main.upload_image_body.
  destruct (_ || _).
  { unfold ret. simpl. split; [auto|].
    split; [split; [discriminate | intros Hf; destruct (Hno Hf)]|].
    split; [intros [E|E]; discriminate E|]. split; [auto|].
    intros detail E. injection E as <-. unfold length_errors. simpl.
    intros [E|[E|[E|[E|[E|[E|[]]]]]]]; discriminate E. }
  destruct (ImageUploadRequest_of (Main.form_value title) (Main.form_value description)
              (Main.parse_tags (Main.form_value tags)) (String c u))
    as [upload_request|] eqn:Hreq.
  2:{ unfold ret. simpl. split; [auto|].
      split; [split; [discriminate | intros Hf; destruct (Hno Hf)]|].
      split; [auto|]. split; [auto | discriminate]. }
  unfold bind.
  destruct (ImageService.upload_image fresh (Main.uf_content file)
              (if Py.truthy_opt (Main.uf_filename file)
               then default EmptyString (Main.uf_filename file)
               else "unknown.jpg") upload_request w) as [[uploaded|e] w'] eqn:Eu;
    unfold ret; simpl.
  - split; [auto|].
    split; [split; [discriminate | intros Hf; destruct (Hno Hf)]|].
    split; [intros [E|E]; discriminate E|]. split; [congruence | discriminate].
  - split; [auto|].
    split; [split; [discriminate | intros Hf; destruct (Hno Hf)]|].
    split; [intros [E|E]; discriminate E|].
    split; [intros _; exact (upload_image_failure _ _ _ _ _ _ _ Eu)|].
    intros detail E. injection E as <-.
    exact (upload_image_error _ _ _ _ _ _ _ _ _ _ _ Hreq Eu).
Qed.

End UploadRoute.

(** ** The handlers of the per-function deployment *)

Section HandlerForms.
Import Model Store.
Context `{Externals}.

(** X22.  [DELETE /images/{image_id}/permanent] removes nothing: in
    every world the bucket is unchanged and the table keeps its
    records.  Without the exact confirmation it answers 400 before any
    call; with it, it is the soft delete, except that the owner of a
    record that is deleted already is answered 200. *)
Theorem permanent_delete_removes_nothing (w : World)
    (now image_id x_user_id confirmation : string) :
  let '(r, w') :=
    Handlers.permanently_delete_image now image_id x_user_id confirmation w in
  bucket w' = bucket w
  /\ map (fun it : Item => (Model.image_id it, created_at it)) (table w')
     = map (fun it : Item => (Model.image_id it, created_at it)) (table w)
  /\ (confirmation <> "PERMANENT_DELETE" ->
      r = Main.HTTPException 400 "Missing or invalid confirmation header" /\ w' = w)
  /\ (confirmation = "PERMANENT_DELETE" ->
      Main.status r
      = (if negb (goes_through 0 w) then 404
         else match DynamoDBClient.query_by_id (table w) image_id with
              | None => 404
              | Some metadata =>
                  if negb (String.eqb (user_id metadata) x_user_id) then 403
                  else if is_deleted metadata then 200
                  else if goes_through 1 w then 200 else 400
              end)).
Proof.
  unfold Handlers.permanently_delete_image.
  destruct (String.eqb_spec confirmation "PERMANENT_DELETE") as [->|Hn]; cbn [negb].
  2:{ unfold ret. repeat split; congruence. }
  unfold ImageService.delete_image, goes_through.
  destruct w as [b t fs c]. run_store.
  destruct fs as [|f1 fs]; simpl; [|destruct f1; simpl; [repeat split; congruence|]];
    (destruct (DynamoDBClient.query_by_id t image_id) as [metadata|]; simpl;
       [|repeat split; congruence]);
    (destruct (String.eqb (user_id metadata) x_user_id); simpl;
       [|repeat split; congruence]);
    (destruct (is_deleted metadata); simpl; [repeat split; congruence|]);
    try (destruct fs as [|[] fs]; simpl);
    repeat split; try reflexivity; try congruence; try apply update_item_keys.
Qed.

Lemma dict_pop_model_dump (r : ImageResponse) :
  dict_pop (model_dump r) "s3_key" = model_dump r.
Proof. reflexivity. Qed.

Lemma get_image_success_is_dump (w w' : World) (image_id : string)
    (include_download_url : bool) (image : Dict) :
  ImageService.get_image image_id include_download_url w = (Success image, w') ->
  exists r, image = model_dump r.
Proof.
  unfold ImageService.get_image. run_store.
  repeat match goal with
         | |- context [match ?x with _ => _ end] => destruct x eqn:?; simpl
         | |- context [if ?x then _ else _] => destruct x eqn:?; simpl
         end;
    intros E; inversion E; subst; eexists; reflexivity.
Qed.

(** X23.  [GET /images/{image_id}/metadata] is [GET /images/{image_id}]
    without the URL: the key that it pops from the image is not there
    to be removed. *)
Theorem metadata_route_is_get_image_without_url (image_id : string) (w : World) :
  Handlers.get_image_metadata image_id w = Main.get_image image_id false w.
Proof.
  unfold Handlers.get_image_metadata, Main.get_image, bind.
  destruct (ImageService.get_image image_id false w) as [[image|e] w'] eqn:E;
    [|reflexivity].
  destruct (get_image_success_is_dump _ _ _ _ _ E) as [r ->].
  rewrite dict_pop_model_dump. reflexivity.
Qed.

End HandlerForms.

(** ** The gateways *)

Section Gateways.
Import Model Store.

(** X24.  A blob that [upload_image] has written is what [get_image]
    reads and [image_exists] finds, and after [delete_image] neither
    finds it, when the calls go through; and [image_exists] answers
    [True] only for a key that the bucket holds (but [False] also when
    its call raises). *)
Theorem blob_round_trip (w : World) (file_content key content_type : string) :
  (reliable 2 w ->
   let w1 := (S3Client.upload_image file_content key content_type w).2 in
   (S3Client.get_image key w1).1 = Some file_content
   /\ (S3Client.image_exists key w1).1 = true)
  /\ (reliable 2 w ->
      let w1 := (S3Client.delete_image key w).2 in
      (S3Client.get_image key w1).1 = None
      /\ (S3Client.image_exists key w1).1 = false)
  /\ ((S3Client.image_exists key w).1 = true -> bucket w !! key <> None)
  /\ (goes_through 0 w = false -> (S3Client.image_exists key w).1 = false).
Proof.
  unfold reliable, goes_through. destruct w as [b t fs c].
  split; [|split; [|split]].
  - intros Hr. run_store.
    destruct fs as [|f1 [|f2 fs]]; simpl in *;
      repeat match goal with
             | H : Forall _ (_ :: _) |- _ => inversion H; subst; clear H
             end; simpl; rewrite lookup_insert_eq; auto.
  - intros Hr. run_store.
    destruct fs as [|f1 [|f2 fs]]; simpl in *;
      repeat match goal with
             | H : Forall _ (_ :: _) |- _ => inversion H; subst; clear H
             end; simpl; rewrite lookup_delete_eq; auto.
  - run_store. destruct fs as [|[] fs]; simpl; try discriminate;
      destruct (b !! key); try discriminate; intros _; discriminate.
  - run_store. destruct fs as [|[] fs]; simpl; try discriminate. reflexivity.
Qed.

Lemma get_item_put_item (t : list Item) (it : Item) :
  DynamoDBClient.get_item (DynamoDBClient.put_item t it) (image_id it) (created_at it)
  = Some it.
Proof.
  unfold DynamoDBClient.get_item.
  assert (Hk : DynamoDBClient.same_key (image_id it) (created_at it) it = true).
  { unfold DynamoDBClient.same_key. rewrite !String.eqb_refl. reflexivity. }
  induction t as [|x r IH]; simpl.
  - rewrite Hk. reflexivity.
  - destruct (DynamoDBClient.same_key (image_id it) (created_at it) x) eqn:E; simpl.
    + rewrite Hk. reflexivity.
    + rewrite E. exact IH.
Qed.

Lemma same_key_other (it : Item) (id created : string) (x : Item) :
  (id, created) <> (image_id it, created_at it) ->
  DynamoDBClient.same_key (image_id it) (created_at it) x = true ->
  DynamoDBClient.same_key id created x = false.
Proof.
  unfold DynamoDBClient.same_key. intros Hne Hx.
  apply andb_true_iff in Hx as [H1 H2].
  apply String.eqb_eq in H1, H2.
  destruct (String.eqb_spec (image_id x) id); [|reflexivity].
  destruct (String.eqb_spec (created_at x) created); [|reflexivity].
  exfalso. apply Hne. congruence.
Qed.

Lemma get_item_put_item_other (t : list Item) (it : Item) (id created : string) :
  (id, created) <> (image_id it, created_at it) ->
  DynamoDBClient.get_item (DynamoDBClient.put_item t it) id created
  = DynamoDBClient.get_item t id created.
Proof.
  intros Hne. unfold DynamoDBClient.get_item.
  assert (Hit : DynamoDBClient.same_key id created it = false).
  { apply (same_key_other it id created it Hne).
    unfold DynamoDBClient.same_key. rewrite !String.eqb_refl. reflexivity. }
  induction t as [|x r IH]; simpl.
  - rewrite Hit. reflexivity.
  - destruct (DynamoDBClient.same_key (image_id it) (created_at it) x) eqn:E; simpl.
    + rewrite Hit, (same_key_other it id created x Hne E). reflexivity.
    + destruct (DynamoDBClient.same_key id created x); [reflexivity | exact IH].
Qed.

Lemma get_item_delete_item (t : list Item) (id created : string) :
  DynamoDBClient.get_item (DynamoDBClient.delete_item t id created) id created = None.
Proof.
  unfold DynamoDBClient.get_item, DynamoDBClient.delete_item.
  induction t as [|x r IH]; [reflexivity|]. simpl.
  destruct (DynamoDBClient.same_key id created x) eqn:E; simpl; [exact IH|].
  rewrite E. exact IH.
Qed.

(** X25.  A record that [put_image_metadata] has written is what
    [get_image_metadata] reads at its key, the records at the other
    keys are read as before, and after [delete_image_metadata] the key
    holds nothing, when the calls go through. *)
Theorem metadata_round_trip (w : World) (image_data : Item) :
  reliable 2 w ->
  (let w1 := (DynamoDBClient.put_image_metadata image_data w).2 in
   (DynamoDBClient.get_image_metadata (image_id image_data) (created_at image_data) w1).1
   = Some image_data
   /\ forall id created,
        (id, created) <> (image_id image_data, created_at image_data) ->
        (DynamoDBClient.get_image_metadata id created w1).1
        = DynamoDBClient.get_item (table w) id created)
  /\ (let w1 := (DynamoDBClient.delete_image_metadata (image_id image_data)
                   (created_at image_data) w).2 in
      (DynamoDBClient.get_image_metadata (image_id image_data) (created_at image_data)
         w1).1 = None).
Proof.
  unfold reliable. destruct w as [b t fs c]. intros Hr. run_store.
  destruct fs as [|f1 [|f2 fs]]; simpl in *;
    repeat match goal with
           | H : Forall _ (_ :: _) |- _ => inversion H; subst; clear H
           end; simpl;
    (split; [split; [apply get_item_put_item|]|apply get_item_delete_item]);
    intros id created Hne; apply get_item_put_item_other; exact Hne.
Qed.

End Gateways.

Section MimeTypes.

(** X26.  [validate_mime_type] accepts, in any letter case, exactly
    the types [image/<ext>] of the extensions that
    [validate_file_extension] allows. *)
Theorem validate_mime_type_accepts (mime_type : string) :
  ImageValidator.validate_mime_type mime_type = true
  <-> exists ext,
        In ext ImageValidator.ALLOWED_EXTENSIONS
        /\ Py.lower mime_type = "image/" +:+ ext.
Proof.
  unfold ImageValidator.validate_mime_type. rewrite mem_In. split.
  - simpl. intros [E|[E|[E|[E|[E|[]]]]]]; rewrite <- E.
    + exists "jpeg". split; [simpl; auto | reflexivity].
    + exists "jpg". split; [simpl; auto | reflexivity].
    + exists "png". split; [simpl; auto | reflexivity].
    + exists "gif". split; [simpl; auto 6 | reflexivity].
    + exists "webp". split; [simpl; auto 6 | reflexivity].
  - intros (ext & Hin & ->). simpl in Hin.
    destruct Hin as [<-|[<-|[<-|[<-|[<-|[]]]]]]; cbv; auto 6.
Qed.

End MimeTypes.

(** ** Reads *)

Section Reads.
Import Model Store.
Context `{Externals}.

(** X27.  [get_image] and [list_images] are reads: in every world,
    whatever they answer, the table and the bucket are as before. *)
Theorem reads_change_no_store (w : World) :
  (forall image_id include_download_url,
     let w' := (ImageService.get_image image_id include_download_url w).2 in
     table w' = table w /\ bucket w' = bucket w)
  /\ (forall limit page_token user_id tags,
        let w' := (ImageService.list_images limit page_token user_id tags w).2 in
        table w' = table w /\ bucket w' = bucket w).
Proof.
  split.
  - intros image_id include_download_url. unfold ImageService.get_image.
    destruct w as [b t fs c]. run_store.
    destruct fs as [|[] fs]; simpl; try (split; reflexivity);
      (destruct (DynamoDBClient.query_by_id t image_id) as [metadata|]; simpl;
         [|split; reflexivity]);
      (destruct (is_deleted metadata); simpl; [split; reflexivity|]);
      (destruct (ImageResponse_of _); simpl; [|split; reflexivity]);
      (destruct include_download_url; simpl; [|split; reflexivity]);
      try (destruct fs as [|[] fs]; simpl); split; reflexivity.
  - intros limit page_token user_id tags. unfold ImageService.list_images.
    destruct (ImageService.decode_page_token page_token) as [key|]; [|split; reflexivity].
    unfold bind.
    pose proof (query_images_spec limit key user_id tags w) as Hq.
    destruct (ImageService.query_images limit key user_id tags w) as [page w1].
    destruct Hq as (Ht & Hb & _).
    pose proof (image_responses_spec (List.filter ImageService.live (items page)) w1) as Hr.
    destruct (ImageService.image_responses (List.filter ImageService.live (items page)) w1)
      as [rs w2].
    destruct Hr as (Ht2 & Hb2 & _).
    destruct rs; simpl; split; congruence.
Qed.

End Reads.

(** ** The further properties at concrete inputs *)

Section FurtherInstances.
Import Model Store.

Lemma stored_tags_are_served_stripped_witness :
  let md := create_new Sample.fresh (mkUploadRequest None None (Some ["sea"; " sky "]) "u1")
              "a.png" 2048 "image/png" 100 100 "png" in
  tags md = Some ["sea"; " sky "]
  /\ ["sea"; " sky "] <> @nil string
  /\ MetadataValidator.validate_tags (Some ["sea"; " sky "]) = Valid
  /\ ImageResponse_of
       (ImageService._convert_dynamo_to_api_format (ImageService.to_dynamo md))
     = ImageResponse_of (with_tags md (TagsList ["sea"; "sky"])).
Proof.
  intros md.
  assert (H1 : tags md = Some ["sea"; " sky "]) by reflexivity.
  assert (H2 : ["sea"; " sky "] <> @nil string) by discriminate.
  assert (H3 : MetadataValidator.validate_tags (Some ["sea"; " sky "]) = Valid)
    by (vm_compute; reflexivity).
  exact (conj H1 (conj H2 (conj H3 (stored_tags_are_served_stripped md _ H1 H2 H3)))).
Defined.

Lemma tags_read_back_are_normal_witness :
  ImageService.convert_tags " a ,, b," = TagsList ["a"; "b"]
  /\ ImageService.convert_tags (ImageService.join_tags (Some ["a"; "b"]))
     = TagsList ["a"; "b"].
Proof.
  assert (H : ImageService.convert_tags " a ,, b," = TagsList ["a"; "b"])
    by (vm_compute; reflexivity).
  split; [exact H|].
  apply (proj2 (tags_read_back_are_normal _ _ H)). discriminate.
Defined.

(** A file of four bytes under an allowed name. *)
Lemma upload_image_rejection_makes_no_call_witness :
  ~ (exists width height format,
       @ImageService.validated Sample.externals "tiny" "a.jpg" Sample.request
         width height format)
  /\ forall w,
       @ImageService.upload_image Sample.externals Sample.fresh "tiny" "a.jpg"
         Sample.request w
       = (Failure "File size must be between 1KB and 10MB", w).
Proof.
  assert (Hn : ~ (exists width height format,
                    @ImageService.validated Sample.externals "tiny" "a.jpg" Sample.request
                      width height format)).
  { intros (width & height & format & _ & Hs & _). vm_compute in Hs. discriminate Hs. }
  destruct (@upload_image_rejection_makes_no_call Sample.externals Sample.fresh "tiny"
              "a.jpg" Sample.request Hn) as (e & Hw & _ & Hsize).
  rewrite (Hsize eq_refl eq_refl) in Hw. exact (conj Hn Hw).
Defined.

Lemma uploaded_record_is_within_bounds_witness :
  let w' := (@ImageService.upload_image Sample.externals Sample.fresh Sample.file_content
               "sunset.JPG" Sample.request Sample.empty_world).2 in
  @ImageService.upload_image Sample.externals Sample.fresh Sample.file_content
    "sunset.JPG" Sample.request Sample.empty_world
  = (Success (ImageService.mkUploaded "img-9" "Image uploaded successfully"), w')
  /\ exists item : Item,
       In item (table w')
       /\ image_id item = "img-9"
       /\ file_size item = 2048
       /\ 50 <= width item <= 4000
       /\ s3_key item = "images/2024/02/img-9." +:+ format item
       /\ bucket w' !! s3_key item
          = Some (mkS3Object Sample.file_content (content_type item)).
Proof.
  intros w'.
  assert (E : @ImageService.upload_image Sample.externals Sample.fresh Sample.file_content
                "sunset.JPG" Sample.request Sample.empty_world
              = (Success (ImageService.mkUploaded "img-9" "Image uploaded successfully"), w'))
    by (vm_compute; reflexivity).
  split; [exact E|].
  destruct (@uploaded_record_is_within_bounds Sample.externals _ _ _ _ _ _ _ E)
    as (item & Hin & _ & Hid & _ & _ & _ & _ & _ & Hsize & _ & Hw & _ & _ & _ & Hkey & Hb).
  exists item.
  exact (conj Hin (conj Hid (conj Hsize (conj Hw (conj Hkey Hb))))).
Defined.

Lemma uploaded_image_is_read_back_witness :
  @ImageService.validated Sample.externals Sample.file_content "sunset.JPG"
    Sample.request 200 200 "jpeg"
  /\ req_tags Sample.request = Some ["sea"; "sky"]
  /\ reliable 3 Sample.empty_world
  /\ Forall (fun it : Item => image_id it <> uuid4 Sample.fresh) (table Sample.empty_world)
  /\ let '(r, w1) := @ImageService.upload_image Sample.externals Sample.fresh
                        Sample.file_content "sunset.JPG" Sample.request
                        Sample.empty_world in
     exists image,
       (@ImageService.get_image Sample.externals "img-9" false w1).1 = Success image
       /\ dict_get image "tags" = Some (PStrList ["sea"; "sky"])
       /\ dict_get image "file_name" = Some (PStr "sunset.JPG").
Proof.
  assert (Hv : @ImageService.validated Sample.externals Sample.file_content "sunset.JPG"
                 Sample.request 200 200 "jpeg")
    by (unfold ImageService.validated; repeat split; vm_compute; reflexivity).
  assert (Hl : req_tags Sample.request = Some ["sea"; "sky"]) by reflexivity.
  assert (Hne : ["sea"; "sky"] <> @nil string) by discriminate.
  assert (Hr : reliable 3 Sample.empty_world) by constructor.
  assert (Hf : Forall (fun it : Item => image_id it <> uuid4 Sample.fresh)
                 (table Sample.empty_world)) by constructor.
  pose proof (@uploaded_image_is_read_back Sample.externals Sample.fresh Sample.file_content
                "sunset.JPG" Sample.request 200 200 "jpeg" ["sea"; "sky"]
                Sample.empty_world Hv Hl Hne Hr Hf) as T.
  split; [exact Hv|]. split; [exact Hl|]. split; [exact Hr|]. split; [exact Hf|].
  revert T.
  destruct (@ImageService.upload_image Sample.externals Sample.fresh Sample.file_content
              "sunset.JPG" Sample.request Sample.empty_world) as [r w1].
  intros [_ T]. eexists. split; [exact T|]. split; reflexivity.
Defined.

(** The record write fails and the compensating delete goes through. *)
Lemma rolled_back_upload_leaves_no_blob_witness :
  let w := mkWorld ∅ [] [false; true; false] [] in
  @ImageService.validated Sample.externals Sample.file_content "sunset.JPG"
    Sample.request 200 200 "jpeg"
  /\ goes_through 0 w = true
  /\ goes_through 1 w = false
  /\ bucket (@ImageService.upload_image Sample.externals Sample.fresh Sample.file_content
               "sunset.JPG" Sample.request w).2 !! "images/2024/02/img-9.jpeg" = None.
Proof.
  intros w.
  assert (Hv : @ImageService.validated Sample.externals Sample.file_content "sunset.JPG"
                 Sample.request 200 200 "jpeg")
    by (unfold ImageService.validated; repeat split; vm_compute; reflexivity).
  assert (H0 : goes_through 0 w = true) by reflexivity.
  assert (H1 : goes_through 1 w = false) by reflexivity.
  exact (conj Hv (conj H0 (conj H1
           (proj1 (proj2 (@rolled_back_upload_leaves_no_blob Sample.externals Sample.fresh
                            Sample.file_content "sunset.JPG" Sample.request 200 200 "jpeg"
                            w Hv H0 H1)))))).
Defined.

Lemma get_image_of_live_record_witness :
  goes_through 0 Sample.world = true
  /\ DynamoDBClient.query_by_id (table Sample.world) "img-1" = Some Sample.live_item
  /\ is_deleted Sample.live_item = false
  /\ ImageService.convert_tags (tags Sample.live_item) = TagsList ["a"; "b"]
  /\ let '(r, w') := @ImageService.get_image Sample.externals "img-1" true Sample.world in
     calls w' = [QueryById "img-1" true;
                 PresignGet "images/2024/01/img-1.jpeg" 3600 true]
     /\ table w' = table Sample.world.
Proof.
  assert (H0 : goes_through 0 Sample.world = true) by reflexivity.
  assert (Hq : DynamoDBClient.query_by_id (table Sample.world) "img-1"
               = Some Sample.live_item) by reflexivity.
  assert (Hd : is_deleted Sample.live_item = false) by reflexivity.
  assert (Hl : ImageService.convert_tags (tags Sample.live_item) = TagsList ["a"; "b"])
    by (vm_compute; reflexivity).
  pose proof (@get_image_of_live_record Sample.externals Sample.world "img-1" true
                Sample.live_item ["a"; "b"] H0 Hq Hd Hl) as T.
  split; [exact H0|]. split; [exact Hq|]. split; [exact Hd|]. split; [exact Hl|].
  cbv zeta in T. revert T.
  destruct (@ImageService.get_image Sample.externals "img-1" true Sample.world) as [r w'].
  intros (_ & Hc & Ht & _). exact (conj Hc Ht).
Defined.

(** The table holds the record, and the query raises. *)
Lemma store_failure_is_reported_as_not_found_witness :
  let w := mkWorld ∅ (table Sample.world) [true] [] in
  goes_through 0 w = false
  /\ DynamoDBClient.query_by_id (table w) "img-1" = Some Sample.live_item
  /\ (@Main.get_image Sample.externals "img-1" true w).1
     = Main.HTTPException 404 "Image not found"
  /\ (Main.delete_image "2024-03-01T00:00:00" "img-1" "u1" w).1
     = Main.HTTPException 404 "Image not found".
Proof.
  intros w.
  assert (H0 : goes_through 0 w = false) by reflexivity.
  assert (Hq : DynamoDBClient.query_by_id (table w) "img-1" = Some Sample.live_item)
    by reflexivity.
  destruct (@store_failure_is_reported_as_not_found Sample.externals w
              "2024-03-01T00:00:00" "img-1" "u1" true H0) as (_ & _ & Hg & Hd).
  exact (conj H0 (conj Hq (conj Hg Hd))).
Defined.

(** The owner of a deleted record, and another user. *)
Lemma delete_image_status_witness :
  Main.status (Main.delete_image "2024-03-01T00:00:00" "img-2" "u1" Sample.world).1 = 410
  /\ Main.status (Main.delete_image "2024-03-01T00:00:00" "img-2" "u2" Sample.world).1 = 403.
Proof.
  pose proof (delete_image_status Sample.world "2024-03-01T00:00:00" "img-2" "u1") as T1.
  pose proof (delete_image_status Sample.world "2024-03-01T00:00:00" "img-2" "u2") as T2.
  revert T1 T2.
  destruct (Main.delete_image "2024-03-01T00:00:00" "img-2" "u1" Sample.world) as [r1 w1].
  destruct (Main.delete_image "2024-03-01T00:00:00" "img-2" "u2" Sample.world) as [r2 w2].
  intros [T1 _] [T2 _]. exact (conj T1 T2).
Defined.

Lemma deleted_image_is_hidden_and_kept_witness :
  reliable 3 Sample.world
  /\ DynamoDBClient.query_by_id (table Sample.world) "img-1" = Some Sample.live_item
  /\ user_id Sample.live_item = "u1"
  /\ is_deleted Sample.live_item = false
  /\ let w1 := (ImageService.delete_image "2024-03-01T00:00:00" "img-1" "u1"
                  Sample.world).2 in
     (@ImageService.get_image Sample.externals "img-1" true w1).1
     = Failure "Image not found"
     /\ length (table w1) = 4%nat.
Proof.
  assert (Hr : reliable 3 Sample.world) by constructor.
  assert (Hq : DynamoDBClient.query_by_id (table Sample.world) "img-1"
               = Some Sample.live_item) by reflexivity.
  assert (Hu : user_id Sample.live_item = "u1") by reflexivity.
  assert (Hd : is_deleted Sample.live_item = false) by reflexivity.
  destruct (@deleted_image_is_hidden_and_kept Sample.externals Sample.world
              "2024-03-01T00:00:00" "img-1" "u1" true Sample.live_item Hr Hq Hu Hd)
    as (Hg & _ & _).
  split; [exact Hr|]. split; [exact Hq|]. split; [exact Hu|]. split; [exact Hd|].
  split; [exact Hg | reflexivity].
Defined.

Lemma list_images_store_failure_witness :
  let w := mkWorld ∅ (table Sample.world) [true] [] in
  ImageService.decode_page_token None = Some Json.JNull
  /\ goes_through 0 w = false
  /\ (@ImageService.list_images Sample.externals 10 None None None w).1
     = Success (ImageService.mkListing [] 0 None false).
Proof.
  intros w.
  assert (Hk : ImageService.decode_page_token None = Some Json.JNull) by reflexivity.
  assert (H0 : goes_through 0 w = false) by reflexivity.
  destruct (@list_images_store_failure Sample.externals 10 None None None Json.JNull w
              Hk H0) as (call & _ & E).
  split; [exact Hk|]. split; [exact H0|]. rewrite E. reflexivity.
Defined.

Lemma responses_have_no_internal_field_witness :
  exists image w',
    @ImageService.get_image Sample.externals "img-1" true Sample.world
    = (Success image, w')
    /\ dict_get image "s3_key" = None
    /\ dict_get image "image_id" = Some (PStr "img-1").
Proof.
  eexists. eexists.
  match goal with
  | |- ?l = (Success ?image, ?w') /\ _ =>
      assert (E : l = (Success image, w')) by (vm_compute; reflexivity)
  end.
  split; [exact E|].
  split; [|reflexivity].
  exact (proj1 (proj1 (@responses_have_no_internal_field Sample.externals _ _) _ _ _ E)).
Defined.

(** A page of two from the sample table: the token is the key of the
    second record, and the next call starts after it. *)
Lemma next_page_token_resumes_witness :
  let token := PageToken.encode (Sample.key_of Sample.deleted_item) in
  (exists listing w1,
     @ImageService.list_images Sample.externals 2 None None None Sample.world
     = (Success listing, w1)
     /\ ImageService.next_page_token listing = Some token)
  /\ Json.valid_cursor (Sample.key_of Sample.deleted_item)
  /\ ImageService.decode_page_token (Some token)
     = Some (Json.of_cursor (Sample.key_of Sample.deleted_item))
  /\ List.filter is_fetch
       (calls (@ImageService.list_images Sample.externals 2 (Some token) None None
                 Sample.world).2)
     = [Scan 2 (Some (Json.of_cursor (Sample.key_of Sample.deleted_item))) None None true].
Proof.
  intros token.
  assert (E : exists listing w1,
             @ImageService.list_images Sample.externals 2 None None None Sample.world
             = (Success listing, w1)
             /\ ImageService.next_page_token listing = Some token).
  { eexists. eexists. split; [vm_compute; reflexivity|]. vm_compute. reflexivity. }
  assert (Hv : Json.valid_cursor (Sample.key_of Sample.deleted_item)).
  { split; [|reflexivity]. simpl.
    apply NoDup_cons_2; [|apply NoDup_cons_2; [|apply NoDup_nil_2]].
    - intros Hin. apply list_elem_of_In in Hin. destruct Hin as [E'|[]]. discriminate E'.
    - intros Hin. apply list_elem_of_In in Hin. destruct Hin. }
  split; [exact E|]. split; [exact Hv|].
  destruct E as (listing & w1 & E & Ht).
  destruct (@next_page_token_resumes Sample.externals 2 None None None Sample.world w1
              listing token E Ht) as (key & cursor & Hk & Hlek & Htok & _ & Hres).
  assert (Hc : cursor = Sample.key_of Sample.deleted_item).
  { injection Hk as <-. vm_compute in Hlek. injection Hlek as <-. reflexivity. }
  subst cursor. destruct (Hres Hv) as [Hd Hcalls].
  split; [exact Hd|]. exact (Hcalls 2 Sample.world).
Defined.

(** The limit 0 of the repository's test, and the limit 10. *)
Lemma list_images_handler_checks_limit_witness :
  0 < 1
  /\ @Main.list_images Sample.externals (Some 0) None None None None None Sample.world
     = (Main.Unprocessable, Sample.world)
  /\ List.filter is_fetch
       (calls (@Main.list_images Sample.externals (Some 10) None None None None None
                 Sample.world).2)
     = [Scan 10 None None None true].
Proof.
  assert (H0 : 0 < 1) by reflexivity.
  split; [exact H0|].
  pose proof (@list_images_handler_checks_limit Sample.externals (Some 0) None None None
                None None Sample.world) as T.
  revert T.
  destruct (@Main.list_images Sample.externals (Some 0) None None None None None
              Sample.world) as [r w'].
  intros (T & _). destruct (T 0 eq_refl (or_introl H0)) as [-> ->].
  split; reflexivity.
Defined.

(** The token of one space, the token of one no-break space, and the
    empty token. *)
Lemma list_routes_differ_on_blank_tokens_witness :
  Main.query_limit (Some 10) = Some 10
  /\ Main.path_segment "u1" = true
  /\ Main.path_segment "b" = true
  /\ @Main.list_images Sample.externals (Some 10) (Some " ") (Some "u1") None None None
       Sample.world
     = (Main.Handled (Main.HTTPException 400 "Invalid pagination key"), Sample.world)
  /\ @Main.list_user_images Sample.externals "u1" (Some 10) (Some " ") Sample.world
     = (Main.Handled (Main.HTTPException 400 "Invalid page token"), Sample.world)
  /\ @Main.list_images Sample.externals (Some 10) (Some (String "160" EmptyString))
       (Some "u1") None None None Sample.world
     = (Main.Handled (Main.HTTPException 400 "Invalid pagination key"), Sample.world)
  /\ @Main.list_user_images Sample.externals "u1" (Some 10)
       (Some (String "160" EmptyString)) Sample.world
     = (Main.Handled (Main.HTTPException 400 "Invalid page token"), Sample.world)
  /\ @Main.list_user_images Sample.externals "u1" (Some 10) (Some EmptyString) Sample.world
     = @Main.list_user_images Sample.externals "u1" (Some 10) None Sample.world.
Proof.
  assert (Hl : Main.query_limit (Some 10) = Some 10) by reflexivity.
  assert (Hu : Main.path_segment "u1" = true) by reflexivity.
  assert (Hb : Main.path_segment "b" = true) by reflexivity.
  pose proof (@list_routes_differ_on_blank_tokens Sample.externals (Some 10) 10 (Some " ")
                "u1" "b" None None Sample.world Hl Hu Hb) as (T1 & T2 & _).
  pose proof (@list_routes_differ_on_blank_tokens Sample.externals (Some 10) 10
                (Some (String "160" EmptyString)) "u1" "b" None None Sample.world Hl Hu Hb)
    as (T4 & T5 & _).
  pose proof (@list_routes_differ_on_blank_tokens Sample.externals (Some 10) 10
                (Some EmptyString) "u1" "b" None None Sample.world Hl Hu Hb)
    as (_ & T3 & _).
  exact (conj Hl (conj Hu (conj Hb (conj (T1 (Some "u1") None) (conj T2
           (conj (T4 (Some "u1") None) (conj T5 T3))))))).
Defined.

Lemma upload_handler_answers_500_for_long_fields_witness :
  let title := Sample.repeat_char "A" 201 in
  let file := Main.mkUploadFile (Some "image/jpeg") (Some "a.jpg") Sample.file_content in
  String.prefix "image/" "image/jpeg" = true
  /\ 200 < Py.len title
  /\ @Main.upload_image Sample.externals Sample.fresh (Some file) (Some title) None
       (Some "sea,sky") (Some "u1") Sample.empty_world
     = (Main.Handled (Main.HTTPException 500 "Internal server error"), Sample.empty_world).
Proof.
  intros title file.
  assert (Hp : String.prefix "image/" "image/jpeg" = true) by reflexivity.
  assert (Ht : 200 < Py.len title) by (vm_compute; reflexivity).
  assert (Hu : "u1" <> EmptyString) by discriminate.
  refine (conj Hp (conj Ht _)).
  apply (@upload_handler_answers_500_for_long_fields Sample.externals Sample.fresh file
           "image/jpeg" (Some title) None (Some "sea,sky") "u1" Sample.empty_world
           eq_refl Hp Hu).
  left. exists title. split; [reflexivity | exact Ht].
Defined.

(** The write of the blob raises: status 400, and the table is as it
    was; and a request with an empty user: status 422. *)
Lemma upload_handler_outcomes_witness :
  let w := mkWorld ∅ (table Sample.world) [true] [] in
  let file := Main.mkUploadFile (Some "image/jpeg") (Some "a.jpg") Sample.file_content in
  (let '(r, w') := @Main.upload_image Sample.externals Sample.fresh (Some file) None None
                     (Some "sea, sky") (Some "u1") w in
   r = Main.Handled (Main.HTTPException 400 "Failed to upload image to storage")
   /\ table w' = table w)
  /\ Main.endpoint_status
       (@Main.upload_image Sample.externals Sample.fresh (Some file) None None None
          (Some EmptyString) w).1 = 422.
Proof.
  intros w file. split.
  - pose proof (@upload_handler_outcomes Sample.externals Sample.fresh (Some file) None None
                  (Some "sea, sky") (Some "u1") w) as T.
    revert T.
    destruct (@Main.upload_image Sample.externals Sample.fresh (Some file) None None
                (Some "sea, sky") (Some "u1") w) as [r w'] eqn:E.
    assert (Hr : r = Main.Handled (Main.HTTPException 400 "Failed to upload image to storage")).
    { apply (f_equal fst) in E. cbn [fst] in E. rewrite <- E. vm_compute. reflexivity. }
    intros (_ & _ & _ & Ht & _). split; [exact Hr|].
    apply Ht. rewrite Hr. discriminate.
  - pose proof (@upload_handler_outcomes Sample.externals Sample.fresh (Some file) None None
                  None (Some EmptyString) w) as T.
    revert T.
    destruct (@Main.upload_image Sample.externals Sample.fresh (Some file) None None None
                (Some EmptyString) w) as [r w'].
    intros (_ & [_ T] & _). apply T. right; right. reflexivity.
Defined.

(** The owner of a record that is deleted already is answered 200, and
    a request without the confirmation 400. *)
Lemma permanent_delete_removes_nothing_witness :
  Main.status (Handlers.permanently_delete_image "2024-03-01T00:00:00" "img-2" "u1"
                 "PERMANENT_DELETE" Sample.world).1 = 200
  /\ Handlers.permanently_delete_image "2024-03-01T00:00:00" "img-1" "u1" "yes" Sample.world
     = (Main.HTTPException 400 "Missing or invalid confirmation header", Sample.world).
Proof.
  pose proof (permanent_delete_removes_nothing Sample.world "2024-03-01T00:00:00" "img-2"
                "u1" "PERMANENT_DELETE") as T1.
  pose proof (permanent_delete_removes_nothing Sample.world "2024-03-01T00:00:00" "img-1"
                "u1" "yes") as T2.
  revert T1 T2.
  destruct (Handlers.permanently_delete_image "2024-03-01T00:00:00" "img-2" "u1"
              "PERMANENT_DELETE" Sample.world) as [r1 w1].
  destruct (Handlers.permanently_delete_image "2024-03-01T00:00:00" "img-1" "u1" "yes"
              Sample.world) as [r2 w2].
  intros (_ & _ & _ & T1) (_ & _ & T2 & _).
  assert (Hn : "yes" <> "PERMANENT_DELETE") by discriminate.
  destruct (T2 Hn) as [-> ->].
  exact (conj (T1 eq_refl) eq_refl).
Defined.

Lemma blob_round_trip_witness :
  reliable 2 Sample.empty_world
  /\ (S3Client.get_image "k"
        (S3Client.upload_image "bytes" "k" "image/png" Sample.empty_world).2).1
     = Some "bytes"
  /\ (S3Client.image_exists "k" (S3Client.delete_image "k" Sample.empty_world).2).1
     = false.
Proof.
  assert (Hr : reliable 2 Sample.empty_world) by constructor.
  destruct (blob_round_trip Sample.empty_world "bytes" "k" "image/png")
    as (T1 & T2 & _).
  exact (conj Hr (conj (proj1 (T1 Hr)) (proj2 (T2 Hr)))).
Defined.

Lemma metadata_round_trip_witness :
  reliable 2 Sample.world
  /\ (DynamoDBClient.get_image_metadata "img-2" "2024-01-02T10:00:00"
        (DynamoDBClient.put_image_metadata Sample.deleted_item Sample.world).2).1
     = Some Sample.deleted_item
  /\ (DynamoDBClient.get_image_metadata "img-2" "2024-01-02T10:00:00"
        (DynamoDBClient.delete_image_metadata "img-2" "2024-01-02T10:00:00"
           Sample.world).2).1
     = None.
Proof.
  assert (Hr : reliable 2 Sample.world) by constructor.
  destruct (metadata_round_trip Sample.world Sample.deleted_item Hr) as ([T1 _] & T2).
  exact (conj Hr (conj T1 T2)).
Defined.

End FurtherInstances.
